(** * QDMpy: the ODMR fitting core ([QDMpy/core/fit.py], [QDMpy/_core/models.py])

    A shallow embedding of the [Fit] class and of the guess helpers of
    [fit.py], with the model registry of [models.py].

    Modelling conventions.
    - A numpy array is a shape together with its row-major contents
      ([np.ndarray]).  Every numpy routine used by the source is written
      over that representation and raises where numpy raises.
    - A floating-point number is an exact rational or one of the IEEE
      special values ([np.float]): rounding and signed zeros are not
      modelled, division by zero and NaN propagation are.
    - Strings are ASCII; [str.upper] acts on [a]..[z].
    - A method of [Fit] is a computation in a state-and-exception monad
      over the instance ([fit.M]): an exception leaves the attributes
      assigned before it was raised in place, as in Python.
    - The batched solver [gf.fit_constrained] and the configuration
      [QDMpy.SETTINGS] are outside the repository core: they are the
      variables of the section that defines [Fit]. *)

From Stdlib Require Import QArith Qabs Qround ZArith List String Ascii Lia Lqa Bool.
From stdpp Require Import gmap strings list.

Open Scope string_scope.

(** ** Python exceptions *)

Inductive exn : Type :=
  | ValueError (msg : string)
  | KeyError (key : string)
  | IndexError (msg : string)
  | TypeError (msg : string)
  | AttributeError (msg : string)
  | NotImplementedError (msg : string)
  | AssertionError
  | RecursionError.

Inductive result (A : Type) : Type :=
  | Ok (a : A)
  | Raise (e : exn).
Arguments Ok {A} a.
Arguments Raise {A} e.

#[global] Instance result_ret : MRet result := fun _ a => Ok a.
#[global] Instance result_bind : MBind result := fun _ _ f m =>
  match m with
  | Ok a => f a
  | Raise e => Raise e
  end.
#[global] Instance result_fmap : FMap result := fun _ _ f m =>
  match m with
  | Ok a => Ok (f a)
  | Raise e => Raise e
  end.

Definition is_Ok {A} (r : result A) : bool :=
  match r with Ok _ => true | Raise _ => false end.

(** [for x in xs: acc = f(acc, x)], stopping at the first exception. *)
Fixpoint foldM {A B} (f : A → B → result A) (acc : A) (xs : list B) : result A :=
  match xs with
  | [] => Ok acc
  | x :: xs' => a ← f acc x; foldM f a xs'
  end.

(** [[f(x) for x in xs]], stopping at the first exception. *)
Fixpoint mapM_result {A B} (f : A → result B) (xs : list A) : result (list B) :=
  match xs with
  | [] => Ok []
  | x :: xs' => y ← f x; ys ← mapM_result f xs'; Ok (y :: ys)
  end.

(** ** Python strings (ASCII) *)

Module pystr.

Definition upper_ascii (c : ascii) : ascii :=
  let n := nat_of_ascii c in
  if (97 <=? n)%nat && (n <=? 122)%nat then ascii_of_nat (n - 32) else c.

(** [s.upper()] *)
Fixpoint upper (s : string) : string :=
  match s with
  | EmptyString => EmptyString
  | String c s' => String (upper_ascii c) (upper s')
  end.

Fixpoint startswith (p s : string) : bool :=
  match p, s with
  | EmptyString, _ => true
  | String a p', String b s' => Ascii.eqb a b && startswith p' s'
  | String _ _, EmptyString => false
  end.

(** [p in s] (substring test) *)
Fixpoint contains (p s : string) : bool :=
  startswith p s ||
  match s with
  | EmptyString => false
  | String _ s' => contains p s'
  end.

(** [s.split("_")[0]]: the text before the first underscore. *)
Fixpoint split_first (sep : ascii) (s : string) : string :=
  match s with
  | EmptyString => EmptyString
  | String c s' =>
      if Ascii.eqb c sep then EmptyString else String c (split_first sep s')
  end.

Definition digit (n : nat) : string :=
  String (ascii_of_nat (48 + n)) EmptyString.

(** [sep.join(xs)] *)
Fixpoint join (sep : string) (xs : list string) : string :=
  match xs with
  | [] => ""
  | [x] => x
  | x :: xs' => x ++ sep ++ join sep xs'
  end.

(** [repr] of a list of plain strings: [['A', 'B']]. *)
Definition repr_list (xs : list string) : string :=
  "[" ++ join ", " (map (fun s => "'" ++ s ++ "'") xs) ++ "]".

(** [x in xs] for a list of strings *)
Definition mem (x : string) (xs : list string) : bool :=
  existsb (String.eqb x) xs.

(** [xs.count(x)] *)
Definition count (x : string) (xs : list string) : nat :=
  length (filter (fun y => String.eqb y x = true) xs).

(** [xs.index(x)] *)
Fixpoint index_of (x : string) (xs : list string) : option nat :=
  match xs with
  | [] => None
  | y :: xs' => if String.eqb y x then Some O else S <$> index_of x xs'
  end.

End pystr.

(** ** The model registry ([models.IMPLEMENTED]) *)

Module models.

Inductive model_func := gauss1d | esr14n | esr15n | esrsingle.

Record entry := {
  func_name : string;
  n_peaks : nat;
  func : model_func;
  params : list string;
  model_id : Z;
  name : string
}.

Definition IMPLEMENTED : list (string * entry) :=
  [ ("GAUSS1D",
     {| func_name := "GAUSS1D"; n_peaks := 1; func := gauss1d;
        params := ["center"; "width"; "contrast"; "offset"];
        model_id := 0; name := "GAUSS_1D" |});
    ("ESR14N",
     {| func_name := "ESR14N"; n_peaks := 3; func := esr14n;
        params := ["center"; "width"; "contrast"; "contrast"; "contrast"; "offset"];
        model_id := 13; name := "N14" |});
    ("ESR15N",
     {| func_name := "ESR15N"; n_peaks := 2; func := esr15n;
        params := ["center"; "width"; "contrast"; "contrast"; "offset"];
        model_id := 14; name := "N15" |});
    ("ESRSINGLE",
     {| func_name := "ESRSINGLE"; n_peaks := 1; func := esrsingle;
        params := ["center"; "width"; "contrast"; "offset"];
        model_id := 15; name := "SINGLE_MISC." |}) ].

(** [list(IMPLEMENTED.keys())] *)
Definition keys : list string := map fst IMPLEMENTED.

(** [IMPLEMENTED[k]] *)
Fixpoint lookup_in (k : string) (d : list (string * entry)) : option entry :=
  match d with
  | [] => None
  | (k', e) :: d' => if String.eqb k' k then Some e else lookup_in k d'
  end.

Definition getitem (k : string) : result entry :=
  match lookup_in k IMPLEMENTED with
  | Some e => Ok e
  | None => Raise (KeyError k)
  end.

End models.

(** ** Unique parameter slots ([Fit.fitting_parameter_unique]) *)

(** The inner loop [for n in range(10)]: the first [v_n] not yet in [lst]. *)
Fixpoint first_free_suffix (v : string) (lst : list string) (ns : list nat)
  : option string :=
  match ns with
  | [] => None
  | n :: ns' =>
      let s := v ++ "_" ++ pystr.digit n in
      if pystr.mem s lst then first_free_suffix v lst ns' else Some s
  end.

(** One turn of the outer loop [for v in self.fitting_parameter]. *)
Definition unique_step (template : list string) (lst : list string) (v : string)
  : list string :=
  if (1 <? pystr.count v template)%nat then
    match first_free_suffix v lst (seq 0 10) with
    | Some s => lst ++ [s]
    | None => lst
    end
  else lst ++ [v].

Definition fitting_parameter_unique_of (template : list string) : list string :=
  fold_left (unique_step template) template [].

(** ** numpy *)

Module np.

#[local] Open Scope nat_scope.

(** *** Floating-point values *)

Inductive float : Type :=
  | Num (q : Q)
  | PInf
  | NInf
  | NaN.

Definition Qltb (a b : Q) : bool := negb (Qle_bool b a).

Definition isnan (x : float) : bool :=
  match x with NaN => true | _ => false end.

Definition fneg (x : float) : float :=
  match x with
  | Num q => Num (- q)
  | PInf => NInf
  | NInf => PInf
  | NaN => NaN
  end.

Definition fadd (x y : float) : float :=
  match x, y with
  | NaN, _ | _, NaN => NaN
  | Num a, Num b => Num (a + b)
  | PInf, NInf | NInf, PInf => NaN
  | PInf, _ | _, PInf => PInf
  | NInf, _ | _, NInf => NInf
  end.

Definition fsub (x y : float) : float := fadd x (fneg y).

Definition inf_of_sign (negative : bool) : float :=
  if negative then NInf else PInf.

Definition fmul (x y : float) : float :=
  match x, y with
  | NaN, _ | _, NaN => NaN
  | Num a, Num b => Num (a * b)
  | Num a, PInf | PInf, Num a =>
      if Qeq_bool a 0 then NaN else inf_of_sign (Qltb a 0)
  | Num a, NInf | NInf, Num a =>
      if Qeq_bool a 0 then NaN else inf_of_sign (negb (Qltb a 0))
  | PInf, PInf | NInf, NInf => PInf
  | PInf, NInf | NInf, PInf => NInf
  end.

(** A zero divisor is taken as [+0]. *)
Definition fdiv (x y : float) : float :=
  match x, y with
  | NaN, _ | _, NaN => NaN
  | Num a, Num b =>
      if Qeq_bool b 0 then
        if Qeq_bool a 0 then NaN else inf_of_sign (Qltb a 0)
      else Num (a / b)
  | Num _, (PInf | NInf) => Num 0
  | PInf, Num b => inf_of_sign (Qltb b 0)
  | NInf, Num b => inf_of_sign (negb (Qltb b 0))
  | (PInf | NInf), (PInf | NInf) => NaN
  end.

Definition fabs (x : float) : float :=
  match x with
  | Num q => Num (Qabs q)
  | PInf | NInf => PInf
  | NaN => NaN
  end.

(** [x == y] *)
Definition feqb (x y : float) : bool :=
  match x, y with
  | Num a, Num b => Qeq_bool a b
  | PInf, PInf | NInf, NInf => true
  | _, _ => false
  end.

(** [x < y] *)
Definition fltb (x y : float) : bool :=
  match x, y with
  | NaN, _ | _, NaN => false
  | Num a, Num b => Qltb a b
  | NInf, (Num _ | PInf) => true
  | Num _, PInf => true
  | _, _ => false
  end.

(** *** Reductions of one row *)

Definition fmin2 (a b : float) : float :=
  if isnan a then a else if isnan b then b else if fltb b a then b else a.

Definition fmax2 (a b : float) : float :=
  if isnan a then a else if isnan b then b else if fltb a b then b else a.

(** [np.min]: NaN wins; an empty row has no minimum. *)
Definition min_row (l : list float) : result float :=
  match l with
  | [] => Raise (ValueError "zero-size array to reduction operation minimum which has no identity")
  | x :: l' => Ok (fold_left fmin2 l' x)
  end.

Definition max_row (l : list float) : result float :=
  match l with
  | [] => Raise (ValueError "zero-size array to reduction operation maximum which has no identity")
  | x :: l' => Ok (fold_left fmax2 l' x)
  end.

(** [np.nanmin], [np.nanmax]: NaN entries are skipped; a row of NaN gives NaN. *)
Definition nanmin_row (l : list float) : result float :=
  match l with
  | [] => Raise (ValueError "zero-size array to reduction operation fmin which has no identity")
  | _ =>
      match filter (fun x => isnan x = false) l with
      | [] => Ok NaN
      | x :: l' => Ok (fold_left fmin2 l' x)
      end
  end.

Definition nanmax_row (l : list float) : result float :=
  match l with
  | [] => Raise (ValueError "zero-size array to reduction operation fmax which has no identity")
  | _ =>
      match filter (fun x => isnan x = false) l with
      | [] => Ok NaN
      | x :: l' => Ok (fold_left fmax2 l' x)
      end
  end.

(** [np.argmin]: the first NaN if there is one, else the first minimum. *)
Fixpoint argmin_from (best : float) (bi i : nat) (l : list float) : nat :=
  match l with
  | [] => bi
  | x :: l' =>
      if isnan best then bi
      else if isnan x || fltb x best then argmin_from x i (S i) l'
      else argmin_from best bi (S i) l'
  end.

Definition argmin_row (l : list float) : result nat :=
  match l with
  | [] => Raise (ValueError "attempt to get argmin of an empty sequence")
  | x :: l' => Ok (argmin_from x 0 1 l')
  end.

(** [np.cumsum] *)
Fixpoint cumsum_from (acc : float) (l : list float) : list float :=
  match l with
  | [] => []
  | x :: l' => let s := fadd acc x in s :: cumsum_from s l'
  end.

Definition cumsum_row (l : list float) : list float :=
  match l with
  | [] => []
  | x :: l' => x :: cumsum_from x l'
  end.


(** *** Arrays: a shape and the row-major contents *)

Record ndarray (A : Type) : Type := mk { shape : list nat; flat : list A }.
Arguments mk {A} shape flat.
Arguments shape {A} _.
Arguments flat {A} _.

Definition size (s : list nat) : nat := fold_right Nat.mul 1 s.

Definition ndim {A} (a : ndarray A) : nat := length (shape a).

Definition wf {A} (a : ndarray A) : Prop := length (flat a) = size (shape a).

(** The [k]-th block of [n] consecutive entries. *)
Definition chunk {A} (n k : nat) (l : list A) : list A := take n (drop (k * n) l).

Definition chunks {A} (count n : nat) (l : list A) : list (list A) :=
  map (fun k => chunk n k l) (seq 0 count).

Definition scalar {A} (x : A) : ndarray A := mk [] [x].

(** [a[i0, i1, ...]] for a full index. *)
Fixpoint offset (s : list nat) (ix : list nat) (acc : nat) : option nat :=
  match s, ix with
  | [], [] => Some acc
  | d :: s', i :: ix' => if i <? d then offset s' ix' (acc * d + i) else None
  | _, _ => None
  end.

Definition item {A} (a : ndarray A) (ix : list nat) : option A :=
  o ← offset (shape a) ix 0; flat a !! o.

Fixpoint split_last (s : list nat) : option (list nat * nat) :=
  match s with
  | [] => None
  | [n] => Some ([], n)
  | d :: s' => (fun '(o, n) => (d :: o, n)) <$> split_last s'
  end.

(** A reduction along the last axis.  A reduction that has no value on an
    empty row raises as soon as the last axis is empty. *)
Definition reduce_last {A B} (f : list A → result B) (a : ndarray A)
  : result (ndarray B) :=
  match split_last (shape a) with
  | None => Raise (ValueError "axis -1 is out of bounds for array of dimension 0")
  | Some (outer, n) =>
      match n with
      | O => y ← f []; Ok (mk outer (replicate (size outer) y))
      | _ => ys ← mapM_result f (chunks (size outer) n (flat a)); Ok (mk outer ys)
      end
  end.

(** A row-wise transformation along the last axis; [f] keeps the length. *)
Definition map_last {A B} (f : list A → result (list B)) (a : ndarray A)
  : result (ndarray B) :=
  match split_last (shape a) with
  | None => Raise (ValueError "axis -1 is out of bounds for array of dimension 0")
  | Some (outer, n) =>
      match n with
      | O => _ ← f []; Ok (mk (shape a) [])
      | _ =>
          ys ← mapM_result f (chunks (size outer) n (flat a));
          Ok (mk (shape a) (concat ys))
      end
  end.

Definition map {A B} (f : A → B) (a : ndarray A) : ndarray B :=
  mk (shape a) (List.map f (flat a)).

(** [a[i]] *)
Definition index0 {A} (a : ndarray A) (i : nat) : result (ndarray A) :=
  match shape a with
  | d0 :: rest =>
      if i <? d0 then Ok (mk rest (chunk (size rest) i (flat a)))
      else Raise (IndexError "index is out of bounds for axis 0")
  | [] => Raise (IndexError "too many indices for array")
  end.

(** [a[:, i]] *)
Definition take_axis1 {A} (a : ndarray A) (i : nat) : result (ndarray A) :=
  match shape a with
  | d0 :: d1 :: rest =>
      if i <? d1 then
        Ok (mk (d0 :: rest)
              (concat (List.map (fun p => chunk (size rest) (p * d1 + i) (flat a))
                                (seq 0 d0))))
      else Raise (IndexError "index is out of bounds for axis 1")
  | _ => Raise (IndexError "too many indices for array")
  end.


(** [f[idx]] for an array of positions [idx] along the first axis. *)
Definition take0 {A} (f : ndarray A) (idx : ndarray nat) : result (ndarray A) :=
  match shape f with
  | d0 :: rest =>
      if forallb (fun i => i <? d0) (flat idx) then
        Ok (mk (shape idx ++ rest)
              (concat (List.map (fun i => chunk (size rest) i (flat f)) (flat idx))))
      else Raise (IndexError "index is out of bounds for axis 0")
  | [] => Raise (IndexError "too many indices for array")
  end.

Definition shape_eqb (s t : list nat) : bool := bool_decide (s = t).

(** [np.stack(arrs, axis)] *)
Definition stack {A} (arrs : list (ndarray A)) (axis : nat) : result (ndarray A) :=
  match arrs with
  | [] => Raise (ValueError "need at least one array to stack")
  | a0 :: _ =>
      if forallb (fun a => shape_eqb (shape a) (shape a0)) arrs then
        if axis <=? ndim a0 then
          let outer := take axis (shape a0) in
          let inner := drop axis (shape a0) in
          Ok (mk (outer ++ length arrs :: inner)
                (concat (List.map
                   (fun o => concat (List.map (fun a => chunk (size inner) o (flat a)) arrs))
                   (seq 0 (size outer)))))
        else Raise (ValueError "axis is out of bounds")
      else Raise (ValueError "all input arrays must have the same shape")
  end.

(** [np.swapaxes(a, 0, 1)] *)
Definition swapaxes_0_1 {A} (a : ndarray A) : result (ndarray A) :=
  match shape a with
  | d0 :: d1 :: rest =>
      Ok (mk (d1 :: d0 :: rest)
            (concat (List.map
               (fun j => concat (List.map
                  (fun i => chunk (size rest) (i * d1 + j) (flat a)) (seq 0 d0)))
               (seq 0 d1))))
  | _ => Raise (ValueError "axis is out of bounds")
  end.

(** [a.reshape(target)], where one entry of [target] may be [-1]. *)
Definition reshape {A} (a : ndarray A) (target : list Z) : result (ndarray A) :=
  let n := length (flat a) in
  if existsb (fun d => d <? -1)%Z target then
    Raise (ValueError "negative dimensions not allowed")
  else
    let known := size (List.map Z.to_nat (filter (fun d => d ≠ (-1)%Z) target)) in
    match length (filter (fun d => d = (-1)%Z) target) with
    | 0 =>
        if known =? n then Ok (mk (List.map Z.to_nat target) (flat a))
        else Raise (ValueError "cannot reshape array")
    | 1 =>
        if (known =? 0) || negb (n mod known =? 0) then
          Raise (ValueError "cannot reshape array")
        else
          Ok (mk (List.map (fun d => if (d =? -1)%Z then n / known else Z.to_nat d) target)
                (flat a))
    | _ => Raise (ValueError "can only specify one unknown dimension")
    end.

(** [np.squeeze(a)] *)
Definition squeeze {A} (a : ndarray A) : ndarray A :=
  mk (filter (fun d => d ≠ 1) (shape a)) (flat a).

(** [np.tile(row, (n, 1))] for a list [row] *)
Definition tile_rows {A} (row : list A) (n : nat) : ndarray A :=
  mk [n; length row] (concat (replicate n row)).

(** [np.isfinite(x)] *)
Definition isfinite (x : float) : bool :=
  match x with
  | Num _ => true
  | _ => false
  end.

(** [np.zeros(s)] *)
Definition zeros (s : list nat) : ndarray float :=
  mk s (replicate (size s) (Num 0)).

(** *** Broadcasting *)

(** Shapes are aligned on their last axis: both arguments are reversed. *)
Fixpoint broadcast_rev (ra rb : list nat) : option (list nat) :=
  match ra, rb with
  | [], r | r, [] => Some r
  | x :: ra', y :: rb' =>
      r ← broadcast_rev ra' rb';
      if x =? y then Some (x :: r)
      else if x =? 1 then Some (y :: r)
      else if y =? 1 then Some (x :: r)
      else None
  end.

Definition broadcast_shapes (sa sb : list nat) : option (list nat) :=
  reverse <$> broadcast_rev (reverse sa) (reverse sb).

(** The contents of an array of shape [src] seen at shape [tgt], where the
    two have the same rank and an axis of [src] is that of [tgt] or 1. *)
Fixpoint bc_flat {A} (src tgt : list nat) (l : list A) : list A :=
  match src, tgt with
  | d :: ds, t :: ts =>
      if d =? t then
        concat (List.map (fun i => bc_flat ds ts (chunk (size ds) i l)) (seq 0 d))
      else concat (replicate t (bc_flat ds ts (chunk (size ds) 0 l)))
  | _, _ => l
  end.

Definition broadcast_to {A} (a : ndarray A) (tgt : list nat) : list A :=
  bc_flat (replicate (length tgt - ndim a) 1 ++ shape a) tgt (flat a).

(** An elementwise binary operation [f(a, b)]. *)
Definition broadcast2 {A B C} (f : A → B → C) (a : ndarray A) (b : ndarray B)
  : result (ndarray C) :=
  match broadcast_shapes (shape a) (shape b) with
  | None => Raise (ValueError "operands could not be broadcast together")
  | Some s => Ok (mk s (zip_with f (broadcast_to a s) (broadcast_to b s)))
  end.

(** [np.all(a == b)].  With the numpy releases the package was written
    for (before 1.25), [a == b] is the scalar [False] when the operands
    cannot be broadcast together. *)
Definition all_equal (a b : ndarray float) : bool :=
  match broadcast_shapes (shape a) (shape b) with
  | None => false
  | Some s => forallb id (zip_with feqb (broadcast_to a s) (broadcast_to b s))
  end.

End np.

(** ** The guess helpers of [fit.py] *)

(** [guess_contrast(data)] *)
Definition guess_contrast (data : np.ndarray np.float) : result (np.ndarray np.float) :=
  mx ← np.reduce_last np.nanmax_row data;
  mn ← np.reduce_last np.nanmin_row data;
  diff ← np.broadcast2 np.fsub mx mn;
  quot ← np.broadcast2 np.fdiv diff mx;
  let amp := np.map np.fabs quot in
  Ok (np.map (fun x => np.fmul x (np.Num (9 # 10))) amp).

(** [normalized_cumsum] on one spectrum: the cumulative sum of
    [data - 1], minus its minimum, divided by the maximum of the
    difference. *)
Definition normalized_cumsum_row (row : list np.float) : result (list np.float) :=
  let c := np.cumsum_row (map (fun x => np.fsub x (np.Num 1)) row) in
  mn ← np.min_row c;
  let c' := map (fun x => np.fsub x mn) c in
  mx ← np.max_row c';
  Ok (map (fun x => np.fdiv x mx) c').

(** [normalized_cumsum(data)].  The source re-inserts the reduced axis with
    [np.expand_dims(..., axis=2)], which lines up with the rows for the
    three-dimensional [data[:, r]] its callers pass; other ranks are
    refused here. *)
Definition normalized_cumsum (data : np.ndarray np.float) : result (np.ndarray np.float) :=
  if (np.ndim data =? 3)%nat then np.map_last normalized_cumsum_row data
  else Raise (ValueError "normalized_cumsum expects a three-dimensional array").

(** [np.argmin(np.abs(data - level), axis=-1)] on one row *)
Definition nearest_index_row (level : Q) (row : list np.float) : result nat :=
  np.argmin_row (map (fun x => np.fabs (np.fsub x (np.Num level))) row).

(** [guess_center_freq_single(data, freq)] *)
Definition guess_center_freq_single (data freq : np.ndarray np.float)
  : result (np.ndarray np.float) :=
  data ← normalized_cumsum data;
  idx ← np.reduce_last (nearest_index_row (1 # 2)) data;
  np.take0 freq idx.

(** [guess_width_single(data, freq)] *)
Definition guess_width_single (data freq : np.ndarray np.float)
  : result (np.ndarray np.float) :=
  data ← normalized_cumsum data;
  lidx ← np.reduce_last (nearest_index_row (1 # 4)) data;
  ridx ← np.reduce_last (nearest_index_row (3 # 4)) data;
  fl ← np.take0 freq lidx;
  fr ← np.take0 freq ridx;
  np.broadcast2 np.fsub fl fr.

(** [assert cond] *)
Definition assert (cond : bool) : result unit :=
  if cond then Ok tt else Raise AssertionError.

(** [guess_center(data, freq)] *)
Definition guess_center (data freq : np.ndarray np.float) : result (np.ndarray np.float) :=
  d0 ← np.take_axis1 data 0;
  f0 ← np.index0 freq 0;
  center_lf ← guess_center_freq_single d0 f0;
  d1 ← np.take_axis1 data 1;
  f1 ← np.index0 freq 1;
  center_rf ← guess_center_freq_single d1 f1;
  center ← np.stack [center_lf; center_rf] 0;
  center ← np.swapaxes_0_1 center;
  c0 ← np.take_axis1 center 0;
  _ ← assert (np.all_equal c0 center_lf);
  c1 ← np.take_axis1 center 1;
  _ ← assert (np.all_equal c1 center_rf);
  Ok center.

(** [guess_width(data, freq)] *)
Definition guess_width (data freq : np.ndarray np.float) : result (np.ndarray np.float) :=
  d0 ← np.take_axis1 data 0;
  f0 ← np.index0 freq 0;
  width_lf ← guess_width_single d0 f0;
  d1 ← np.take_axis1 data 1;
  f1 ← np.index0 freq 1;
  width_rf ← guess_width_single d1 f1;
  width ← np.stack [width_lf; width_rf] 1;
  w0 ← np.take_axis1 width 0;
  _ ← assert (np.all_equal w0 width_lf);
  w1 ← np.take_axis1 width 1;
  _ ← assert (np.all_equal w1 width_rf);
  Ok (np.map (fun x => np.fdiv x (np.Num 6)) width).

(** ** The [Fit] class *)

Module fit.

#[local] Open Scope nat_scope.

Definition UNITS : list (string * string) :=
  [("center", "GHz"); ("width", "GHz"); ("contrast", "a.u."); ("offset", "a.u.")].

Definition CONSTRAINT_TYPES : list string := ["FREE"; "LOWER"; "UPPER"; "LOWER_UPPER"].

Definition ESTIMATOR_ID : list (string * Z) := [("LSE", 0%Z); ("MLE", 1%Z)].

(** [d[k]] for a dictionary literal with string keys *)
Fixpoint dict_getitem {V} (d : list (string * V)) (k : string) : result V :=
  match d with
  | [] => Raise (KeyError k)
  | (k', v) :: d' => if String.eqb k' k then Ok v else dict_getitem d' k
  end.

(** [xs[i]] for a Python list and a Python integer *)
Definition list_getitem {V} (xs : list V) (i : Z) : result V :=
  let n := Z.of_nat (length xs) in
  let j := (if i <? 0 then i + n else i)%Z in
  if (j <? 0)%Z then Raise (IndexError "list index out of range")
  else match xs !! Z.to_nat j with
       | Some v => Ok v
       | None => Raise (IndexError "list index out of range")
       end.

(** A bound [vmin] or [vmax]: a number or [None]. *)
Definition bound : Type := option Q.

(** The [constraint_type] argument: [None], a name, or an index. *)
Inductive ctype_arg : Type :=
  | CNone
  | CStr (s : string)
  | CInt (i : Z).

(** A stored constraint [[vmin, vmax, constraint_type, unit]]. *)
Record constraint : Type := {
  c_min : bound;
  c_max : bound;
  c_type : option string;
  c_unit : string
}.

(** The arguments and the results of [gf.fit_constrained]. *)
Record fit_args : Type := {
  a_data : np.ndarray np.float;
  a_user_info : np.ndarray np.float;
  a_constraints : np.ndarray np.float;
  a_constraint_types : np.ndarray Z;
  a_initial_parameters : np.ndarray np.float;
  a_model_id : Z;
  a_max_number_iterations : Z;
  a_tolerance : Q
}.

Record fit_out : Type := {
  parameters : np.ndarray np.float;
  states : np.ndarray Z;
  chi_squares : np.ndarray np.float;
  number_iterations : np.ndarray Z;
  execution_time : np.float
}.

(** [QDMpy.SETTINGS]: the entries the class reads. *)
Record settings : Type := {
  s_estimator : string;
  s_center_min : bound;   s_center_max : bound;   s_center_type : ctype_arg;
  s_width_min : bound;    s_width_max : bound;    s_width_type : ctype_arg;
  s_contrast_min : bound; s_contrast_max : bound; s_contrast_type : ctype_arg;
  s_offset_min : bound;   s_offset_max : bound;   s_offset_type : ctype_arg;
  s_max_number_iterations : Z;
  s_tolerance : Q
}.

(** The attributes of an instance.  [gf_calls] is not an attribute: it
    records, latest first, the arguments of every call of the solver made
    through the instance. *)
Record Fit : Type := {
  _data : np.ndarray np.float;
  f_ghz : np.ndarray np.float;
  _model : string;
  _model_dict : models.entry;
  _initial_parameter : option (np.ndarray np.float);
  _fitted : bool;
  _fit_results : option (np.ndarray np.float);
  _states : option (np.ndarray Z);
  _chi_squares : option (np.ndarray np.float);
  _number_iterations : option (np.ndarray Z);
  _execution_time : option (np.ndarray np.float);
  _constraints : gmap string constraint;
  _constraint_types : option (list string);
  estimator_id : Z;
  gf_calls : list fit_args
}.

Definition with_data (d : np.ndarray np.float) (st : Fit) : Fit :=
  {| _data := d; f_ghz := f_ghz st; _model := _model st;
     _model_dict := _model_dict st; _initial_parameter := _initial_parameter st;
     _fitted := _fitted st; _fit_results := _fit_results st; _states := _states st;
     _chi_squares := _chi_squares st; _number_iterations := _number_iterations st;
     _execution_time := _execution_time st; _constraints := _constraints st;
     _constraint_types := _constraint_types st; estimator_id := estimator_id st;
     gf_calls := gf_calls st |}.

Definition with_model (m : string) (st : Fit) : Fit :=
  {| _data := _data st; f_ghz := f_ghz st; _model := m;
     _model_dict := _model_dict st; _initial_parameter := _initial_parameter st;
     _fitted := _fitted st; _fit_results := _fit_results st; _states := _states st;
     _chi_squares := _chi_squares st; _number_iterations := _number_iterations st;
     _execution_time := _execution_time st; _constraints := _constraints st;
     _constraint_types := _constraint_types st; estimator_id := estimator_id st;
     gf_calls := gf_calls st |}.

Definition with_model_dict (e : models.entry) (st : Fit) : Fit :=
  {| _data := _data st; f_ghz := f_ghz st; _model := _model st;
     _model_dict := e; _initial_parameter := _initial_parameter st;
     _fitted := _fitted st; _fit_results := _fit_results st; _states := _states st;
     _chi_squares := _chi_squares st; _number_iterations := _number_iterations st;
     _execution_time := _execution_time st; _constraints := _constraints st;
     _constraint_types := _constraint_types st; estimator_id := estimator_id st;
     gf_calls := gf_calls st |}.

Definition with_initial_parameter (ip : option (np.ndarray np.float)) (st : Fit) : Fit :=
  {| _data := _data st; f_ghz := f_ghz st; _model := _model st;
     _model_dict := _model_dict st; _initial_parameter := ip;
     _fitted := _fitted st; _fit_results := _fit_results st; _states := _states st;
     _chi_squares := _chi_squares st; _number_iterations := _number_iterations st;
     _execution_time := _execution_time st; _constraints := _constraints st;
     _constraint_types := _constraint_types st; estimator_id := estimator_id st;
     gf_calls := gf_calls st |}.

Definition with_fitted (b : bool) (st : Fit) : Fit :=
  {| _data := _data st; f_ghz := f_ghz st; _model := _model st;
     _model_dict := _model_dict st; _initial_parameter := _initial_parameter st;
     _fitted := b; _fit_results := _fit_results st; _states := _states st;
     _chi_squares := _chi_squares st; _number_iterations := _number_iterations st;
     _execution_time := _execution_time st; _constraints := _constraints st;
     _constraint_types := _constraint_types st; estimator_id := estimator_id st;
     gf_calls := gf_calls st |}.

(** The five result attributes, assigned together. *)
Definition with_results
    (r : option (np.ndarray np.float)) (s : option (np.ndarray Z))
    (c : option (np.ndarray np.float)) (n : option (np.ndarray Z))
    (t : option (np.ndarray np.float)) (st : Fit) : Fit :=
  {| _data := _data st; f_ghz := f_ghz st; _model := _model st;
     _model_dict := _model_dict st; _initial_parameter := _initial_parameter st;
     _fitted := _fitted st; _fit_results := r; _states := s;
     _chi_squares := c; _number_iterations := n;
     _execution_time := t; _constraints := _constraints st;
     _constraint_types := _constraint_types st; estimator_id := estimator_id st;
     gf_calls := gf_calls st |}.

Definition with_constraints (cs : gmap string constraint) (st : Fit) : Fit :=
  {| _data := _data st; f_ghz := f_ghz st; _model := _model st;
     _model_dict := _model_dict st; _initial_parameter := _initial_parameter st;
     _fitted := _fitted st; _fit_results := _fit_results st; _states := _states st;
     _chi_squares := _chi_squares st; _number_iterations := _number_iterations st;
     _execution_time := _execution_time st; _constraints := cs;
     _constraint_types := _constraint_types st; estimator_id := estimator_id st;
     gf_calls := gf_calls st |}.

Definition with_constraint_types (ts : option (list string)) (st : Fit) : Fit :=
  {| _data := _data st; f_ghz := f_ghz st; _model := _model st;
     _model_dict := _model_dict st; _initial_parameter := _initial_parameter st;
     _fitted := _fitted st; _fit_results := _fit_results st; _states := _states st;
     _chi_squares := _chi_squares st; _number_iterations := _number_iterations st;
     _execution_time := _execution_time st; _constraints := _constraints st;
     _constraint_types := ts; estimator_id := estimator_id st;
     gf_calls := gf_calls st |}.

Definition with_estimator_id (e : Z) (st : Fit) : Fit :=
  {| _data := _data st; f_ghz := f_ghz st; _model := _model st;
     _model_dict := _model_dict st; _initial_parameter := _initial_parameter st;
     _fitted := _fitted st; _fit_results := _fit_results st; _states := _states st;
     _chi_squares := _chi_squares st; _number_iterations := _number_iterations st;
     _execution_time := _execution_time st; _constraints := _constraints st;
     _constraint_types := _constraint_types st; estimator_id := e;
     gf_calls := gf_calls st |}.

Definition with_call (a : fit_args) (st : Fit) : Fit :=
  {| _data := _data st; f_ghz := f_ghz st; _model := _model st;
     _model_dict := _model_dict st; _initial_parameter := _initial_parameter st;
     _fitted := _fitted st; _fit_results := _fit_results st; _states := _states st;
     _chi_squares := _chi_squares st; _number_iterations := _number_iterations st;
     _execution_time := _execution_time st; _constraints := _constraints st;
     _constraint_types := _constraint_types st; estimator_id := estimator_id st;
     gf_calls := a :: gf_calls st |}.

(** *** Methods as computations over the instance *)

Definition M (A : Type) : Type := Fit → result A * Fit.

#[global] Instance M_ret : MRet M := fun _ a st => (Ok a, st).
#[global] Instance M_bind : MBind M := fun _ _ f m st =>
  match m st with
  | (Ok a, st') => f a st'
  | (Raise e, st') => (Raise e, st')
  end.

Definition raise {A} (e : exn) : M A := fun st => (Raise e, st).
Definition lift {A} (r : result A) : M A := fun st => (r, st).
Definition get : M Fit := fun st => (Ok st, st).
Definition modify (f : Fit → Fit) : M unit := fun st => (Ok tt, f st).
(** A computation that only reads the instance. *)
Definition read {A} (f : Fit → result A) : M A := fun st => (f st, st).

Fixpoint forM_ {A} (xs : list A) (f : A → M unit) : M unit :=
  match xs with
  | [] => mret tt
  | x :: xs' => _ ← f x; forM_ xs' f
  end.

Definition with_fit_results (r : option (np.ndarray np.float)) (st : Fit) : Fit :=
  with_results r (_states st) (_chi_squares st) (_number_iterations st)
    (_execution_time st) st.
Definition with_states (s : option (np.ndarray Z)) (st : Fit) : Fit :=
  with_results (_fit_results st) s (_chi_squares st) (_number_iterations st)
    (_execution_time st) st.
Definition with_chi_squares (c : option (np.ndarray np.float)) (st : Fit) : Fit :=
  with_results (_fit_results st) (_states st) c (_number_iterations st)
    (_execution_time st) st.
Definition with_number_iterations (n : option (np.ndarray Z)) (st : Fit) : Fit :=
  with_results (_fit_results st) (_states st) (_chi_squares st) n
    (_execution_time st) st.
Definition with_execution_time (t : option (np.ndarray np.float)) (st : Fit) : Fit :=
  with_results (_fit_results st) (_states st) (_chi_squares st)
    (_number_iterations st) t st.

(** [_reset_fit] *)
Definition _reset_fit : M unit :=
  _ ← modify (with_fitted false);
  _ ← modify (with_fit_results None);
  _ ← modify (with_states None);
  _ ← modify (with_chi_squares None);
  _ ← modify (with_number_iterations None);
  modify (with_execution_time None).

Definition fitting_parameter (st : Fit) : list string := models.params (_model_dict st).
Definition fitting_parameter_unique (st : Fit) : list string :=
  fitting_parameter_unique_of (fitting_parameter st).
Definition n_parameter (st : Fit) : nat := length (fitting_parameter st).
Definition model_id (st : Fit) : Z := models.model_id (_model_dict st).

(** The setter of [data] *)
Definition data_setter (data : np.ndarray np.float) : M unit :=
  st ← get;
  if np.all_equal (_data st) data then mret tt
  else
    _ ← modify (with_data data);
    _ ← modify (with_initial_parameter None);
    _reset_fit.

(** *** The initial guess *)

Definition _guess_center (st : Fit) : result (np.ndarray np.float) :=
  guess_center (_data st) (f_ghz st).

Definition _guess_contrast (st : Fit) : result (np.ndarray np.float) :=
  guess_contrast (_data st).

Definition _guess_width (st : Fit) : result (np.ndarray np.float) :=
  guess_width (_data st) (f_ghz st).

Definition _guess_offset (st : Fit) : result (np.ndarray np.float) :=
  match np.shape (_data st) with
  | [npol; nfrange; npixel; _] => Ok (np.zeros [npol; nfrange; npixel])
  | _ => Raise (ValueError "wrong number of values to unpack")
  end.

(** [getattr(self, f"_guess_{p}")()] *)
Definition _guess (p : string) (st : Fit) : result (np.ndarray np.float) :=
  if String.eqb p "center" then _guess_center st
  else if String.eqb p "contrast" then _guess_contrast st
  else if String.eqb p "width" then _guess_width st
  else if String.eqb p "offset" then _guess_offset st
  else Raise (AttributeError ("'Fit' object has no attribute '_guess_" ++ p ++ "'")).

(** [get_initial_parameter] *)
Definition get_initial_parameter (st : Fit) : result (np.ndarray np.float) :=
  fit_parameter ← mapM_result (fun p => _guess p st) (fitting_parameter st);
  match last fit_parameter with
  | None => Raise (IndexError "list index out of range")
  | Some l => np.stack fit_parameter (np.ndim l)
  end.

(** The property [initial_parameter] *)
Definition initial_parameter : M (np.ndarray np.float) :=
  st ← get;
  match _initial_parameter st with
  | Some ip => mret ip
  | None =>
      ip ← read get_initial_parameter;
      _ ← modify (with_initial_parameter (Some ip));
      mret ip
  end.

(** The setter of [model] *)
Definition model_setter (model : string) : M unit :=
  if negb (pystr.mem (pystr.upper model) models.keys) then
    raise (ValueError ("Unknown model: " ++ model ++ " choose from "
                       ++ pystr.repr_list models.keys))
  else
    _ ← modify (with_model (pystr.upper model));
    e ← lift (models.getitem model);
    _ ← modify (with_model_dict e);
    _ ← _reset_fit;
    ip ← read get_initial_parameter;
    modify (with_initial_parameter (Some ip)).

(** *** Constraints *)

(** The head of [set_constraints]: an index is replaced by the name at
    that position of [CONSTRAINT_TYPES], and a name outside the list is
    refused.  The result is the type that gets stored. *)
Definition checked_constraint_type (constraint_type : ctype_arg)
  : result (option string) :=
  constraint_type ←
    match constraint_type with
    | CInt i => CStr <$> list_getitem CONSTRAINT_TYPES i
    | _ => Ok constraint_type
    end;
  match constraint_type with
  | CStr s =>
      if pystr.mem s CONSTRAINT_TYPES then Ok (Some s)
      else Raise (ValueError ("Unknown constraint type: " ++ s ++ " choose from "
                              ++ pystr.repr_list CONSTRAINT_TYPES))
  | _ => Ok None
  end.

Definition ctype_of (stored : option string) : ctype_arg :=
  match stored with
  | Some s => CStr s
  | None => CNone
  end.

(** [set_constraints(param, vmin, vmax, constraint_type)].  The method calls
    itself for every contrast slot; [depth] bounds the nesting of calls, as
    the interpreter's recursion limit does. *)
Fixpoint set_constraints_rec (depth : nat) (param : string) (vmin vmax : bound)
    (constraint_type : ctype_arg) : M unit :=
  match depth with
  | O => raise RecursionError
  | S depth' =>
      stored ← lift (checked_constraint_type constraint_type);
      st ← get;
      if String.eqb param "contrast"
         && negb (bool_decide (fitting_parameter_unique st = fitting_parameter st))
      then
        forM_ (filter (fun v => pystr.contains "contrast" v = true)
                      (fitting_parameter_unique st))
              (fun contrast =>
                 set_constraints_rec depth' contrast vmin vmax (ctype_of stored))
      else
        unit ← lift (dict_getitem UNITS (pystr.split_first "_" param));
        _ ← modify (fun st =>
               with_constraints
                 (<[param := {| c_min := vmin; c_max := vmax;
                                c_type := stored; c_unit := unit |}]> (_constraints st)) st);
        _reset_fit
  end.

(** The interpreter's default recursion limit. *)
Definition recursion_limit : nat := 1000.

Definition set_constraints (param : string) (vmin vmax : bound)
    (constraint_type : ctype_arg) : M unit :=
  set_constraints_rec recursion_limit param vmin vmax constraint_type.

(** [self._constraints[k]] *)
Definition constraint_of (st : Fit) (k : string) : result constraint :=
  match _constraints st !! k with
  | Some c => Ok c
  | None => Raise (KeyError k)
  end.

(** [get_constraints_array(n_pixel)] *)
Definition get_constraints_array (st : Fit) (n_pixel : nat)
  : result (np.ndarray bound) :=
  constraints_list ←
    foldM (fun acc k => c ← constraint_of st k; Ok (acc ++ [c_min c; c_max c])%list)
          [] (fitting_parameter_unique st);
  Ok (np.tile_rows constraints_list n_pixel).

(** [get_constraint_types()] *)
Definition get_constraint_types (st : Fit) : result (np.ndarray Z) :=
  fit_bounds ←
    mapM_result
      (fun k =>
         c ← constraint_of st k;
         match c_type c with
         | Some t =>
             match pystr.index_of t CONSTRAINT_TYPES with
             | Some i => Ok (Z.of_nat i)
             | None => Raise (ValueError (t ++ " is not in list"))
             end
         | None => Raise (ValueError "None is not in list")
         end)
      (fitting_parameter_unique st);
  Ok (np.mk [length fit_bounds] fit_bounds).

(** [set_free_constraints()].  The loop runs over
    [set(self.fitting_parameter_unique)]: the slots without repetition, in
    an order the language leaves open.  [order] is the order of one run. *)
Definition set_free_constraints_in (order : list string) : M unit :=
  forM_ order (fun param => set_constraints param None None (CStr "FREE")).

(** The runs of [set_free_constraints()], one for every order of the set. *)
Definition set_free_constraints (st : Fit) (out : result unit * Fit) : Prop :=
  ∃ order, order ≡ₚ remove_dups (fitting_parameter_unique st) ∧
           set_free_constraints_in order st = out.

(** The properties [model_params] and [model_func] *)
Definition model_params (st : Fit) : result (list string) :=
  models.params <$> models.getitem (_model st).
Definition model_func (st : Fit) : models.model_func := models.func (_model_dict st).

(** *** Reading the results *)




(** [reshape_result(result)] *)
Definition reshape_result {A} (st : Fit) (r : np.ndarray A) : result (np.ndarray A) :=
  d0 ← np.index0 (_data st) 0;
  match np.shape d0 with
  | [npol; npix; _] =>
      r ← np.reshape r [Z.of_nat npol; Z.of_nat npix; (-1)%Z];
      Ok (np.squeeze r)
  | _ => Raise (ValueError "wrong number of values to unpack")
  end.

(** [reshape_results(results)]: the execution time, a Python float, is
    skipped. *)
Definition reshape_results (st : Fit) (results : fit_out) : result fit_out :=
  p ← reshape_result st (parameters results);
  s ← reshape_result st (states results);
  c ← reshape_result st (chi_squares results);
  n ← reshape_result st (number_iterations results);
  Ok {| parameters := p; states := s; chi_squares := c; number_iterations := n;
        execution_time := execution_time results |}.

(** [np.stack((prev, new))] for an attribute that may still be [None] *)
Definition stack_pair {A} (prev : option (np.ndarray A)) (new : np.ndarray A)
  : result (np.ndarray A) :=
  match prev with
  | Some p => np.stack [p; new] 0
  | None => Raise (ValueError "all input arrays must have the same shape")
  end.

(** [np.ascontiguousarray(constraints, dtype=np.float32)]: [None] becomes NaN. *)
Definition bound_to_float (b : bound) : np.float :=
  match b with
  | Some q => np.Num q
  | None => np.NaN
  end.

Section methods.

Variable SETTINGS : settings.
Variable fit_constrained : fit_args → result fit_out.

(** [_set_initial_constraints] *)
Definition _set_initial_constraints : M unit :=
  _ ← set_constraints "center" (s_center_min SETTINGS) (s_center_max SETTINGS)
        (s_center_type SETTINGS);
  _ ← set_constraints "width" (s_width_min SETTINGS) (s_width_max SETTINGS)
        (s_width_type SETTINGS);
  _ ← set_constraints "contrast" (s_contrast_min SETTINGS) (s_contrast_max SETTINGS)
        (s_contrast_type SETTINGS);
  set_constraints "offset" (s_offset_min SETTINGS) (s_offset_max SETTINGS)
    (s_offset_type SETTINGS).

(** The instance before [__init__] has assigned anything.  The model, the
    results and the constraints are placeholders: [__init__] assigns each
    of them before it is read. *)
Definition blank (data frequencies : np.ndarray np.float) : Fit :=
  {| _data := data; f_ghz := frequencies; _model := "";
     _model_dict := {| models.func_name := ""; models.n_peaks := 0;
                       models.func := models.gauss1d; models.params := [];
                       models.model_id := 0; models.name := "" |};
     _initial_parameter := None; _fitted := false; _fit_results := None;
     _states := None; _chi_squares := None; _number_iterations := None;
     _execution_time := None; _constraints := ∅; _constraint_types := None;
     estimator_id := 0; gf_calls := [] |}.

(** [Fit(data, frequencies, model, constraints)] *)
Definition __init__ (data frequencies : np.ndarray np.float) (model : string)
    (constraints : option (list (string * bound))) : result Fit :=
  let body : M unit :=
    _ ← model_setter (pystr.upper model);
    _ ← modify (with_initial_parameter None);
    _ ← _reset_fit;
    _ ← modify (with_constraints ∅);
    _ ← modify (with_constraint_types None);
    e ← lift (dict_getitem ESTIMATOR_ID (s_estimator SETTINGS));
    _ ← modify (with_estimator_id e);
    _ ← _set_initial_constraints;
    match constraints with
    | None => mret tt
    | Some cs => forM_ cs (fun kv => set_constraints (fst kv) (snd kv) None CNone)
    end in
  match body (blank data frequencies) with
  | (Ok _, st) => Ok st
  | (Raise e, _) => Raise e
  end.

(** [fit_frange(data, freq, initial_parameters)] *)
Definition fit_frange (data freq initial_parameters : np.ndarray np.float)
  : M fit_out :=
  st ← get;
  match np.shape data with
  | [npol; npix; nfreq] =>
      data ← lift (np.reshape data [(-1)%Z; Z.of_nat nfreq]);
      initial_parameters ←
        lift (np.reshape initial_parameters [(-1)%Z; Z.of_nat (n_parameter st)]);
      let n_pixel := hd 0 (np.shape data) in
      constraints ← lift (get_constraints_array st n_pixel);
      constraint_types ← lift (get_constraint_types st);
      let args :=
        {| a_data := data; a_user_info := freq;
           a_constraints := np.map bound_to_float constraints;
           a_constraint_types := constraint_types;
           a_initial_parameters := initial_parameters;
           a_model_id := model_id st;
           a_max_number_iterations := s_max_number_iterations SETTINGS;
           a_tolerance := s_tolerance SETTINGS |} in
      _ ← modify (with_call args);
      lift (fit_constrained args)
  | _ => raise (ValueError "wrong number of values to unpack")
  end.

(** One turn of the loop of [fit_odmr]. *)
Definition fit_odmr_range (irange : nat) : M unit :=
  st ← get;
  f ← lift (np.index0 (f_ghz st) irange);
  _ ← lift (np.min_row (np.flat f));
  _ ← lift (np.max_row (np.flat f));
  d ← lift (np.take_axis1 (_data st) irange);
  f ← lift (np.index0 (f_ghz st) irange);
  ip ← initial_parameter;
  ip ← lift (np.take_axis1 ip irange);
  results ← fit_frange d f ip;
  results ← read (fun st => reshape_results st results);
  st ← get;
  match _fit_results st with
  | None =>
      _ ← modify (with_fit_results (Some (parameters results)));
      _ ← modify (with_states (Some (states results)));
      _ ← modify (with_chi_squares (Some (chi_squares results)));
      _ ← modify (with_number_iterations (Some (number_iterations results)));
      modify (with_execution_time (Some (np.scalar (execution_time results))))
  | Some _ =>
      r ← read (fun st => stack_pair (_fit_results st) (parameters results));
      _ ← modify (with_fit_results (Some r));
      s ← read (fun st => stack_pair (_states st) (states results));
      _ ← modify (with_states (Some s));
      c ← read (fun st => stack_pair (_chi_squares st) (chi_squares results));
      _ ← modify (with_chi_squares (Some c));
      n ← read (fun st => stack_pair (_number_iterations st) (number_iterations results));
      _ ← modify (with_number_iterations (Some n));
      t ← read (fun st => stack_pair (_execution_time st)
                             (np.scalar (execution_time results)));
      modify (with_execution_time (Some t))
  end.

(** [fit_odmr()] *)
Definition fit_odmr : M unit :=
  st ← get;
  if _fitted st then mret tt
  else
    n ← lift (match np.shape (_data st) !! 1 with
              | Some n => Ok n
              | None => Raise (IndexError "tuple index out of range")
              end);
    _ ← forM_ (seq 0 n) fit_odmr_range;
    r ← read (fun st =>
                match _fit_results st with
                | Some r => np.swapaxes_0_1 r
                | None => Raise (ValueError "axis is out of bounds")
                end);
    _ ← modify (with_fit_results (Some r));
    modify (with_fitted true).

End methods.

End fit.

(** ** Statements about arrays and instances *)

(** Two arrays of one shape whose entries are pairwise [==]. *)
Definition elementwise_equal (a b : np.ndarray np.float) : Prop :=
  np.shape a = np.shape b ∧
  Forall2 (fun x y => np.feqb x y = true) (np.flat a) (np.flat b).

(** The instance after the data has been replaced and everything derived
    from the old data dropped. *)
Definition invalidated (data : np.ndarray np.float) (st : fit.Fit) : fit.Fit :=
  {| fit._data := data; fit.f_ghz := fit.f_ghz st; fit._model := fit._model st;
     fit._model_dict := fit._model_dict st; fit._initial_parameter := None;
     fit._fitted := false; fit._fit_results := None; fit._states := None;
     fit._chi_squares := None; fit._number_iterations := None;
     fit._execution_time := None; fit._constraints := fit._constraints st;
     fit._constraint_types := fit._constraint_types st;
     fit.estimator_id := fit.estimator_id st; fit.gf_calls := fit.gf_calls st |}.

(** The instance after a constraint dictionary has been stored and the
    results dropped: the data, the model and the cached initial guess stay. *)
Definition constrained (cs : gmap string fit.constraint) (st : fit.Fit) : fit.Fit :=
  {| fit._data := fit._data st; fit.f_ghz := fit.f_ghz st; fit._model := fit._model st;
     fit._model_dict := fit._model_dict st;
     fit._initial_parameter := fit._initial_parameter st;
     fit._fitted := false; fit._fit_results := None; fit._states := None;
     fit._chi_squares := None; fit._number_iterations := None;
     fit._execution_time := None; fit._constraints := cs;
     fit._constraint_types := fit._constraint_types st;
     fit.estimator_id := fit.estimator_id st; fit.gf_calls := fit.gf_calls st |}.

(** The model of the instance is an entry of the registry. *)
Definition registered (st : fit.Fit) : Prop :=
  ∃ k, models.lookup_in k models.IMPLEMENTED = Some (fit._model_dict st).

(** The kind of a slot, the text before its first underscore, and the unit
    [UNITS] gives that kind. *)
Definition kind_of (slot : string) : string := pystr.split_first "_" slot.

Definition unit_of (slot : string) : string :=
  match fit.dict_getitem fit.UNITS (kind_of slot) with
  | Ok u => u
  | Raise _ => ""
  end.

(** The slots a call of [set_constraints] for [param] writes: the contrast
    slots when [param] is the family name and the model repeats a kind,
    else [param] itself. *)
Definition written_slots (st : fit.Fit) (param : string) : list string :=
  if String.eqb param "contrast"
     && negb (bool_decide (fit.fitting_parameter_unique st = fit.fitting_parameter st))
  then filter (fun v => pystr.contains "contrast" v = true) (fit.fitting_parameter_unique st)
  else [param].

(** A name [set_constraints] stores under that very name on a model whose
    entry is [e]: not the family name of a repeated kind, and of a kind
    that has a unit. *)
Definition single_slot (e : models.entry) (s : string) : Prop :=
  (String.eqb s "contrast"
   && negb (bool_decide (fitting_parameter_unique_of (models.params e) = models.params e)))
  = false ∧
  is_Ok (fit.dict_getitem fit.UNITS (kind_of s)) = true.

(** The constraint [set_free_constraints] stores for a slot. *)
Definition free_constraint (slot : string) : fit.constraint :=
  {| fit.c_min := None; fit.c_max := None;
     fit.c_type := Some "FREE"; fit.c_unit := unit_of slot |}.

(** A slot holds a constraint whose type is a name of [CONSTRAINT_TYPES]. *)
Definition typed_slot (st : fit.Fit) (k : string) : Prop :=
  ∃ c t, fit._constraints st !! k = Some c ∧ fit.c_type c = Some t ∧
         pystr.mem t fit.CONSTRAINT_TYPES = true.

(** The type [set_constraints] stores for an accepted [constraint_type]. *)
Definition stored_type (ct : fit.ctype_arg) : option string :=
  match fit.checked_constraint_type ct with
  | Ok stored => stored
  | Raise _ => None
  end.

(** The constraint [QDMpy.SETTINGS] holds for a kind of parameter. *)
Definition default_constraint (S : fit.settings) (kind : string) : fit.constraint :=
  if String.eqb kind "center" then
    {| fit.c_min := fit.s_center_min S; fit.c_max := fit.s_center_max S;
       fit.c_type := stored_type (fit.s_center_type S); fit.c_unit := "GHz" |}
  else if String.eqb kind "width" then
    {| fit.c_min := fit.s_width_min S; fit.c_max := fit.s_width_max S;
       fit.c_type := stored_type (fit.s_width_type S); fit.c_unit := "GHz" |}
  else if String.eqb kind "contrast" then
    {| fit.c_min := fit.s_contrast_min S; fit.c_max := fit.s_contrast_max S;
       fit.c_type := stored_type (fit.s_contrast_type S); fit.c_unit := "a.u." |}
  else
    {| fit.c_min := fit.s_offset_min S; fit.c_max := fit.s_offset_max S;
       fit.c_type := stored_type (fit.s_offset_type S); fit.c_unit := "a.u." |}.

(** *** The guess of one pixel *)

(** The normalized cumulative curve of one spectrum (empty where the code
    raises). *)
Definition curve_of (row : list np.float) : list np.float :=
  match normalized_cumsum_row row with
  | Ok c => c
  | Raise _ => []
  end.

(** The position [np.argmin] selects on the curve of a spectrum. *)
Definition nearest_of (level : Q) (row : list np.float) : nat :=
  match nearest_index_row level (curve_of row) with
  | Ok k => k
  | Raise _ => 0%nat
  end.

Definition at_index (freq : list np.float) (k : nat) : np.float :=
  default np.NaN (freq !! k).

(** What [guess_width_single] and [guess_center_freq_single] compute from
    one spectrum and the frequency axis of its range. *)
Definition width_of (row freq : list np.float) : np.float :=
  np.fsub (at_index freq (nearest_of (1 # 4) row))
          (at_index freq (nearest_of (3 # 4) row)).

Definition center_of (row freq : list np.float) : np.float :=
  at_index freq (nearest_of (1 # 2) row).

(** The spectrum of pixel [x] in polarization [p] and range [r] of a
    four-dimensional dataset, and the frequency axis of range [r]. *)
Definition spectrum_at (data : np.ndarray np.float) (p r x : nat) : list np.float :=
  match np.shape data with
  | [_; nfrange; npixel; nfreq] =>
      np.chunk nfreq ((p * nfrange + r) * npixel + x) (np.flat data)
  | _ => []
  end.

Definition axis_at (f_ghz : np.ndarray np.float) (r : nat) : list np.float :=
  match np.shape f_ghz with
  | [_; nfreq] => np.chunk nfreq r (np.flat f_ghz)
  | _ => []
  end.

Definition finite (x : np.float) : Prop :=
  match x with
  | np.Num _ => True
  | _ => False
  end.

(** *** Rational spectra *)





(** The cumulative sum of [spectrum - 1]. *)
Fixpoint Qcumsum_from (acc : Q) (l : list Q) : list Q :=
  match l with
  | [] => []
  | x :: l' => (acc + x)%Q :: Qcumsum_from (acc + x)%Q l'
  end.

Definition cumulative (spectrum : list Q) : list Q :=
  match map (fun x => x - 1)%Q spectrum with
  | [] => []
  | x :: l => x :: Qcumsum_from x l
  end.

(** A curve all of whose values are equal. *)
Definition zero_variance (c : list Q) : Prop :=
  ∀ i j x y, c !! i = Some x → c !! j = Some y → (x == y)%Q.

(** *** The statements of the specification the code departs from *)


(** The policy the specification asks for on a degenerate spectrum: the
    initial guess raises, or the seeds of the pixel carry a mark (a value
    that is not a finite number). *)
Definition degenerate_refused_or_flagged (st : fit.Fit) : Prop :=
  ∀ p r x qs,
    spectrum_at (fit._data st) p r x = map np.Num qs → qs ≠ [] →
    zero_variance (cumulative qs) →
    (∃ e, fit.get_initial_parameter st = Raise e) ∨
    (∃ ip s v, fit.get_initial_parameter st = Ok ip ∧
               np.item ip [p; r; x; s] = Some v ∧ ¬ finite v).

(** ** A small dataset, a configuration and a solver to run the class on *)

Module example.

Definition floats (l : list Q) : list np.float := map np.Num l.

Definition SETTINGS : fit.settings :=
  {| fit.s_estimator := "LSE";
     fit.s_center_min := Some 0%Q; fit.s_center_max := Some 5%Q;
     fit.s_center_type := fit.CStr "LOWER_UPPER";
     fit.s_width_min := Some 0%Q; fit.s_width_max := Some 1%Q;
     fit.s_width_type := fit.CStr "LOWER_UPPER";
     fit.s_contrast_min := Some 0%Q; fit.s_contrast_max := Some 1%Q;
     fit.s_contrast_type := fit.CInt 3;
     fit.s_offset_min := None; fit.s_offset_max := None;
     fit.s_offset_type := fit.CStr "FREE";
     fit.s_max_number_iterations := 20; fit.s_tolerance := (1 # 1000)%Q |}.

(** Two polarizations, two frequency ranges, three pixels, four bins.
    The spectrum of pixel [x] in polarization [p] and range [r] is flat
    but for a dip to [(100 p + 10 r + x) / 1000] in its second bin. *)
Definition depth (p r x : nat) : Q := Z.of_nat (100 * p + 10 * r + x) # 1000.

Definition spectrum (p r x : nat) : list np.float :=
  floats [1; depth p r x; 1; 1]%Q.

Definition data : np.ndarray np.float :=
  np.mk [2; 2; 3; 4]%nat
    (flat_map (fun p => flat_map (fun r => flat_map (spectrum p r) (seq 0 3))
                                 (seq 0 2)) (seq 0 2)).

Definition frequencies : np.ndarray np.float :=
  np.mk [2; 4]%nat
    (floats [2840 # 1000; 2843 # 1000; 2846 # 1000; 2849 # 1000;
             2890 # 1000; 2893 # 1000; 2896 # 1000; 2899 # 1000]%Q).

(** A solver that does not iterate: it hands back the initial parameters
    and reports, as the state code, the chi-square and the iteration
    count of a row, the depth of the dip of that row in thousandths. *)
Definition row_code (row : list np.float) : Z :=
  match row !! 1%nat with
  | Some (np.Num q) => Qfloor (q * 1000)
  | _ => 0%Z
  end.

Definition fit_constrained (a : fit.fit_args) : result fit.fit_out :=
  match np.shape (fit.a_data a) with
  | [n; nfreq] =>
      let codes := map row_code (np.chunks n nfreq (np.flat (fit.a_data a))) in
      Ok {| fit.parameters := fit.a_initial_parameters a;
            fit.states := np.mk [n] codes;
            fit.chi_squares := np.mk [n] (map (fun z => np.Num (inject_Z z)) codes);
            fit.number_iterations := np.mk [n] codes;
            fit.execution_time := np.Num (1 # 10) |}
  | _ => Raise (ValueError "data must be two-dimensional")
  end.

(** [Fit(data, frequencies, "esr14n")] *)
Definition constructed : result fit.Fit :=
  fit.__init__ SETTINGS data frequencies "esr14n" None.

(** The instance it returns. *)
Definition instance : fit.Fit :=
  match constructed with
  | Ok st => st
  | Raise _ => fit.blank data frequencies
  end.

(** The outcome of [fit_odmr()] on it, and the instance afterwards. *)
Definition after_fit : result unit * fit.Fit :=
  fit.fit_odmr SETTINGS fit_constrained instance.

Definition fitted_instance : fit.Fit := snd after_fit.

(** A second dataset, of one pixel: every spectrum is flat at 1. *)
Definition flat_data : np.ndarray np.float :=
  np.mk [2; 2; 1; 4]%nat (replicate 16 (np.Num 1)).

Definition flat_instance : fit.Fit :=
  match fit.__init__ SETTINGS flat_data frequencies "ESR14N" None with
  | Ok st => st
  | Raise _ => fit.blank flat_data frequencies
  end.

Definition flat_seed : np.ndarray np.float :=
  match fit.get_initial_parameter flat_instance with
  | Ok ip => ip
  | Raise _ => np.zeros []
  end.

(** [Fit(data, frequencies, "gauss1d")], and that instance after
    [fit.model = "ESR14N"]. *)
Definition gauss_instance : fit.Fit :=
  match fit.__init__ SETTINGS data frequencies "gauss1d" None with
  | Ok st => st
  | Raise _ => fit.blank data frequencies
  end.

Definition switched : fit.Fit := snd (fit.model_setter "ESR14N" gauss_instance).

End example.

(** * Properties *)

(** ** Parameter slots *)

(** C3: for every supported model the list of unique slots has the length
    of the template and follows its order: the slot at a position is the
    bare kind when the kind occurs once in the template, and otherwise the
    kind suffixed with the number of its earlier occurrences; the slots are
    pairwise distinct, and ESR14N yields center, width, contrast_0,
    contrast_1, contrast_2, offset. *)
Theorem fitting_parameter_unique_supported (k : string) (e : models.entry) :
  models.lookup_in k models.IMPLEMENTED = Some e →
  let t := models.params e in
  let u := fitting_parameter_unique_of t in
  length u = length t ∧
  NoDup u ∧
  (∀ i v, t !! i = Some v →
     u !! i = Some (if (pystr.count v t =? 1)%nat then v
                    else v ++ "_" ++ pystr.digit (pystr.count v (take i t)))) ∧
  (k = "ESR14N" →
     u = ["center"; "width"; "contrast_0"; "contrast_1"; "contrast_2"; "offset"]).
Proof.
  intros H. cbv [models.lookup_in models.IMPLEMENTED] in H.
  repeat match type of H with
         | (if String.eqb ?a k then _ else _) = _ =>
             destruct (String.eqb_spec a k) as [<-|?]
         end; try discriminate H.
  all: injection H as <-; cbv zeta.
  all: split; [reflexivity|].
  all: split; [apply (bool_decide_unpack _); vm_compute; exact I|].
  all: split; [|first [discriminate | intros _; reflexivity]].
  all: intros i v;
       do 7 (try destruct i as [|i]); simpl; intros Hv;
       try discriminate Hv; injection Hv as <-; reflexivity.
Qed.

Lemma fitting_parameter_unique_supported_witness :
  ∃ e, models.lookup_in "ESR15N" models.IMPLEMENTED = Some e ∧
       length (fitting_parameter_unique_of (models.params e)) = 5%nat.
Proof.
  eexists. split; [reflexivity|].
  exact (proj1 (fitting_parameter_unique_supported "ESR15N" _ eq_refl)).
Defined.

(** ** The life cycle of a fit *)



(** C2: on a fitted instance [fit_odmr] returns at once: the solver is not
    called and no attribute changes, the cached results among them. *)
Theorem fit_odmr_fitted_noop (SETTINGS : fit.settings)
    (fit_constrained : fit.fit_args → result fit.fit_out) (st : fit.Fit) :
  fit._fitted st = true →
  fit.fit_odmr SETTINGS fit_constrained st = (Ok tt, st).
Proof.
  intros Hf. unfold fit.fit_odmr, mbind, fit.M_bind, fit.get. simpl.
  rewrite Hf. reflexivity.
Qed.

Lemma fit_odmr_fitted_noop_witness :
  fit._fitted example.fitted_instance = true ∧
  length (fit.gf_calls example.fitted_instance) = 2%nat ∧
  fit.fit_odmr example.SETTINGS example.fit_constrained example.fitted_instance
  = (Ok tt, example.fitted_instance).
Proof.
  split; [vm_compute; reflexivity|].
  split; [vm_compute; reflexivity|].
  apply fit_odmr_fitted_noop. vm_compute; reflexivity.
Defined.

(** The setter of [model] refuses a name whose upper-case form is not a key
    of the registry: the message lists the four keys and no attribute
    changes. *)
Lemma model_setter_unknown (st : fit.Fit) (model : string) :
  pystr.mem (pystr.upper model) models.keys = false →
  fit.model_setter model st =
    (Raise (ValueError ("Unknown model: " ++ model ++
                        " choose from ['GAUSS1D', 'ESR14N', 'ESR15N', 'ESRSINGLE']")),
     st).
Proof.
  intros H. unfold fit.model_setter. rewrite H. reflexivity.
Qed.

(** C8 (the setter, on the input that breaks the claim): a name that is a
    key only after upper-casing passes the check, is stored upper-cased in
    [_model], and then fails the registry lookup, which uses the name as it
    was given: [KeyError], with [_model] already replaced and [_model_dict]
    still that of the previous model. *)
Theorem model_setter_not_upper (st : fit.Fit) (model : string) :
  pystr.mem (pystr.upper model) models.keys = true →
  models.lookup_in model models.IMPLEMENTED = None →
  fit.model_setter model st =
    (Raise (KeyError model), fit.with_model (pystr.upper model) st).
Proof.
  intros Hin Hout. unfold fit.model_setter. rewrite Hin. simpl.
  unfold mbind, fit.M_bind, fit.modify, fit.lift, models.getitem.
  rewrite Hout. reflexivity.
Qed.

Lemma model_setter_not_upper_witness :
  example.constructed = Ok example.instance ∧
  fit.model_setter "esr15n" example.instance =
    (Raise (KeyError "esr15n"), fit.with_model "ESR15N" example.instance) ∧
  fit._model (fit.with_model "ESR15N" example.instance) = "ESR15N" ∧
  models.name (fit._model_dict (fit.with_model "ESR15N" example.instance)) = "N14".
Proof.
  split; [vm_compute; reflexivity|].
  split; [|split; vm_compute; reflexivity].
  apply (model_setter_not_upper _ "esr15n"); vm_compute; reflexivity.
Defined.

(** ** Blocks of a row-major array *)

Section chunks.
Context {A : Type}.
Implicit Types (l b : list A) (bs : list (list A)).

Lemma chunk_0 n l : np.chunk n 0 l = take n l.
Proof. reflexivity. Qed.

Lemma chunk_S n k l : np.chunk n (S k) l = np.chunk n k (drop n l).
Proof.
  unfold np.chunk. rewrite drop_drop. f_equal.
Qed.

Lemma chunk_app n k b l :
  length b = n → np.chunk n (S k) (b ++ l) = np.chunk n k l.
Proof. intros Hb. rewrite chunk_S, drop_app_length'; done. Qed.

Lemma chunk_concat n k bs b :
  Forall (fun b => length b = n) bs → bs !! k = Some b →
  np.chunk n k (concat bs) = b.
Proof.
  intros Hall. revert k. induction Hall as [|b0 bs Hb0 _ IH]; intros k Hk.
  - discriminate.
  - destruct k as [|k]; simpl in *.
    + injection Hk as ->. rewrite chunk_0. by apply take_app_length'.
    + rewrite chunk_app by done. by apply IH.
Qed.

Lemma chunks_S count n l :
  np.chunks (S count) n l = take n l :: np.chunks count n (drop n l).
Proof.
  unfold np.chunks. simpl. f_equal.
  rewrite <- seq_shift, List.map_map. apply List.map_ext. intros k.
  apply chunk_S.
Qed.

Lemma chunks_concat n bs :
  Forall (fun b => length b = n) bs →
  np.chunks (length bs) n (concat bs) = bs.
Proof.
  induction 1 as [|b bs Hb _ IH]; [done|]. simpl length.
  rewrite chunks_S. simpl.
  rewrite take_app_length', drop_app_length' by done. by rewrite IH.
Qed.

Lemma concat_chunks count n l :
  length l = (count * n)%nat → concat (np.chunks count n l) = l.
Proof.
  revert l. induction count as [|c IH]; intros l Hl.
  - destruct l; [done|discriminate].
  - rewrite chunks_S. simpl. rewrite IH, take_drop; [done|].
    rewrite length_drop. lia.
Qed.

Lemma length_chunks count n l : length (np.chunks count n l) = count.
Proof. unfold np.chunks. by rewrite length_map, length_seq. Qed.

Lemma chunks_lookup count n l k :
  (k < count)%nat → np.chunks count n l !! k = Some (np.chunk n k l).
Proof.
  intros Hk. unfold np.chunks. rewrite list_lookup_fmap.
  rewrite lookup_seq_lt by done. reflexivity.
Qed.

Lemma length_chunk n k l :
  ((S k) * n ≤ length l)%nat → length (np.chunk n k l) = n.
Proof.
  intros H. unfold np.chunk. rewrite length_take, length_drop. lia.
Qed.

Lemma Forall_length_chunks count n l :
  length l = (count * n)%nat →
  Forall (fun b => length b = n) (np.chunks count n l).
Proof.
  intros Hl. apply Forall_lookup. intros k b Hk.
  pose proof (lookup_lt_Some _ _ _ Hk) as Hlt. rewrite length_chunks in Hlt.
  rewrite chunks_lookup in Hk by done. injection Hk as <-.
  apply length_chunk. nia.
Qed.

(** An array seen at its own shape is the array. *)
Lemma bc_flat_same (s : list nat) l :
  length l = np.size s → np.bc_flat s s l = l.
Proof.
  revert l. induction s as [|d ds IH]; intros l Hl; [done|].
  simpl in *. rewrite Nat.eqb_refl.
  transitivity (concat (np.chunks d (np.size ds) l));
    [|by apply concat_chunks].
  f_equal. unfold np.chunks. apply map_ext_in. intros k Hk.
  apply in_seq in Hk. apply IH, length_chunk. nia.
Qed.

End chunks.

Lemma broadcast_rev_same (s : list nat) : np.broadcast_rev s s = Some s.
Proof.
  induction s as [|d s IH]; [done|]. simpl. rewrite IH. simpl.
  by rewrite Nat.eqb_refl.
Qed.

Lemma broadcast_shapes_same (s : list nat) : np.broadcast_shapes s s = Some s.
Proof.
  unfold np.broadcast_shapes. rewrite broadcast_rev_same. simpl.
  by rewrite reverse_involutive.
Qed.

Lemma broadcast_to_same {A} (a : np.ndarray A) :
  np.wf a → np.broadcast_to a (np.shape a) = np.flat a.
Proof.
  intros Hwf. unfold np.broadcast_to, np.ndim. rewrite Nat.sub_diag. simpl.
  by apply bc_flat_same.
Qed.

(** [np.all(a == b)] on two well-formed arrays of one shape. *)
Lemma all_equal_same_shape (a b : np.ndarray np.float) :
  np.wf a → np.wf b → np.shape a = np.shape b →
  np.all_equal a b = forallb id (zip_with np.feqb (np.flat a) (np.flat b)).
Proof.
  intros Ha Hb Hs. unfold np.all_equal. rewrite <- Hs, broadcast_shapes_same.
  rewrite broadcast_to_same by done. rewrite Hs, broadcast_to_same by done.
  reflexivity.
Qed.

Lemma forallb_zip_with_Forall2 {A B} (f : A → B → bool) (l : list A) (k : list B) :
  Forall2 (fun x y => f x y = true) l k → forallb id (zip_with f l k) = true.
Proof.
  induction 1 as [|x y l k Hxy _ IH]; [done|]. simpl. by rewrite Hxy, IH.
Qed.

(** ** Replacing the data *)

(** C10: assigning an array that is element-wise equal to the data (in
    numpy's sense: [np.all(old == new)]; in particular a well-formed array
    of the same shape with pairwise equal entries) changes nothing: the
    fitted flag, the results and the cached initial guess stay.  Every
    other assignment stores the array and drops the cached guess and the
    results; so an assignment that changes the instance is one of an array
    that is not element-wise equal to the data. *)
Theorem data_setter_equal_noop (st : fit.Fit) (data : np.ndarray np.float) :
  (np.all_equal (fit._data st) data = true →
     fit.data_setter data st = (Ok tt, st)) ∧
  (np.wf (fit._data st) → np.wf data → elementwise_equal (fit._data st) data →
     fit.data_setter data st = (Ok tt, st)) ∧
  (np.all_equal (fit._data st) data = false →
     fit.data_setter data st = (Ok tt, invalidated data st)) ∧
  (fit.data_setter data st ≠ (Ok tt, st) →
     np.wf (fit._data st) → np.wf data →
     ¬ elementwise_equal (fit._data st) data).
Proof.
  assert (Heq : np.all_equal (fit._data st) data = true →
                fit.data_setter data st = (Ok tt, st)).
  { intros H. unfold fit.data_setter, mbind, fit.M_bind, fit.get. simpl.
    by rewrite H. }
  assert (Hsame : np.wf (fit._data st) → np.wf data →
                  elementwise_equal (fit._data st) data →
                  fit.data_setter data st = (Ok tt, st)).
  { intros Ha Hb [Hs Hall]. apply Heq.
    rewrite all_equal_same_shape by done.
    by apply forallb_zip_with_Forall2. }
  repeat split; try done.
  - intros H. unfold fit.data_setter, mbind, fit.M_bind, fit.get. simpl.
    by rewrite H.
  - intros Hne Ha Hb He. apply Hne. by apply Hsame.
Qed.

Lemma data_setter_equal_noop_witness :
  fit.data_setter example.data example.fitted_instance
    = (Ok tt, example.fitted_instance) ∧
  fit._fitted example.fitted_instance = true.
Proof.
  split; [|vm_compute; reflexivity].
  apply (proj1 (data_setter_equal_noop example.fitted_instance example.data)).
  vm_compute. reflexivity.
Defined.

(** ** Constraints *)

Lemma foldM_constraints (st : fit.Fit) (ks : list string) (acc : list fit.bound) :
  (∀ k, k ∈ ks → is_Some (fit._constraints st !! k)) →
  foldM (fun acc k => c ← fit.constraint_of st k;
                      Ok (acc ++ [fit.c_min c; fit.c_max c])%list) acc ks
  = Ok (acc ++ flat_map (fun k => match fit._constraints st !! k with
                                  | Some c => [fit.c_min c; fit.c_max c]
                                  | None => []
                                  end) ks)%list.
Proof.
  revert acc. induction ks as [|k ks IH]; intros acc Hall; cbn [foldM flat_map].
  - by rewrite app_nil_r.
  - destruct (Hall k) as [c Hc]; [set_solver|].
    assert (fit.constraint_of st k = Ok c) as ->
      by (unfold fit.constraint_of; by rewrite Hc).
    cbn [mbind result_bind].
    rewrite IH by (intros; apply Hall; set_solver).
    rewrite Hc. f_equal. symmetry. apply (app_assoc acc [_; _]).
Qed.

Lemma flat_map_pairs_lookup {K V} (f g : K → V) (ks : list K) (i : nat) (k : K) :
  ks !! i = Some k →
  flat_map (fun k => [f k; g k]) ks !! (2 * i)%nat = Some (f k) ∧
  flat_map (fun k => [f k; g k]) ks !! (2 * i + 1)%nat = Some (g k).
Proof.
  revert i. induction ks as [|k0 ks IH]; intros i Hi; [done|].
  destruct i as [|i]; simpl in *.
  - by injection Hi as ->.
  - replace (i + S (i + 0))%nat with (S (2 * i)) by lia.
    replace (i + S (i + 0) + 1)%nat with (S (2 * i + 1)) by lia.
    simpl. by apply IH.
Qed.

(** C9: when every unique slot has a constraint, [get_constraints_array(n)]
    returns, for [n >= 1], an array of shape [(n, 2 * slots)] made of [n]
    copies of one row; the row holds, at positions [2 i] and [2 i + 1], the
    minimum and the maximum of slot [i]. *)
Theorem get_constraints_array_tiled (st : fit.Fit) (n : nat) :
  (1 ≤ n)%nat →
  (∀ k, k ∈ fit.fitting_parameter_unique st → is_Some (fit._constraints st !! k)) →
  ∃ a row,
    fit.get_constraints_array st n = Ok a ∧
    np.shape a = [n; (2 * length (fit.fitting_parameter_unique st))%nat] ∧
    length row = (2 * length (fit.fitting_parameter_unique st))%nat ∧
    np.flat a = concat (replicate n row) ∧
    (∀ r, (r < n)%nat → np.chunk (length row) r (np.flat a) = row) ∧
    (∀ i k c, fit.fitting_parameter_unique st !! i = Some k →
              fit._constraints st !! k = Some c →
              row !! (2 * i)%nat = Some (fit.c_min c) ∧
              row !! (2 * i + 1)%nat = Some (fit.c_max c)).
Proof.
  intros Hn Hall. unfold fit.get_constraints_array.
  rewrite foldM_constraints by done. simpl.
  set (ks := fit.fitting_parameter_unique st) in *.
  set (row := flat_map _ ks).
  assert (Hrow : row = flat_map (fun k =>
            [from_option fit.c_min None (fit._constraints st !! k);
             from_option fit.c_max None (fit._constraints st !! k)]) ks).
  { subst row. clearbody ks. induction ks as [|k ks IH]; [done|]. simpl.
    destruct (Hall k) as [c Hc]; [set_solver|]. rewrite Hc. simpl.
    do 2 f_equal. apply IH. intros; apply Hall; set_solver. }
  assert (Hlen : length row = (2 * length ks)%nat).
  { rewrite Hrow. clear. induction ks as [|k ks IH]; [done|]. simpl in *.
    rewrite IH. lia. }
  exists (np.tile_rows row n), row.
  split; [done|]. split; [simpl; by rewrite Hlen|]. split; [done|].
  split; [done|]. split.
  - intros r Hr. simpl. apply chunk_concat.
    + by apply Forall_replicate.
    + by apply lookup_replicate_2.
  - intros i k c Hi Hc.
    destruct (flat_map_pairs_lookup
      (fun k => from_option fit.c_min None (fit._constraints st !! k))
      (fun k => from_option fit.c_max None (fit._constraints st !! k)) ks i k Hi)
      as [H1 H2].
    rewrite Hc in H1, H2. rewrite Hrow. by split.
Qed.

Lemma get_constraints_array_tiled_witness :
  ∃ a, fit.get_constraints_array example.instance 3 = Ok a ∧
       np.shape a = [3; 12]%nat.
Proof.
  destruct (get_constraints_array_tiled example.instance 3)
    as (a & row & Ha & Hs & _).
  - lia.
  - intros k Hk.
    assert (Hu : fit.fitting_parameter_unique example.instance =
                 ["center"; "width"; "contrast_0"; "contrast_1"; "contrast_2"; "offset"])
      by (vm_compute; reflexivity).
    rewrite Hu in Hk.
    repeat (apply elem_of_cons in Hk as [->|Hk];
            [apply (bool_decide_unpack _); vm_compute; exact I|]).
    exfalso. exact (proj1 (elem_of_nil k) Hk).
  - exists a. split; [exact Ha|]. rewrite Hs. vm_compute. reflexivity.
Defined.

Lemma checked_constraint_type_stored (ct : fit.ctype_arg) (stored : option string) :
  fit.checked_constraint_type ct = Ok stored →
  fit.checked_constraint_type (fit.ctype_of stored) = Ok stored.
Proof.
  unfold fit.checked_constraint_type. intros H.
  destruct stored as [s|]; [|reflexivity].
  assert (Hs : pystr.mem s fit.CONSTRAINT_TYPES = true).
  { destruct ct as [|s'|i]; cbn [mbind result_bind fmap result_fmap] in H.
    - discriminate.
    - destruct (pystr.mem s' fit.CONSTRAINT_TYPES) eqn:E; [|discriminate].
      by injection H as <-.
    - destruct (fit.list_getitem fit.CONSTRAINT_TYPES i) as [s'|]; [|discriminate].
      cbn [mbind result_bind fmap result_fmap] in H.
      destruct (pystr.mem s' fit.CONSTRAINT_TYPES) eqn:E; [|discriminate].
      by injection H as <-. }
  cbn [fit.ctype_of mbind result_bind]. by rewrite Hs.
Qed.

Lemma set_constraints_rec_S (d : nat) (param : string) (vmin vmax : fit.bound)
    (ct : fit.ctype_arg) :
  fit.set_constraints_rec (S d) param vmin vmax ct =
    (stored ← fit.lift (fit.checked_constraint_type ct);
     st ← fit.get;
     if String.eqb param "contrast"
        && negb (bool_decide (fit.fitting_parameter_unique st = fit.fitting_parameter st))
     then
       fit.forM_ (filter (fun v => pystr.contains "contrast" v = true)
                         (fit.fitting_parameter_unique st))
                 (fun contrast =>
                    fit.set_constraints_rec d contrast vmin vmax (fit.ctype_of stored))
     else
       unit ← fit.lift (fit.dict_getitem fit.UNITS (pystr.split_first "_" param));
       _ ← fit.modify (fun st =>
              fit.with_constraints
                (<[param := {| fit.c_min := vmin; fit.c_max := vmax;
                               fit.c_type := stored; fit.c_unit := unit |}]>
                   (fit._constraints st)) st);
       fit._reset_fit).
Proof. reflexivity. Qed.

(** A call for one slot: the constraint is stored under the slot's name and
    the results are reset. *)
Lemma set_constraints_rec_slot (d : nat) (param unit : string) (vmin vmax : fit.bound)
    (ct : fit.ctype_arg) (stored : option string) (st : fit.Fit) :
  fit.checked_constraint_type ct = Ok stored →
  (String.eqb param "contrast"
   && negb (bool_decide (fit.fitting_parameter_unique st = fit.fitting_parameter st)))
  = false →
  fit.dict_getitem fit.UNITS (pystr.split_first "_" param) = Ok unit →
  fit.set_constraints_rec (S d) param vmin vmax ct st =
    (Ok tt,
     snd (fit._reset_fit
            (fit.with_constraints
               (<[param := {| fit.c_min := vmin; fit.c_max := vmax;
                              fit.c_type := stored; fit.c_unit := unit |}]>
                  (fit._constraints st)) st))).
Proof.
  intros Hct Hbr Hunit. rewrite set_constraints_rec_S.
  unfold mbind, fit.M_bind, fit.lift, fit.get. rewrite Hct, Hbr, Hunit.
  reflexivity.
Qed.

(** C4: on an instance whose model is ESR14N, [set_constraints("contrast",
    vmin, vmax, type)] with an accepted type stores [(vmin, vmax, type)],
    with the unit of contrast, under contrast_0, contrast_1 and contrast_2,
    and leaves the constraint stored under every other name, those of
    center, width and offset among them, as it was. *)
Theorem set_constraints_contrast_ESR14N (st : fit.Fit) (vmin vmax : fit.bound)
    (ct : fit.ctype_arg) (stored : option string) :
  models.getitem "ESR14N" = Ok (fit._model_dict st) →
  fit.checked_constraint_type ct = Ok stored →
  ∃ st',
    fit.set_constraints "contrast" vmin vmax ct st = (Ok tt, st') ∧
    (∀ k, k ∈ ["contrast_0"; "contrast_1"; "contrast_2"] →
          fit._constraints st' !! k =
            Some {| fit.c_min := vmin; fit.c_max := vmax;
                    fit.c_type := stored; fit.c_unit := "a.u." |}) ∧
    (∀ k, k ∉ ["contrast_0"; "contrast_1"; "contrast_2"] →
          fit._constraints st' !! k = fit._constraints st !! k) ∧
    fit._constraints st' !! "center" = fit._constraints st !! "center" ∧
    fit._constraints st' !! "width" = fit._constraints st !! "width" ∧
    fit._constraints st' !! "offset" = fit._constraints st !! "offset".
Proof.
  intros Hm Hct. injection Hm as Hm.
  pose proof (checked_constraint_type_stored _ _ Hct) as Hct'.
  set (C := {| fit.c_min := vmin; fit.c_max := vmax;
               fit.c_type := stored; fit.c_unit := "a.u." |}).
  set (st1 := snd (fit._reset_fit
         (fit.with_constraints (<["contrast_0" := C]> (fit._constraints st)) st))).
  set (st2 := snd (fit._reset_fit
         (fit.with_constraints (<["contrast_1" := C]> (fit._constraints st1)) st1))).
  set (st3 := snd (fit._reset_fit
         (fit.with_constraints (<["contrast_2" := C]> (fit._constraints st2)) st2))).
  assert (Hcs : fit._constraints st3 =
                <["contrast_2" := C]> (<["contrast_1" := C]>
                  (<["contrast_0" := C]> (fit._constraints st)))) by reflexivity.
  exists st3. split.
  - unfold fit.set_constraints, fit.recursion_limit.
    change 1000%nat with (S (S 998)).
    rewrite set_constraints_rec_S.
    unfold mbind at 1, fit.M_bind at 1, fit.lift at 1. rewrite Hct.
    unfold mbind at 1, fit.M_bind at 1, fit.get at 1.
    unfold fit.fitting_parameter_unique, fit.fitting_parameter. rewrite <- Hm.
    change (fit.forM_ ["contrast_0"; "contrast_1"; "contrast_2"]
              (fun contrast =>
                 fit.set_constraints_rec (S 998) contrast vmin vmax (fit.ctype_of stored))
              st = (Ok tt, st3)).
    cbn [fit.forM_]. unfold mbind, fit.M_bind.
    rewrite (set_constraints_rec_slot 998 "contrast_0" "a.u." _ _ _ stored st)
      by done.
    rewrite (set_constraints_rec_slot 998 "contrast_1" "a.u." _ _ _ stored st1)
      by done.
    rewrite (set_constraints_rec_slot 998 "contrast_2" "a.u." _ _ _ stored st2)
      by done.
    reflexivity.
  - rewrite Hcs. repeat split.
    + intros k Hk.
      repeat (apply elem_of_cons in Hk as [->|Hk]; [by simplify_map_eq|]).
      exfalso. exact (proj1 (elem_of_nil k) Hk).
    + intros k Hk.
      rewrite !lookup_insert_ne; [done|..]; intros <-; apply Hk; set_solver.
    + by rewrite !lookup_insert_ne.
    + by rewrite !lookup_insert_ne.
    + by rewrite !lookup_insert_ne.
Qed.

Lemma set_constraints_contrast_ESR14N_witness :
  ∃ st',
    fit.set_constraints "contrast" (Some (1 # 100)) (Some (1 # 2)) (fit.CStr "FREE")
      example.instance = (Ok tt, st') ∧
    fit.c_type <$> fit._constraints st' !! "contrast_1" = Some (Some "FREE") ∧
    fit._constraints st' !! "center" = fit._constraints example.instance !! "center".
Proof.
  destruct (set_constraints_contrast_ESR14N example.instance
              (Some (1 # 100)) (Some (1 # 2)) (fit.CStr "FREE") (Some "FREE"))
    as (st' & Hrun & Hnew & _ & Hcenter & _).
  - vm_compute. reflexivity.
  - reflexivity.
  - exists st'. split; [exact Hrun|]. split; [|exact Hcenter].
    rewrite (Hnew "contrast_1"); [reflexivity|].
    apply (bool_decide_unpack _). vm_compute. exact I.
Defined.

(** ** The guess of every pixel *)

Lemma mapM_result_ok {A B} (f : A → result B) (g : A → B) (l : list A) :
  (∀ x, x ∈ l → f x = Ok (g x)) → mapM_result f l = Ok (map g l).
Proof.
  induction l as [|x l IH]; intros H; [done|]. simpl.
  rewrite H by set_solver. simpl. rewrite IH by (intros; apply H; set_solver).
  reflexivity.
Qed.

Lemma length_cumsum_from acc l : length (np.cumsum_from acc l) = length l.
Proof. revert acc. induction l as [|x l IH]; intros acc; simpl; [done|]. by rewrite IH. Qed.

Lemma normalized_cumsum_row_ok (row : list np.float) :
  row ≠ [] →
  normalized_cumsum_row row = Ok (curve_of row) ∧
  length (curve_of row) = length row.
Proof.
  intros Hne. destruct row as [|x row]; [done|].
  unfold curve_of, normalized_cumsum_row. simpl. split; [reflexivity|].
  by rewrite !length_map, length_cumsum_from, length_map.
Qed.

Lemma argmin_from_bound best bi i l :
  (bi < i)%nat → (np.argmin_from best bi i l < i + length l)%nat.
Proof.
  revert best bi i. induction l as [|x l IH]; intros best bi i Hlt; simpl; [lia|].
  destruct (np.isnan best); [lia|].
  destruct (np.isnan x || np.fltb x best).
  - specialize (IH x i (S i)). lia.
  - specialize (IH best bi (S i)). lia.
Qed.

Lemma nearest_index_row_ok (level : Q) (c : list np.float) :
  c ≠ [] → ∃ k, nearest_index_row level c = Ok k ∧ (k < length c)%nat.
Proof.
  intros Hne. destruct c as [|x c]; [done|].
  unfold nearest_index_row. simpl. eexists. split; [reflexivity|].
  pose proof (argmin_from_bound
    (np.fabs (np.fsub x (np.Num level))) 0 1
    (map (fun x => np.fabs (np.fsub x (np.Num level))) c)) as H.
  rewrite length_map in H. simpl. lia.
Qed.

Lemma nearest_of_bound (level : Q) (row : list np.float) :
  row ≠ [] →
  nearest_index_row level (curve_of row) = Ok (nearest_of level row) ∧
  (nearest_of level row < length row)%nat.
Proof.
  intros Hne. destruct (normalized_cumsum_row_ok row Hne) as [_ Hlen].
  destruct (nearest_index_row_ok level (curve_of row)) as (k & Hk & Hlt).
  { intros E. rewrite E in Hlen. destruct row; done. }
  unfold nearest_of. rewrite Hk. split; [done|]. lia.
Qed.

Lemma size_2 a b : np.size [a; b] = (a * b)%nat.
Proof. simpl. lia. Qed.

Lemma size_3 a b c : np.size [a; b; c] = (a * b * c)%nat.
Proof. simpl. lia. Qed.

Lemma chunks_rows_nonempty {A} count n (l : list A) (row : list A) :
  (1 ≤ n)%nat → length l = (count * n)%nat →
  row ∈ np.chunks count n l → length row = n ∧ row ≠ [].
Proof.
  intros Hn Hl Hrow.
  pose proof (Forall_length_chunks count n l Hl) as Hall.
  rewrite Forall_forall in Hall. apply Hall in Hrow.
  split; [done|]. intros ->. simpl in Hrow. lia.
Qed.

Lemma normalized_cumsum_3d a b n (data : np.ndarray np.float) :
  np.shape data = [a; b; n] → np.wf data → (1 ≤ n)%nat →
  normalized_cumsum data =
    Ok (np.mk [a; b; n]
          (concat (map curve_of (np.chunks (a * b) n (np.flat data))))).
Proof.
  intros Hs Hwf Hn. unfold np.wf in Hwf. rewrite Hs, size_3 in Hwf.
  unfold normalized_cumsum, np.ndim. rewrite Hs. simpl length. simpl Nat.eqb.
  unfold np.map_last. rewrite Hs. cbn [np.split_last fmap option_fmap option_map].
  destruct n as [|n]; [lia|]. rewrite size_2.
  rewrite (mapM_result_ok _ curve_of).
  - reflexivity.
  - intros row Hrow. apply normalized_cumsum_row_ok.
    by eapply chunks_rows_nonempty.
Qed.

Lemma reduce_last_nearest (level : Q) a b n (rows : list (list np.float)) :
  (1 ≤ n)%nat → length rows = (a * b)%nat →
  Forall (fun row => length row = n) rows →
  np.reduce_last (nearest_index_row level)
    (np.mk [a; b; n] (concat (map curve_of rows)))
  = Ok (np.mk [a; b] (map (nearest_of level) rows)).
Proof.
  intros Hn Hlen Hall. unfold np.reduce_last.
  cbn [np.shape np.flat np.split_last fmap option_fmap option_map].
  destruct n as [|n]; [lia|]. rewrite size_2, <- Hlen.
  assert (Hne : ∀ row, row ∈ rows → row ≠ []).
  { intros row Hrow. rewrite Forall_forall in Hall.
    apply Hall in Hrow. intros ->. simpl in Hrow. lia. }
  rewrite <- (length_map curve_of), chunks_concat.
  - rewrite (mapM_result_ok _ (fun c => match nearest_index_row level c with
                                        | Ok k => k | Raise _ => 0%nat end)).
    + simpl. by rewrite List.map_map.
    + intros c Hc. apply list_elem_of_fmap in Hc as (row & -> & Hrow).
      destruct (nearest_of_bound level row (Hne _ Hrow)) as [-> _]. done.
  - apply Forall_fmap. eapply Forall_impl; [exact Hall|].
    intros row Hrow. simpl.
    destruct (normalized_cumsum_row_ok row) as [_ ->]; [|done].
    intros ->. done.
Qed.

Lemma take0_axis (freq : np.ndarray np.float) (n : nat) (idx : np.ndarray nat) :
  np.shape freq = [n] → np.wf freq →
  Forall (fun i => (i < n)%nat) (np.flat idx) →
  np.take0 freq idx =
    Ok (np.mk (np.shape idx) (map (at_index (np.flat freq)) (np.flat idx))).
Proof.
  intros Hs Hwf Hall. unfold np.wf in Hwf. rewrite Hs in Hwf. simpl in Hwf.
  unfold np.take0. rewrite Hs.
  assert (forallb (fun i => (i <? n)%nat) (np.flat idx) = true) as ->.
  { apply forallb_forall. rewrite Forall_forall in Hall.
    intros i Hi. apply Nat.ltb_lt, Hall. by apply list_elem_of_In. }
  rewrite app_nil_r. do 2 f_equal.
  induction Hall as [|i l Hi _ IH]; [done|]. cbn [List.map concat].
  rewrite IH. change (np.size []) with 1%nat.
  unfold np.chunk, at_index. rewrite Nat.mul_1_r.
  destruct (lookup_lt_is_Some_2 (np.flat freq) i) as [v Hv]; [lia|].
  rewrite Hv. by rewrite (drop_S _ _ _ Hv).
Qed.

Lemma broadcast2_same_shape {A B C} (f : A → B → C)
    (a : np.ndarray A) (b : np.ndarray B) :
  np.wf a → np.wf b → np.shape a = np.shape b →
  np.broadcast2 f a b = Ok (np.mk (np.shape a) (zip_with f (np.flat a) (np.flat b))).
Proof.
  intros Ha Hb Hs. unfold np.broadcast2. rewrite <- Hs, broadcast_shapes_same.
  rewrite broadcast_to_same by done. rewrite Hs, broadcast_to_same by done.
  by rewrite <- Hs.
Qed.

Lemma zip_with_map_same {A B C D} (f : B → C → D) (g : A → B) (h : A → C) (l : list A) :
  zip_with f (map g l) (map h l) = map (fun x => f (g x) (h x)) l.
Proof. induction l as [|x l IH]; [done|]. simpl. by rewrite IH. Qed.

(** [guess_width_single] and [guess_center_freq_single], row by row. *)
Lemma guess_width_single_rows a b n (data freq : np.ndarray np.float) :
  np.shape data = [a; b; n] → np.wf data → (1 ≤ n)%nat →
  np.shape freq = [n] → np.wf freq →
  guess_width_single data freq =
    Ok (np.mk [a; b]
          (map (fun row => width_of row (np.flat freq))
               (np.chunks (a * b) n (np.flat data)))).
Proof.
  intros Hs Hwf Hn Hfs Hfwf. unfold guess_width_single.
  rewrite (normalized_cumsum_3d a b n) by done. cbn [mbind result_bind].
  assert (Hlen : length (np.flat data) = (a * b * n)%nat).
  { unfold np.wf in Hwf. by rewrite Hs, size_3 in Hwf. }
  pose proof (Forall_length_chunks (a * b) n (np.flat data) Hlen) as Hrows.
  rewrite !(reduce_last_nearest _ a b n) by (done || apply length_chunks).
  cbn [mbind result_bind].
  assert (Hidx : ∀ level, Forall (fun i => (i < n)%nat)
            (map (nearest_of level) (np.chunks (a * b) n (np.flat data)))).
  { intros level. apply Forall_fmap. eapply Forall_impl; [exact Hrows|].
    intros row Hrow. unfold compose. cbn beta in *.
    destruct (nearest_of_bound level row) as [_ H]; [|lia].
    intros ->. simpl in Hrow. lia. }
  rewrite !(take0_axis freq n) by (done || apply Hidx).
  cbn [mbind result_bind np.shape np.flat].
  rewrite broadcast2_same_shape.
  - cbn [np.shape np.flat]. rewrite !List.map_map, zip_with_map_same. reflexivity.
  - unfold np.wf. cbn [np.shape np.flat]. by rewrite !length_map, length_chunks, size_2.
  - unfold np.wf. cbn [np.shape np.flat]. by rewrite !length_map, length_chunks, size_2.
  - reflexivity.
Qed.

Lemma guess_center_freq_single_rows a b n (data freq : np.ndarray np.float) :
  np.shape data = [a; b; n] → np.wf data → (1 ≤ n)%nat →
  np.shape freq = [n] → np.wf freq →
  guess_center_freq_single data freq =
    Ok (np.mk [a; b]
          (map (fun row => center_of row (np.flat freq))
               (np.chunks (a * b) n (np.flat data)))).
Proof.
  intros Hs Hwf Hn Hfs Hfwf. unfold guess_center_freq_single.
  rewrite (normalized_cumsum_3d a b n) by done. cbn [mbind result_bind].
  assert (Hlen : length (np.flat data) = (a * b * n)%nat).
  { unfold np.wf in Hwf. by rewrite Hs, size_3 in Hwf. }
  pose proof (Forall_length_chunks (a * b) n (np.flat data) Hlen) as Hrows.
  rewrite (reduce_last_nearest _ a b n) by (done || apply length_chunks).
  cbn [mbind result_bind].
  rewrite (take0_axis freq n); [|done|done|].
  - cbn [np.shape np.flat]. by rewrite List.map_map.
  - apply Forall_fmap. eapply Forall_impl; [exact Hrows|].
    intros row Hrow. unfold compose. cbn beta in *.
    destruct (nearest_of_bound (1 # 2) row) as [_ H]; [|lia].
    intros ->. simpl in Hrow. lia.
Qed.

(** *** Slices and stacks of a four-dimensional dataset *)

Lemma chunk_chunk {A} (n m k x : nat) (l : list A) :
  (x < m)%nat → np.chunk n x (np.chunk (m * n) k l) = np.chunk n (k * m + x) l.
Proof.
  intros Hx. unfold np.chunk.
  rewrite skipn_firstn_comm, take_take, drop_drop.
  f_equal; [nia|]. f_equal. nia.
Qed.

Lemma chunks_app {A} (c1 c2 n : nat) (l1 l2 : list A) :
  length l1 = (c1 * n)%nat →
  np.chunks (c1 + c2) n (l1 ++ l2) = (np.chunks c1 n l1 ++ np.chunks c2 n l2)%list.
Proof.
  revert l1. induction c1 as [|c1 IH]; intros l1 Hl.
  - destruct l1; [done|discriminate].
  - change (S c1 + c2)%nat with (S (c1 + c2)). rewrite !chunks_S.
    simpl in Hl.
    rewrite take_app_le, drop_app_le by lia. simpl. f_equal.
    apply IH. rewrite length_drop. lia.
Qed.

Lemma chunks_concat_blocks {A} (c n : nat) (bs : list (list A)) :
  Forall (fun b => length b = (c * n)%nat) bs →
  np.chunks (length bs * c) n (concat bs) = flat_map (np.chunks c n) bs.
Proof.
  induction 1 as [|b bs Hb _ IH]; [done|]. simpl.
  rewrite chunks_app by done. by rewrite IH.
Qed.

Lemma chunks_chunk {A} (c n k : nat) (l : list A) :
  np.chunks c n (np.chunk (c * n) k l)
  = map (fun x => np.chunk n (k * c + x) l) (seq 0 c).
Proof.
  unfold np.chunks. apply map_ext_in. intros x Hx. apply in_seq in Hx.
  apply chunk_chunk. lia.
Qed.

Lemma take_axis1_4d {A} (a m c n r : nat) (data : np.ndarray A) :
  np.shape data = [a; m; c; n] → (r < m)%nat →
  np.take_axis1 data r =
    Ok (np.mk [a; c; n]
          (concat (map (fun p => np.chunk (c * n) (p * m + r) (np.flat data))
                       (seq 0 a)))).
Proof.
  intros Hs Hr. unfold np.take_axis1. rewrite Hs.
  apply Nat.ltb_lt in Hr. rewrite Hr. rewrite size_2. reflexivity.
Qed.

Lemma take_axis1_4d_wf {A} (a m c n r : nat) (l : list A) :
  length l = (a * m * c * n)%nat → (r < m)%nat →
  Forall (fun b => length b = (c * n)%nat)
    (map (fun p => np.chunk (c * n) (p * m + r) l) (seq 0 a)).
Proof.
  intros Hl Hr. apply Forall_fmap, Forall_forall. intros p Hp.
  apply elem_of_seq in Hp. unfold compose. apply length_chunk.
  assert (S (p * m + r) ≤ a * m)%nat by nia.
  rewrite Hl. replace (a * m * c * n)%nat with (a * m * (c * n))%nat by lia.
  by apply Nat.mul_le_mono_r.
Qed.

Lemma length_concat_blocks {A} (k : nat) (bs : list (list A)) :
  Forall (fun b => length b = k) bs → length (concat bs) = (length bs * k)%nat.
Proof. induction 1 as [|b bs Hb _ IH]; [done|]. simpl. rewrite length_app. lia. Qed.

(** The spectra of range [r], pixel by pixel. *)
Lemma take_axis1_4d_rows (a m c n r : nat) (data : np.ndarray np.float) :
  np.shape data = [a; m; c; n] → np.wf data → (r < m)%nat →
  np.chunks (a * c) n
    (concat (map (fun p => np.chunk (c * n) (p * m + r) (np.flat data)) (seq 0 a)))
  = flat_map (fun p => map (fun x => spectrum_at data p r x) (seq 0 c)) (seq 0 a).
Proof.
  intros Hs Hwf Hr. unfold np.wf in Hwf. rewrite Hs in Hwf. simpl in Hwf.
  pose proof (take_axis1_4d_wf a m c n r (np.flat data) ltac:(lia) Hr) as Hall.
  pose proof (chunks_concat_blocks c n _ Hall) as H.
  rewrite length_map, length_seq in H. rewrite H.
  rewrite !flat_map_concat_map, List.map_map. f_equal.
  apply map_ext_in. intros p _. rewrite chunks_chunk.
  apply map_ext_in. intros x _. unfold spectrum_at. by rewrite Hs.
Qed.

Lemma index0_2d {A} (m n r : nat) (f : np.ndarray A) :
  np.shape f = [m; n] → (r < m)%nat →
  np.index0 f r = Ok (np.mk [n] (np.chunk n r (np.flat f))).
Proof.
  intros Hs Hr. unfold np.index0. rewrite Hs.
  apply Nat.ltb_lt in Hr. rewrite Hr. simpl. by rewrite Nat.mul_1_r.
Qed.

(** Two arrays of shape [[a; c]], given by their rows, stacked along axis 1. *)
Lemma stack_axis1 {A} (a c : nat) (B0 B1 : nat → list A) :
  (∀ p, length (B0 p) = c) → (∀ p, length (B1 p) = c) →
  np.stack [np.mk [a; c] (concat (map B0 (seq 0 a)));
            np.mk [a; c] (concat (map B1 (seq 0 a)))] 1
  = Ok (np.mk [a; 2; c] (concat (map (fun p => B0 p ++ B1 p)%list (seq 0 a)))).
Proof.
  intros H0 H1. unfold np.stack. cbn [forallb np.shape np.flat np.ndim length].
  unfold np.shape_eqb. rewrite !bool_decide_eq_true_2 by done.
  cbn [andb Nat.leb take drop app length].
  change (np.size [a]) with (a * 1)%nat. rewrite Nat.mul_1_r.
  change (np.size [c]) with (c * 1)%nat. rewrite Nat.mul_1_r.
  do 3 f_equal. apply map_ext_in. intros p Hp. apply in_seq in Hp.
  cbn [List.map concat np.flat]. rewrite app_nil_r.
  rewrite (chunk_concat c p _ (B0 p)), (chunk_concat c p _ (B1 p)); try done.
  - apply Forall_fmap, Forall_forall. intros; apply H1.
  - rewrite list_lookup_fmap, lookup_seq_lt by lia. done.
  - apply Forall_fmap, Forall_forall. intros; apply H0.
  - rewrite list_lookup_fmap, lookup_seq_lt by lia. done.
Qed.

Lemma interleaved_blocks {A} (a c : nat) (B0 B1 : nat → list A) :
  (∀ p, length (B0 p) = c) → (∀ p, length (B1 p) = c) →
  concat (map (fun p => B0 p ++ B1 p)%list (seq 0 a))
  = concat (flat_map (fun p => [B0 p; B1 p]) (seq 0 a)) ∧
  Forall (fun b => length b = c) (flat_map (fun p => [B0 p; B1 p]) (seq 0 a)).
Proof.
  intros H0 H1. generalize (seq 0 a). intros ps. split.
  - induction ps as [|p ps IH]; [done|]. simpl. rewrite IH.
    by rewrite <- app_assoc.
  - induction ps as [|p ps IH]; [done|]. simpl. by repeat constructor.
Qed.

(** Either half of the stack, read back with [[:, r]]. *)
Lemma take_axis1_interleaved {A} (a c : nat) (B0 B1 : nat → list A) :
  (∀ p, length (B0 p) = c) → (∀ p, length (B1 p) = c) →
  let w := np.mk [a; 2; c] (concat (map (fun p => B0 p ++ B1 p)%list (seq 0 a))) in
  np.take_axis1 w 0 = Ok (np.mk [a; c] (concat (map B0 (seq 0 a)))) ∧
  np.take_axis1 w 1 = Ok (np.mk [a; c] (concat (map B1 (seq 0 a)))).
Proof.
  intros H0 H1 w. subst w. unfold np.take_axis1. cbn [np.shape np.flat Nat.ltb Nat.leb].
  change (np.size [c]) with (c * 1)%nat. rewrite Nat.mul_1_r.
  destruct (interleaved_blocks a c B0 B1 H0 H1) as [-> Hall].
  split; do 3 f_equal; apply map_ext_in; intros p Hp; apply in_seq in Hp.
  - apply chunk_concat; [done|].
    replace (p * 2 + 0)%nat with (2 * p)%nat by lia.
    apply (flat_map_pairs_lookup B0 B1). by rewrite lookup_seq_lt by lia.
  - apply chunk_concat; [done|].
    replace (p * 2 + 1)%nat with (2 * p + 1)%nat by lia.
    apply (flat_map_pairs_lookup B0 B1). by rewrite lookup_seq_lt by lia.
Qed.

Lemma item_interleaved {A} (a c : nat) (B0 B1 : nat → list A) (p r x : nat) :
  (∀ p, length (B0 p) = c) → (∀ p, length (B1 p) = c) →
  (p < a)%nat → (r < 2)%nat → (x < c)%nat →
  np.item (np.mk [a; 2; c] (concat (map (fun p => B0 p ++ B1 p)%list (seq 0 a))))
          [p; r; x]
  = (if (r =? 0)%nat then B0 p else B1 p) !! x.
Proof.
  intros H0 H1 Hp Hr Hx. unfold np.item. cbn [np.shape np.flat np.offset].
  apply Nat.ltb_lt in Hp as Hp', Hx as Hx'. apply Nat.ltb_lt in Hr as Hr'.
  rewrite Hp', Hr', Hx'. cbn [mbind option_bind].
  destruct (interleaved_blocks a c B0 B1 H0 H1) as [-> Hall].
  set (bs := flat_map _ _) in *.
  assert (Hb : bs !! (2 * p + r)%nat = Some (if (r =? 0)%nat then B0 p else B1 p)).
  { destruct (flat_map_pairs_lookup B0 B1 (seq 0 a) p p) as [E0 E1];
      [by rewrite lookup_seq_lt by lia|].
    destruct r as [|[|r]]; [|done|lia].
    by rewrite Nat.add_0_r. }
  pose proof (chunk_concat c _ bs _ Hall Hb) as Hc.
  rewrite <- Hc. unfold np.chunk. rewrite lookup_take_lt by lia.
  rewrite lookup_drop. f_equal. simpl. lia.
Qed.

Lemma item_map {A B} (f : A → B) (a : np.ndarray A) (ix : list nat) :
  np.item (np.map f a) ix = f <$> np.item a ix.
Proof.
  unfold np.item, np.map. cbn [np.shape np.flat].
  destruct (np.offset (np.shape a) ix 0) as [o|]; [|done].
  cbn [mbind option_bind]. by rewrite list_lookup_fmap.
Qed.

Lemma feqb_refl_finite (x : np.float) : finite x → np.feqb x x = true.
Proof. destruct x; try done. intros _. apply Qeq_bool_refl. Qed.

Lemma all_equal_refl (a : np.ndarray np.float) :
  np.wf a → Forall finite (np.flat a) → np.all_equal a a = true.
Proof.
  intros Hwf Hfin. rewrite all_equal_same_shape by done.
  induction Hfin as [|x l Hx _ IH]; [done|]. simpl.
  by rewrite feqb_refl_finite, IH.
Qed.

Lemma at_index_finite (freq : list np.float) (k : nat) :
  Forall finite freq → (k < length freq)%nat → finite (at_index freq k).
Proof.
  intros Hall Hk. unfold at_index.
  destruct (lookup_lt_is_Some_2 freq k Hk) as [v Hv]. rewrite Hv. simpl.
  by eapply Forall_lookup_1.
Qed.

Lemma width_of_finite (row freq : list np.float) :
  row ≠ [] → length freq = length row → Forall finite freq →
  finite (width_of row freq).
Proof.
  intros Hne Hlen Hfin. unfold width_of.
  destruct (nearest_of_bound (1 # 4) row Hne) as [_ H1].
  destruct (nearest_of_bound (3 # 4) row Hne) as [_ H2].
  pose proof (at_index_finite freq _ Hfin ltac:(rewrite Hlen; exact H1)) as F1.
  pose proof (at_index_finite freq _ Hfin ltac:(rewrite Hlen; exact H2)) as F2.
  destruct (at_index freq (nearest_of (1 # 4) row)); try done.
  destruct (at_index freq (nearest_of (3 # 4) row)); done.
Qed.

Lemma center_of_finite (row freq : list np.float) :
  row ≠ [] → length freq = length row → Forall finite freq →
  finite (center_of row freq).
Proof.
  intros Hne Hlen Hfin. unfold center_of.
  destruct (nearest_of_bound (1 # 2) row Hne) as [_ H1].
  apply at_index_finite; [done|]. by rewrite Hlen.
Qed.

Lemma map_flat_map_rows {A B C} (f : B → C) (g : nat → A → B) (xs : list A) (ps : list nat) :
  map f (flat_map (fun p => map (g p) xs) ps)
  = concat (map (fun p => map (fun x => f (g p x)) xs) ps).
Proof.
  induction ps as [|p ps IH]; [done|]. simpl.
  by rewrite List.map_app, IH, List.map_map.
Qed.

(** The dataset and the frequency axes the guess helpers are meant for:
    at least two ranges, at least one bin, finite frequencies. *)
Section dataset.
Variables (a m c n m' : nat) (data f_ghz : np.ndarray np.float).
Hypothesis Hshape : np.shape data = [a; m; c; n].
Hypothesis Hwf : np.wf data.
Hypothesis Hm : (2 ≤ m)%nat.
Hypothesis Hn : (1 ≤ n)%nat.
Hypothesis Hfshape : np.shape f_ghz = [m'; n].
Hypothesis Hfwf : np.wf f_ghz.
Hypothesis Hm' : (2 ≤ m')%nat.
Hypothesis Hfinite : Forall finite (np.flat f_ghz).

Lemma length_data : length (np.flat data) = (a * m * c * n)%nat.
Proof. unfold np.wf in Hwf. rewrite Hshape in Hwf. simpl in Hwf. lia. Qed.

Lemma length_f_ghz : length (np.flat f_ghz) = (m' * n)%nat.
Proof. unfold np.wf in Hfwf. rewrite Hfshape in Hfwf. simpl in Hfwf. lia. Qed.

Lemma length_spectrum_at (p r x : nat) :
  (p < a)%nat → (r < m)%nat → (x < c)%nat → length (spectrum_at data p r x) = n.
Proof.
  intros Hp Hr Hx. unfold spectrum_at. rewrite Hshape. apply length_chunk.
  rewrite length_data.
  assert (S (p * m + r) ≤ a * m)%nat as H1 by nia.
  assert (S (p * m + r) * c ≤ a * m * c)%nat as H2
    by (by apply Nat.mul_le_mono_r).
  assert (S ((p * m + r) * c + x) ≤ a * m * c)%nat by lia.
  by apply Nat.mul_le_mono_r.
Qed.

Lemma axis_at_facts (r : nat) :
  (r < m')%nat →
  np.index0 f_ghz r = Ok (np.mk [n] (axis_at f_ghz r)) ∧
  length (axis_at f_ghz r) = n ∧
  Forall finite (axis_at f_ghz r).
Proof.
  intros Hr. unfold axis_at. rewrite Hfshape.
  split; [by apply (index0_2d m' n)|].
  split.
  - apply length_chunk. rewrite length_f_ghz. by apply Nat.mul_le_mono_r.
  - unfold np.chunk. by apply Forall_take, Forall_drop.
Qed.

Lemma slice_facts (r : nat) :
  (r < m)%nat →
  ∃ d, np.take_axis1 data r = Ok d ∧ np.shape d = [a; c; n] ∧ np.wf d ∧
       np.chunks (a * c) n (np.flat d)
       = flat_map (fun p => map (fun x => spectrum_at data p r x) (seq 0 c)) (seq 0 a).
Proof.
  intros Hr. eexists. split; [by apply (take_axis1_4d a m c n)|].
  split; [done|]. split.
  - unfold np.wf. cbn [np.shape np.flat]. rewrite size_3.
    rewrite (length_concat_blocks (c * n)).
    + rewrite length_map, length_seq. lia.
    + apply take_axis1_4d_wf; [|done]. apply length_data.
  - cbn [np.flat]. by apply take_axis1_4d_rows.
Qed.

(** The per-range guesses, pixel by pixel. *)
Lemma guess_width_single_range (r : nat) (d f : np.ndarray np.float) :
  (r < m)%nat → (r < m')%nat →
  np.take_axis1 data r = Ok d → np.index0 f_ghz r = Ok f →
  guess_width_single d f =
    Ok (np.mk [a; c]
          (concat (map (fun p => map (fun x =>
                     width_of (spectrum_at data p r x) (axis_at f_ghz r)) (seq 0 c))
                   (seq 0 a)))).
Proof.
  intros Hr Hr' Hd Hf.
  destruct (slice_facts r Hr) as (d' & Hd' & Hds & Hdwf & Hrows).
  rewrite Hd in Hd'. injection Hd' as <-.
  destruct (axis_at_facts r Hr') as (Hf' & Hflen & _).
  rewrite Hf in Hf'. injection Hf' as ->.
  rewrite (guess_width_single_rows a c n); try done.
  - rewrite Hrows. cbn [np.flat]. by rewrite map_flat_map_rows.
  - unfold np.wf. cbn [np.shape np.flat]. rewrite Hflen. simpl. lia.
Qed.

Lemma guess_center_single_range (r : nat) (d f : np.ndarray np.float) :
  (r < m)%nat → (r < m')%nat →
  np.take_axis1 data r = Ok d → np.index0 f_ghz r = Ok f →
  guess_center_freq_single d f =
    Ok (np.mk [a; c]
          (concat (map (fun p => map (fun x =>
                     center_of (spectrum_at data p r x) (axis_at f_ghz r)) (seq 0 c))
                   (seq 0 a)))).
Proof.
  intros Hr Hr' Hd Hf.
  destruct (slice_facts r Hr) as (d' & Hd' & Hds & Hdwf & Hrows).
  rewrite Hd in Hd'. injection Hd' as <-.
  destruct (axis_at_facts r Hr') as (Hf' & Hflen & _).
  rewrite Hf in Hf'. injection Hf' as ->.
  rewrite (guess_center_freq_single_rows a c n); try done.
  - rewrite Hrows. cbn [np.flat]. by rewrite map_flat_map_rows.
  - unfold np.wf. cbn [np.shape np.flat]. rewrite Hflen. simpl. lia.
Qed.

Lemma blocks_finite (g : list np.float → list np.float → np.float) (r : nat) :
  (r < m)%nat → (r < m')%nat →
  (∀ row freq, row ≠ [] → length freq = length row → Forall finite freq →
               finite (g row freq)) →
  let B := fun p => map (fun x => g (spectrum_at data p r x) (axis_at f_ghz r)) (seq 0 c) in
  np.wf (np.mk [a; c] (concat (map B (seq 0 a)))) ∧
  Forall finite (concat (map B (seq 0 a))).
Proof.
  intros Hr Hr' Hg B. destruct (axis_at_facts r Hr') as (_ & Hflen & Hffin).
  split.
  - unfold np.wf. cbn [np.shape np.flat]. rewrite size_2.
    rewrite (length_concat_blocks c).
    + by rewrite length_map, length_seq.
    + apply Forall_fmap, Forall_forall. intros p _. unfold compose, B.
      by rewrite length_map, length_seq.
  - apply Forall_concat, Forall_fmap, Forall_forall. intros p Hp.
    apply elem_of_seq in Hp. unfold compose, B.
    apply Forall_fmap, Forall_forall. intros x Hx. apply elem_of_seq in Hx.
    unfold compose.
    pose proof (length_spectrum_at p r x ltac:(lia) Hr ltac:(lia)) as Hlen.
    apply Hg; [|lia|done]. intros E. rewrite E in Hlen. simpl in Hlen. lia.
Qed.

(** [guess_width], pixel by pixel. *)
Lemma guess_width_array :
  ∃ w, guess_width data f_ghz = Ok w ∧ np.shape w = [a; 2; c] ∧
    ∀ p r x, (p < a)%nat → (r < 2)%nat → (x < c)%nat →
      np.item w [p; r; x] =
        Some (np.fdiv (width_of (spectrum_at data p r x) (axis_at f_ghz r))
                      (np.Num 6)).
Proof.
  destruct (slice_facts 0) as (d0 & Hd0 & _); [lia|].
  destruct (slice_facts 1) as (d1 & Hd1 & _); [lia|].
  destruct (axis_at_facts 0) as (Hf0 & _); [lia|].
  destruct (axis_at_facts 1) as (Hf1 & _); [lia|].
  unfold guess_width.
  rewrite Hd0. cbn [mbind result_bind]. rewrite Hf0. cbn [mbind result_bind].
  rewrite (guess_width_single_range 0 d0 _) by (done || lia).
  cbn [mbind result_bind].
  rewrite Hd1. cbn [mbind result_bind]. rewrite Hf1. cbn [mbind result_bind].
  rewrite (guess_width_single_range 1 d1 _) by (done || lia).
  cbn [mbind result_bind].
  set (B0 := fun p => map (fun x => width_of (spectrum_at data p 0 x) (axis_at f_ghz 0))
                          (seq 0 c)).
  set (B1 := fun p => map (fun x => width_of (spectrum_at data p 1 x) (axis_at f_ghz 1))
                          (seq 0 c)).
  assert (H0 : ∀ p, length (B0 p) = c) by (intros; unfold B0; by rewrite length_map, length_seq).
  assert (H1 : ∀ p, length (B1 p) = c) by (intros; unfold B1; by rewrite length_map, length_seq).
  rewrite (stack_axis1 a c B0 B1 H0 H1). cbn [mbind result_bind].
  destruct (take_axis1_interleaved a c B0 B1 H0 H1) as [T0 T1].
  rewrite T0. cbn [mbind result_bind].
  destruct (blocks_finite width_of 0 ltac:(lia) ltac:(lia) width_of_finite) as [W0 F0].
  destruct (blocks_finite width_of 1 ltac:(lia) ltac:(lia) width_of_finite) as [W1 F1].
  rewrite all_equal_refl by done. cbn [assert mbind result_bind].
  rewrite T1. cbn [mbind result_bind].
  rewrite all_equal_refl by done. cbn [assert mbind result_bind].
  eexists. split; [reflexivity|]. split; [reflexivity|].
  intros p r x Hp Hr Hx. rewrite item_map, item_interleaved by done.
  destruct r as [|[|r]]; [| |lia]; cbn [Nat.eqb]; unfold B0, B1;
    rewrite list_lookup_fmap, lookup_seq_lt by done; reflexivity.
Qed.

Lemma stack_axis0_swap {A} (B0 B1 : nat → list A) :
  (∀ p, length (B0 p) = c) → (∀ p, length (B1 p) = c) →
  (s ← np.stack [np.mk [a; c] (concat (map B0 (seq 0 a)));
                 np.mk [a; c] (concat (map B1 (seq 0 a)))] 0;
   np.swapaxes_0_1 s)
  = Ok (np.mk [a; 2; c] (concat (map (fun p => B0 p ++ B1 p)%list (seq 0 a)))).
Proof.
  intros H0 H1.
  assert (A0 : Forall (fun b => length b = c) (map B0 (seq 0 a)))
    by (apply Forall_fmap, Forall_forall; intros; apply H0).
  assert (A1 : Forall (fun b => length b = c) (map B1 (seq 0 a)))
    by (apply Forall_fmap, Forall_forall; intros; apply H1).
  assert (L0 : length (concat (map B0 (seq 0 a))) = (a * c)%nat)
    by (rewrite (length_concat_blocks c), length_map, length_seq; done).
  assert (L1 : length (concat (map B1 (seq 0 a))) = (a * c)%nat)
    by (rewrite (length_concat_blocks c), length_map, length_seq; done).
  unfold np.stack. cbn [forallb np.shape np.flat np.ndim length].
  unfold np.shape_eqb. rewrite !bool_decide_eq_true_2 by done.
  cbn [andb Nat.leb take drop app length mbind result_bind].
  change (np.size []) with 1%nat. rewrite size_2.
  cbn [seq List.map concat]. rewrite !app_nil_r.
  cbn [np.flat]. rewrite !chunk_0, !take_ge by lia.
  unfold np.swapaxes_0_1. cbn [np.shape np.flat].
  change (np.size [c]) with (c * 1)%nat. rewrite Nat.mul_1_r.
  do 3 f_equal. apply map_ext_in. intros p Hp. apply in_seq in Hp.
  cbn [seq List.map concat]. rewrite app_nil_r. f_equal.
  - replace (0 * a + p)%nat with p by lia.
    unfold np.chunk. rewrite drop_app_le, take_app_le.
    + apply (chunk_concat c p _ (B0 p) A0).
      rewrite list_lookup_fmap, lookup_seq_lt by lia. done.
    + rewrite length_drop. nia.
    + nia.
  - replace (1 * a + p)%nat with (a + p)%nat by lia.
    unfold np.chunk. replace ((a + p) * c)%nat with (a * c + p * c)%nat by lia.
    rewrite drop_app_add' by done.
    apply (chunk_concat c p _ (B1 p) A1).
    rewrite list_lookup_fmap, lookup_seq_lt by lia. done.
Qed.

(** [guess_center], pixel by pixel. *)
Lemma guess_center_array :
  ∃ w, guess_center data f_ghz = Ok w ∧ np.shape w = [a; 2; c] ∧
    ∀ p r x, (p < a)%nat → (r < 2)%nat → (x < c)%nat →
      np.item w [p; r; x] =
        Some (center_of (spectrum_at data p r x) (axis_at f_ghz r)).
Proof.
  destruct (slice_facts 0) as (d0 & Hd0 & _); [lia|].
  destruct (slice_facts 1) as (d1 & Hd1 & _); [lia|].
  destruct (axis_at_facts 0) as (Hf0 & _); [lia|].
  destruct (axis_at_facts 1) as (Hf1 & _); [lia|].
  unfold guess_center.
  rewrite Hd0. cbn [mbind result_bind]. rewrite Hf0. cbn [mbind result_bind].
  rewrite (guess_center_single_range 0 d0 _) by (done || lia).
  cbn [mbind result_bind].
  rewrite Hd1. cbn [mbind result_bind]. rewrite Hf1. cbn [mbind result_bind].
  rewrite (guess_center_single_range 1 d1 _) by (done || lia).
  cbn [mbind result_bind].
  set (B0 := fun p => map (fun x => center_of (spectrum_at data p 0 x) (axis_at f_ghz 0))
                          (seq 0 c)).
  set (B1 := fun p => map (fun x => center_of (spectrum_at data p 1 x) (axis_at f_ghz 1))
                          (seq 0 c)).
  assert (H0 : ∀ p, length (B0 p) = c) by (intros; unfold B0; by rewrite length_map, length_seq).
  assert (H1 : ∀ p, length (B1 p) = c) by (intros; unfold B1; by rewrite length_map, length_seq).
  pose proof (stack_axis0_swap B0 B1 H0 H1) as Hss.
  destruct (np.stack _ 0) as [s|e]; [|discriminate Hss].
  cbn [mbind result_bind] in *. rewrite Hss. cbn [mbind result_bind].
  destruct (take_axis1_interleaved a c B0 B1 H0 H1) as [T0 T1].
  rewrite T0. cbn [mbind result_bind].
  destruct (blocks_finite center_of 0 ltac:(lia) ltac:(lia) center_of_finite) as [W0 F0].
  destruct (blocks_finite center_of 1 ltac:(lia) ltac:(lia) center_of_finite) as [W1 F1].
  rewrite all_equal_refl by done. cbn [assert mbind result_bind].
  rewrite T1. cbn [mbind result_bind].
  rewrite all_equal_refl by done. cbn [assert mbind result_bind].
  eexists. split; [reflexivity|]. split; [reflexivity|].
  intros p r x Hp Hr Hx. rewrite item_interleaved by done.
  destruct r as [|[|r]]; [| |lia]; cbn [Nat.eqb]; unfold B0, B1;
    rewrite list_lookup_fmap, lookup_seq_lt by done; reflexivity.
Qed.

End dataset.

(** ** Rational spectra: the curve and the positions [np.argmin] selects *)

Lemma Qltb_lt (x y : Q) : np.Qltb x y = true ↔ (x < y)%Q.
Proof.
  unfold np.Qltb. rewrite negb_true_iff. split.
  - intros H. apply Qnot_le_lt. intros Hle. apply Qle_bool_iff in Hle. congruence.
  - intros H. destruct (Qle_bool y x) eqn:E; [|done].
    apply Qle_bool_iff in E. lra.
Qed.

Lemma Qltb_ge (x y : Q) : np.Qltb x y = false ↔ (y <= x)%Q.
Proof.
  unfold np.Qltb. rewrite negb_false_iff. apply Qle_bool_iff.
Qed.





(** On a curve of NaN [np.argmin] answers 0. *)
Lemma nearest_index_row_nan (level : Q) (c : list np.float) :
  c ≠ [] → Forall (fun x => x = np.NaN) c → nearest_index_row level c = Ok 0%nat.
Proof.
  intros Hne Hall. destruct c as [|x c]; [done|].
  apply Forall_cons in Hall as [-> _]. unfold nearest_index_row. simpl.
  by destruct c.
Qed.


Lemma cumsum_from_Num (acc : Q) (l : list Q) :
  np.cumsum_from (np.Num acc) (map np.Num l) = map np.Num (Qcumsum_from acc l).
Proof.
  revert acc. induction l as [|x l IH]; intros acc; [done|].
  simpl. by rewrite IH.
Qed.

Lemma cumsum_row_spectrum (qs : list Q) :
  np.cumsum_row (map (fun x => np.fsub x (np.Num 1)) (map np.Num qs))
  = map np.Num (cumulative qs).
Proof.
  unfold cumulative. rewrite List.map_map.
  destruct qs as [|x qs]; [done|]. cbn [List.map np.cumsum_row].
  f_equal. rewrite <- cumsum_from_Num, List.map_map. reflexivity.
Qed.

Ltac in_list :=
  repeat first [assumption | apply list_elem_of_here | apply list_elem_of_further].

Lemma fold_fmin2_Num (l : list Q) (x : Q) :
  ∃ mn, fold_left np.fmin2 (map np.Num l) (np.Num x) = np.Num mn ∧
        mn ∈ x :: l ∧ ∀ y, y ∈ x :: l → (mn <= y)%Q.
Proof.
  revert x. induction l as [|z l IH]; intros x.
  - exists x. split; [done|]. split; [in_list|].
    intros y Hy. apply list_elem_of_singleton in Hy as ->. lra.
  - cbn [List.map fold_left]. unfold np.fmin2 at 2. cbn [np.isnan np.fltb].
    destruct (np.Qltb z x) eqn:E.
    + apply Qltb_lt in E. destruct (IH z) as (mn & -> & Hin & Hle).
      exists mn. split; [done|]. split; [in_list|].
      intros y Hy. apply elem_of_cons in Hy as [->|Hy]; [|by apply Hle].
      specialize (Hle z ltac:(in_list)). lra.
    + apply Qltb_ge in E. destruct (IH x) as (mn & -> & Hin & Hle).
      exists mn. split; [done|]. split.
      { apply elem_of_cons in Hin as [->|Hin]; in_list. }
      intros y Hy. apply elem_of_cons in Hy as [->|Hy]; [apply Hle; in_list|].
      apply elem_of_cons in Hy as [->|Hy]; [|apply Hle; in_list].
      specialize (Hle x ltac:(in_list)). lra.
Qed.

Lemma fold_fmax2_Num (l : list Q) (x : Q) :
  ∃ mx, fold_left np.fmax2 (map np.Num l) (np.Num x) = np.Num mx ∧
        mx ∈ x :: l ∧ ∀ y, y ∈ x :: l → (y <= mx)%Q.
Proof.
  revert x. induction l as [|z l IH]; intros x.
  - exists x. split; [done|]. split; [in_list|].
    intros y Hy. apply list_elem_of_singleton in Hy as ->. lra.
  - cbn [List.map fold_left]. unfold np.fmax2 at 2. cbn [np.isnan np.fltb].
    destruct (np.Qltb x z) eqn:E.
    + apply Qltb_lt in E. destruct (IH z) as (mx & -> & Hin & Hle).
      exists mx. split; [done|]. split; [in_list|].
      intros y Hy. apply elem_of_cons in Hy as [->|Hy]; [|by apply Hle].
      specialize (Hle z ltac:(in_list)). lra.
    + apply Qltb_ge in E. destruct (IH x) as (mx & -> & Hin & Hle).
      exists mx. split; [done|]. split.
      { apply elem_of_cons in Hin as [->|Hin]; in_list. }
      intros y Hy. apply elem_of_cons in Hy as [->|Hy]; [apply Hle; in_list|].
      apply elem_of_cons in Hy as [->|Hy]; [|apply Hle; in_list].
      specialize (Hle x ltac:(in_list)). lra.
Qed.

(** The curve of a rational spectrum: the cumulative sum, minus its least
    value [mn], divided by the greatest value [mx] of the difference. *)
Lemma curve_of_rational (qs : list Q) :
  qs ≠ [] →
  ∃ mn mx,
    mn ∈ cumulative qs ∧ (∀ y, y ∈ cumulative qs → (mn <= y)%Q) ∧
    (∃ y, y ∈ cumulative qs ∧ mx = (y - mn)%Q) ∧
    (∀ y, y ∈ cumulative qs → (y - mn <= mx)%Q) ∧
    curve_of (map np.Num qs)
    = map (fun y => np.fdiv (np.Num (y - mn)) (np.Num mx)) (cumulative qs).
Proof.
  intros Hne. unfold curve_of, normalized_cumsum_row.
  rewrite cumsum_row_spectrum.
  destruct (cumulative qs) as [|c0 cs] eqn:Ec.
  { destruct qs; [done|discriminate]. }
  change (np.min_row (map np.Num (c0 :: cs)))
    with (Ok (A:=np.float) (fold_left np.fmin2 (map np.Num cs) (np.Num c0))).
  destruct (fold_fmin2_Num cs c0) as (mn & -> & Hmn & Hle).
  cbn [mbind result_bind].
  assert (Hsub : map (fun x => np.fsub x (np.Num mn)) (map np.Num (c0 :: cs))
                 = map np.Num (map (fun y => (y - mn)%Q) (c0 :: cs)))
    by (rewrite !List.map_map; reflexivity).
  rewrite Hsub.
  change (np.max_row (map np.Num (map (fun y => (y - mn)%Q) (c0 :: cs))))
    with (Ok (A:=np.float)
            (fold_left np.fmax2 (map np.Num (map (fun y => (y - mn)%Q) cs))
                       (np.Num (c0 - mn)))).
  destruct (fold_fmax2_Num (map (fun y => (y - mn)%Q) cs) (c0 - mn))
    as (mx & -> & Hmx & Hge).
  exists mn, mx. split; [done|]. split; [done|]. split; [|split].
  - change ((c0 - mn)%Q :: map (fun y => (y - mn)%Q) cs)
      with (map (fun y => (y - mn)%Q) (c0 :: cs)) in Hmx.
    apply list_elem_of_fmap in Hmx as (y & -> & Hy). by exists y.
  - intros y Hy. apply Hge.
    change ((c0 - mn)%Q :: map (fun y => (y - mn)%Q) cs)
      with (map (fun y => (y - mn)%Q) (c0 :: cs)).
    apply list_elem_of_fmap. by exists y.
  - cbn [mbind result_bind]. by rewrite !List.map_map.
Qed.


Lemma fdiv_Num_zero (x d : Q) :
  (x == 0)%Q → (d == 0)%Q → np.fdiv (np.Num x) (np.Num d) = np.NaN.
Proof.
  intros Hx Hd. simpl.
  apply Qeq_bool_iff in Hx, Hd. by rewrite Hx, Hd.
Qed.


(** A degenerate spectrum: the curve is NaN in every bin. *)
Lemma curve_of_zero_variance (qs : list Q) :
  qs ≠ [] → zero_variance (cumulative qs) →
  curve_of (map np.Num qs) = map (fun _ => np.NaN) qs.
Proof.
  intros Hne Hzv.
  destruct (curve_of_rational qs Hne) as (mn & mx & Hmn & Hle & (y0 & Hy0 & Hmx) & Hge & E).
  rewrite E.
  assert (Heq : ∀ y, y ∈ cumulative qs → (y - mn == 0)%Q).
  { intros y Hy. apply list_elem_of_lookup in Hy as [i Hi], Hmn as [j Hj].
    specialize (Hzv i j y mn Hi Hj). lra. }
  assert (Hlen : length (cumulative qs) = length qs).
  { unfold cumulative. destruct qs as [|x qs]; [done|]. simpl.
    f_equal. clear. generalize (x - 1)%Q. induction qs as [|z qs IH]; intros acc; [done|].
    simpl. by rewrite IH. }
  apply list_eq_same_length with (length qs);
    [by rewrite length_map|by rewrite length_map|].
  intros i u v Hi Hu Hv. rewrite list_lookup_fmap in Hu, Hv.
  destruct (cumulative qs !! i) as [y|] eqn:Ey; [|done].
  destruct (qs !! i); [|done]. simpl in Hu, Hv. injection Hu as <-. injection Hv as <-.
  apply fdiv_Num_zero.
  - apply Heq. by eapply list_elem_of_lookup_2.
  - rewrite Hmx. by apply Heq.
Qed.





Lemma at_index_Num (fq : list Q) (k : nat) (v : Q) :
  fq !! k = Some v → at_index (map np.Num fq) k = np.Num v.
Proof. intros H. unfold at_index. by rewrite list_lookup_fmap, H. Qed.

(** ** The width guess *)





(** ** Degenerate spectra *)

(** C6, as the code has it: for a pixel whose cumulative-sum curve has zero
    variance, neither guess raises; the normalized curve is NaN in every
    bin, [np.argmin] answers position 0 on it, and the seeds computed from
    the curve are finite: the center guess is the first frequency of the
    range and the width guess is that frequency minus itself over 6, that
    is 0. *)
Theorem degenerate_pixel_guess (a m c n m' : nat) (data f_ghz : np.ndarray np.float)
    (p r x : nat) (qs fq : list Q) :
  np.shape data = [a; m; c; n] → np.wf data → (2 ≤ m)%nat → (1 ≤ n)%nat →
  np.shape f_ghz = [m'; n] → np.wf f_ghz → (2 ≤ m')%nat →
  Forall finite (np.flat f_ghz) →
  (p < a)%nat → (r < 2)%nat → (x < c)%nat →
  spectrum_at data p r x = map np.Num qs →
  axis_at f_ghz r = map np.Num fq →
  zero_variance (cumulative qs) →
  ∃ wc ww f0,
    guess_center data f_ghz = Ok wc ∧
    guess_width data f_ghz = Ok ww ∧
    curve_of (spectrum_at data p r x) = map (fun _ => np.NaN) qs ∧
    fq !! 0%nat = Some f0 ∧
    np.item wc [p; r; x] = Some (np.Num f0) ∧
    np.item ww [p; r; x] = Some (np.Num ((f0 - f0) / 6)) ∧
    ((f0 - f0) / 6 == 0)%Q.
Proof.
  intros Hs Hwf Hm Hn Hfs Hfwf Hm' Hfin Hp Hr Hx Hqs Hfq Hzv.
  destruct (guess_width_array a m c n m' data f_ghz) as (ww & Hww & _ & Hwitem);
    try done.
  destruct (guess_center_array a m c n m' data f_ghz) as (wc & Hwc & _ & Hcitem);
    try done.
  specialize (Hwitem p r x Hp Hr Hx). specialize (Hcitem p r x Hp Hr Hx).
  pose proof (length_spectrum_at a m c n m' data Hs Hwf Hm Hn Hm' p r x Hp ltac:(lia) Hx)
    as Hlen.
  rewrite Hqs in Hlen, Hwitem, Hcitem. rewrite length_map in Hlen.
  rewrite Hfq in Hwitem, Hcitem.
  assert (Hne : qs ≠ []) by (intros ->; simpl in Hlen; lia).
  destruct (axis_at_facts m n m' f_ghz Hm Hn Hfs Hfwf Hm' Hfin r ltac:(lia))
    as (_ & Hflen & _).
  rewrite Hfq, length_map in Hflen.
  destruct (lookup_lt_is_Some_2 fq 0) as [f0 F0]; [lia|].
  pose proof (curve_of_zero_variance qs Hne Hzv) as Hcurve.
  assert (Hidx : ∀ level, nearest_of level (map np.Num qs) = 0%nat).
  { intros level. unfold nearest_of. rewrite Hcurve.
    rewrite nearest_index_row_nan; [done| |].
    - destruct qs; done.
    - apply Forall_fmap, Forall_forall. done. }
  exists wc, ww, f0. rewrite Hqs.
  split; [done|]. split; [done|]. split; [done|]. split; [done|].
  split; [|split].
  - rewrite Hcitem. unfold center_of. rewrite Hidx.
    by rewrite (at_index_Num fq 0 f0 F0).
  - rewrite Hwitem. unfold width_of. rewrite !Hidx.
    by rewrite (at_index_Num fq 0 f0 F0).
  - field.
Qed.

Lemma flat_zero_variance : zero_variance (cumulative [1; 1; 1; 1]%Q).
Proof.
  intros i j u v Hu Hv.
  do 5 (try destruct i as [|i]); try discriminate Hu;
  do 5 (try destruct j as [|j]); try discriminate Hv;
  injection Hu as <-; injection Hv as <-; reflexivity.
Qed.

Lemma degenerate_pixel_guess_witness :
  ∃ wc ww,
    guess_center example.flat_data example.frequencies = Ok wc ∧
    guess_width example.flat_data example.frequencies = Ok ww ∧
    curve_of (spectrum_at example.flat_data 1 0 0) = replicate 4 np.NaN ∧
    np.item wc [1; 0; 0]%nat = Some (np.Num (2840 # 1000)) ∧
    np.item ww [1; 0; 0]%nat =
      Some (np.Num (((2840 # 1000) - (2840 # 1000)) / 6)).
Proof.
  destruct (degenerate_pixel_guess 2 2 1 4 2 example.flat_data example.frequencies
              1 0 0 [1; 1; 1; 1]%Q
              [2840 # 1000; 2843 # 1000; 2846 # 1000; 2849 # 1000]%Q)
    as (wc & ww & f0 & Hwc & Hww & Hcurve & F0 & Hc & Hw & _);
    try reflexivity; try lia.
  - repeat constructor.
  - exact flat_zero_variance.
  - injection F0 as <-. exists wc, ww. repeat split; assumption.
Defined.

Lemma item_elem_of {A} (a : np.ndarray A) (ix : list nat) (v : A) :
  np.item a ix = Some v → v ∈ np.flat a.
Proof.
  unfold np.item. destruct (np.offset (np.shape a) ix 0) as [o|]; [|done].
  simpl. apply list_elem_of_lookup_2.
Qed.

Lemma isfinite_finite (x : np.float) : np.isfinite x = true → finite x.
Proof. by destruct x. Qed.

Lemma Ok_inj {A} (a b : A) : Ok a = Ok b → a = b.
Proof. by intros [= ->]. Qed.

(** C6, as worded, fails on the instance built from the flat dataset: every
    spectrum there is degenerate, yet the initial guess returns, and every
    seed is a finite number. *)
Lemma degenerate_not_refused :
  fit.get_initial_parameter example.flat_instance = Ok example.flat_seed ∧
  forallb np.isfinite (np.flat example.flat_seed) = true ∧
  ¬ degenerate_refused_or_flagged example.flat_instance.
Proof.
  assert (Hip : fit.get_initial_parameter example.flat_instance
                = Ok example.flat_seed) by (vm_compute; reflexivity).
  assert (Hfin : forallb np.isfinite (np.flat example.flat_seed) = true)
    by (vm_compute; reflexivity).
  split; [exact Hip|]. split; [exact Hfin|].
  intros Hclaim.
  destruct (Hclaim 0%nat 0%nat 0%nat [1; 1; 1; 1]%Q)
    as [[e He]|(ip & s & v & Hok & Hitem & Hv)].
  - vm_compute. reflexivity.
  - discriminate.
  - exact flat_zero_variance.
  - rewrite Hip in He. discriminate He.
  - rewrite Hip in Hok. apply Ok_inj in Hok. subst ip.
    apply Hv, isfinite_finite. apply item_elem_of in Hitem.
    rewrite forallb_forall in Hfin. apply Hfin.
    exact (proj1 (list_elem_of_In _ _) Hitem).
Qed.

(** ** The layout of the results *)

(** C1 (on the example dataset, whose solver labels every row): after
    [fit_odmr] the parameter array is indexed [polarization, range, pixel,
    slot], while the state codes, the chi-squares and the iteration counts
    are indexed [range, polarization, pixel]: only [_fit_results] has its
    first two axes swapped after the ranges are stacked. *)
Theorem fit_odmr_result_layout :
  fst example.after_fit = Ok tt ∧
  ∀ p r x, (p < 2)%nat → (r < 2)%nat → (x < 3)%nat →
    (a ← fit._fit_results example.fitted_instance; np.item a [p; r; x; 0%nat])
      = Some (center_of (example.spectrum p r x) (axis_at example.frequencies r)) ∧
    (a ← fit._states example.fitted_instance; np.item a [r; p; x])
      = Some (example.row_code (example.spectrum p r x)) ∧
    (a ← fit._chi_squares example.fitted_instance; np.item a [r; p; x])
      = Some (np.Num (inject_Z (example.row_code (example.spectrum p r x)))) ∧
    (a ← fit._number_iterations example.fitted_instance; np.item a [r; p; x])
      = Some (example.row_code (example.spectrum p r x)).
Proof.
  split; [vm_compute; reflexivity|].
  intros p r x Hp Hr Hx.
  destruct p as [|[|p]]; [| |lia]; destruct r as [|[|r]]; [| |lia| | |lia];
    destruct x as [|[|[|x]]]; try lia;
    (split; [|split; [|split]]); vm_compute; reflexivity.
Qed.

Lemma fit_odmr_result_layout_witness :
  (a ← fit._states example.fitted_instance; np.item a [1; 0; 2]%nat)
  = Some (example.row_code (example.spectrum 0 1 2)).
Proof.
  exact (proj1 (proj2 (proj2 fit_odmr_result_layout 0 1 2
                         ltac:(lia) ltac:(lia) ltac:(lia))))%nat.
Defined.

(** The state code stored at [[0, 1, 0]] is that of polarization 1 in
    range 0, not that of polarization 0 in range 1. *)
Lemma fit_odmr_states_misplaced :
  (a ← fit._states example.fitted_instance; np.item a [0; 1; 0]%nat) = Some 100%Z ∧
  example.row_code (example.spectrum 1 0 0) = 100%Z ∧
  example.row_code (example.spectrum 0 1 0) = 10%Z.
Proof. split; [|split]; vm_compute; reflexivity. Qed.

(** ** The constructor and the model name *)

Lemma upper_ascii_idem (c : ascii) :
  pystr.upper_ascii (pystr.upper_ascii c) = pystr.upper_ascii c.
Proof.
  destruct c as [[] [] [] [] [] [] [] []]; reflexivity.
Qed.

Lemma upper_idem (s : string) : pystr.upper (pystr.upper s) = pystr.upper s.
Proof.
  induction s as [|c s IH]; [done|]. simpl. by rewrite upper_ascii_idem, IH.
Qed.

(** The constructor refuses a name that is not a key of the registry in any
    letter case; the message shows the upper-cased name and lists the four
    keys. *)
Lemma init_unknown_model (SETTINGS : fit.settings)
    (data frequencies : np.ndarray np.float) (model : string)
    (constraints : option (list (string * fit.bound))) :
  pystr.mem (pystr.upper model) models.keys = false →
  fit.__init__ SETTINGS data frequencies model constraints =
    Raise (ValueError ("Unknown model: " ++ pystr.upper model ++
                       " choose from ['GAUSS1D', 'ESR14N', 'ESR15N', 'ESRSINGLE']")).
Proof.
  intros H. unfold fit.__init__.
  unfold mbind at 1, fit.M_bind at 1.
  rewrite model_setter_unknown; [done|]. by rewrite upper_idem.
Qed.

(** The constructor upper-cases the name before it sets the model: a
    lower-case name of the registry is accepted. *)
Lemma init_lower_case_accepted :
  example.constructed = Ok example.instance ∧
  fit._model example.instance = "ESR14N" ∧
  models.getitem "ESR14N" = Ok (fit._model_dict example.instance).
Proof. split; [|split]; vm_compute; reflexivity. Qed.

(** ** Fitted and unfitted instances *)

(** A call of [fit_odmr] that returns leaves the instance fitted. *)
Lemma fit_odmr_sets_fitted (SETTINGS : fit.settings)
    (fit_constrained : fit.fit_args → result fit.fit_out) (st st' : fit.Fit) :
  fit.fit_odmr SETTINGS fit_constrained st = (Ok tt, st') → fit._fitted st' = true.
Proof.
  unfold fit.fit_odmr, mbind, fit.M_bind, fit.get.
  destruct (fit._fitted st) eqn:E.
  - intros [= <-]. exact E.
  - destruct (fit.lift _ st) as [[n|e] s0]; [|discriminate].
    destruct (fit.forM_ _ _ s0) as [[[]|e] s1]; [|discriminate].
    destruct (fit.read _ s1) as [[r|e] s2]; [|discriminate].
    intros [= <-]. reflexivity.
Qed.

(** So a second call right after a call that returned changes nothing. *)
Lemma fit_odmr_twice (SETTINGS : fit.settings)
    (fit_constrained : fit.fit_args → result fit.fit_out) (st st' : fit.Fit) :
  fit.fit_odmr SETTINGS fit_constrained st = (Ok tt, st') →
  fit.fit_odmr SETTINGS fit_constrained st' = (Ok tt, st').
Proof.
  intros H. apply fit_odmr_sets_fitted in H.
  unfold fit.fit_odmr, mbind, fit.M_bind, fit.get. by rewrite H.
Qed.

Lemma forM_keeps_unfitted {A} (xs : list A) (f : A → fit.M unit) :
  (∀ x st, fit._fitted st = false → fit._fitted (snd (f x st)) = false) →
  ∀ st, fit._fitted st = false → fit._fitted (snd (fit.forM_ xs f st)) = false.
Proof.
  intros Hf. induction xs as [|x xs IH]; intros st Hst; [done|].
  cbn [fit.forM_]. unfold mbind, fit.M_bind.
  specialize (Hf x st Hst). destruct (f x st) as [[[]|e] s1]; simpl in *; [|done].
  by apply IH.
Qed.

Lemma set_constraints_rec_keeps_unfitted (d : nat) (param : string)
    (vmin vmax : fit.bound) (ct : fit.ctype_arg) (st : fit.Fit) :
  fit._fitted st = false →
  fit._fitted (snd (fit.set_constraints_rec d param vmin vmax ct st)) = false.
Proof.
  revert param ct st. induction d as [|d IH]; intros param ct st Hst; [done|].
  rewrite set_constraints_rec_S. unfold mbind, fit.M_bind, fit.lift, fit.get.
  destruct (fit.checked_constraint_type ct) as [stored|e]; [|done].
  destruct (_ && _).
  - apply forM_keeps_unfitted; [|done]. intros x s Hs. by apply IH.
  - destruct (fit.dict_getitem _ _); done.
Qed.

Lemma reset_fit_returns (st : fit.Fit) :
  fit._reset_fit st = (Ok tt, snd (fit._reset_fit st)).
Proof. reflexivity. Qed.

(** A constructed instance is not fitted. *)
Lemma init_not_fitted (SETTINGS : fit.settings)
    (data frequencies : np.ndarray np.float) (model : string)
    (constraints : option (list (string * fit.bound))) (st : fit.Fit) :
  fit.__init__ SETTINGS data frequencies model constraints = Ok st →
  fit._fitted st = false.
Proof.
  unfold fit.__init__, fit._set_initial_constraints, fit.set_constraints.
  unfold mbind, fit.M_bind.
  destruct (fit.model_setter _ _) as [[[]|e] s0]; [|discriminate].
  unfold fit.modify at 1. rewrite reset_fit_returns.
  unfold fit.modify, fit.lift.
  destruct (fit.dict_getitem fit.ESTIMATOR_ID _) as [eid|e]; [|discriminate].
  match goal with
  | |- context [fit.set_constraints_rec _ "center" ?a ?b ?c ?s] =>
      pose proof (set_constraints_rec_keeps_unfitted fit.recursion_limit
                    "center" a b c s eq_refl) as H1;
      destruct (fit.set_constraints_rec _ "center" a b c s) as [[[]|e1] s1];
      [|discriminate]
  end.
  match goal with
  | |- context [fit.set_constraints_rec _ "width" ?a ?b ?c s1] =>
      pose proof (set_constraints_rec_keeps_unfitted fit.recursion_limit
                    "width" a b c s1 H1) as H2;
      destruct (fit.set_constraints_rec _ "width" a b c s1) as [[[]|e2] s2];
      [|discriminate]
  end.
  match goal with
  | |- context [fit.set_constraints_rec _ "contrast" ?a ?b ?c s2] =>
      pose proof (set_constraints_rec_keeps_unfitted fit.recursion_limit
                    "contrast" a b c s2 H2) as H3;
      destruct (fit.set_constraints_rec _ "contrast" a b c s2) as [[[]|e3] s3];
      [|discriminate]
  end.
  match goal with
  | |- context [fit.set_constraints_rec _ "offset" ?a ?b ?c s3] =>
      pose proof (set_constraints_rec_keeps_unfitted fit.recursion_limit
                    "offset" a b c s3 H3) as H4;
      destruct (fit.set_constraints_rec _ "offset" a b c s3) as [[[]|e4] s4];
      [|discriminate]
  end.
  simpl in H4. destruct constraints as [cs|].
  - pose proof (forM_keeps_unfitted cs
      (fun kv => fit.set_constraints_rec fit.recursion_limit (fst kv) (snd kv) None fit.CNone)
      (fun kv s Hs => set_constraints_rec_keeps_unfitted _ _ _ _ _ s Hs) s4 H4) as H5.
    destruct (fit.forM_ cs _ s4) as [[[]|e5] s5]; [|discriminate].
    intros [= <-]. exact H5.
  - intros [= <-]. exact H4.
Qed.

(** * Further properties of the class *)

(** ** Storing constraints *)

Lemma reset_with_constraints (cs : gmap string fit.constraint) (st : fit.Fit) :
  snd (fit._reset_fit (fit.with_constraints cs st)) = constrained cs st.
Proof. reflexivity. Qed.

Lemma set_constraints_unfold (param : string) (vmin vmax : fit.bound)
    (ct : fit.ctype_arg) :
  fit.set_constraints param vmin vmax ct
  = fit.set_constraints_rec (S 999) param vmin vmax ct.
Proof. reflexivity. Qed.

(** A member of a Python list literal, read by position, is in the list. *)
Lemma list_getitem_mem (xs : list string) (i : Z) (s : string) :
  fit.list_getitem xs i = Ok s → pystr.mem s xs = true.
Proof.
  unfold fit.list_getitem. destruct (_ <? 0)%Z; [discriminate|].
  destruct (xs !! _) as [v|] eqn:E; [|discriminate]. intros [= <-].
  apply list_elem_of_lookup_2 in E. unfold pystr.mem.
  apply existsb_exists. exists v. split; [by apply list_elem_of_In|].
  apply String.eqb_refl.
Qed.

Lemma list_getitem_error {V} (xs : list V) (i : Z) (e : exn) :
  fit.list_getitem xs i = Raise e → e = IndexError "list index out of range".
Proof.
  unfold fit.list_getitem. destruct (_ <? 0)%Z; [by intros [= <-]|].
  destruct (xs !! _); [discriminate|]. by intros [= <-].
Qed.

(** How the head of [set_constraints] fails. *)
Lemma checked_constraint_type_error (ct : fit.ctype_arg) (e : exn) :
  fit.checked_constraint_type ct = Raise e →
  (∃ s, ct = fit.CStr s ∧ pystr.mem s fit.CONSTRAINT_TYPES = false ∧
        e = ValueError ("Unknown constraint type: " ++ s ++
                        " choose from ['FREE', 'LOWER', 'UPPER', 'LOWER_UPPER']")) ∨
  (∃ i, ct = fit.CInt i ∧ ¬ (-4 ≤ i < 4)%Z ∧ e = IndexError "list index out of range").
Proof.
  unfold fit.checked_constraint_type. destruct ct as [|s|i];
    cbn [mbind result_bind fmap result_fmap].
  - discriminate.
  - destruct (pystr.mem s fit.CONSTRAINT_TYPES) eqn:E; [discriminate|].
    intros [= <-]. left. by exists s.
  - destruct (fit.list_getitem fit.CONSTRAINT_TYPES i) as [s|e'] eqn:E;
      cbn [mbind result_bind fmap result_fmap].
    + by rewrite (list_getitem_mem _ _ _ E).
    + intros [= <-]. right. exists i. split; [done|].
      split; [|by eapply list_getitem_error].
      intros Hi. unfold fit.list_getitem in E. simpl length in E.
      destruct (i <? 0)%Z eqn:Hneg.
      * apply Z.ltb_lt in Hneg.
        assert (i = -4 ∨ i = -3 ∨ i = -2 ∨ i = -1)%Z as [->|[->|[->| ->]]] by lia;
          discriminate E.
      * apply Z.ltb_ge in Hneg.
        assert (i = 0 ∨ i = 1 ∨ i = 2 ∨ i = 3)%Z as [->|[->|[->| ->]]] by lia;
          discriminate E.
Qed.

Lemma dict_getitem_error {V} (d : list (string * V)) (k : string) (e : exn) :
  fit.dict_getitem d k = Raise e → e = KeyError k.
Proof.
  induction d as [|[k' v] d IH]; simpl; [by intros [= <-]|].
  destruct (String.eqb k' k); [discriminate|]. exact IH.
Qed.

(** A run of calls, each for one slot of a model whose entry is [e]. *)
Lemma forM_slots (d : nat) (vmin vmax : fit.bound) (stored : option string)
    (e : models.entry) (slots : list string) (st : fit.Fit) :
  fit.checked_constraint_type (fit.ctype_of stored) = Ok stored →
  Forall (single_slot e) slots →
  fit._model_dict st = e →
  fit.forM_ slots
    (fun s => fit.set_constraints_rec (S d) s vmin vmax (fit.ctype_of stored)) st
  = (Ok tt,
     fold_left (fun st s =>
                  constrained (<[s := {| fit.c_min := vmin; fit.c_max := vmax;
                                         fit.c_type := stored; fit.c_unit := unit_of s |}]>
                                 (fit._constraints st)) st)
               slots st).
Proof.
  intros Hct Hall. revert st.
  induction Hall as [|s slots [Hs Hu] _ IH]; intros st He; [reflexivity|].
  cbn [fit.forM_ fold_left]. unfold mbind at 1, fit.M_bind at 1.
  destruct (fit.dict_getitem fit.UNITS (kind_of s)) as [u|] eqn:Eu; [|discriminate Hu].
  rewrite (set_constraints_rec_slot d s u vmin vmax _ stored st Hct).
  - rewrite reset_with_constraints. unfold unit_of at 2. rewrite Eu. by apply IH.
  - unfold fit.fitting_parameter_unique, fit.fitting_parameter. by rewrite He.
  - exact Eu.
Qed.

Lemma fold_constrained_constraints (C : string → fit.constraint)
    (slots : list string) (st : fit.Fit) :
  fit._constraints
    (fold_left (fun st s => constrained (<[s := C s]> (fit._constraints st)) st) slots st)
  = fold_left (fun m s => <[s := C s]> m) slots (fit._constraints st).
Proof.
  revert st. induction slots as [|s slots IH]; intros st; [done|].
  cbn [fold_left]. by rewrite IH.
Qed.

Lemma fold_insert_lookup (C : string → fit.constraint) (slots : list string)
    (m : gmap string fit.constraint) (k : string) :
  fold_left (fun m s => <[s := C s]> m) slots m !! k
  = if bool_decide (k ∈ slots) then Some (C k) else m !! k.
Proof.
  revert m. induction slots as [|s slots IH]; intros m; [done|].
  cbn [fold_left]. rewrite IH.
  destruct (decide (k ∈ slots)) as [Hin|Hin].
  - rewrite !bool_decide_eq_true_2; [done|by apply elem_of_cons; right|done].
  - rewrite (bool_decide_eq_false_2 (k ∈ slots)) by done.
    destruct (decide (k = s)) as [->|Hne].
    + rewrite bool_decide_eq_true_2 by (by apply elem_of_cons; left).
      apply lookup_insert_eq.
    + rewrite bool_decide_eq_false_2
        by (intros [?|?]%elem_of_cons; [by apply Hne|by apply Hin]).
      by apply lookup_insert_ne.
Qed.

Lemma fold_constrained_frame (C : string → fit.constraint)
    (slots : list string) (st : fit.Fit) :
  let st' := fold_left (fun st s => constrained (<[s := C s]> (fit._constraints st)) st)
                       slots st in
  fit._data st' = fit._data st ∧ fit.f_ghz st' = fit.f_ghz st ∧
  fit._model st' = fit._model st ∧ fit._model_dict st' = fit._model_dict st ∧
  fit._initial_parameter st' = fit._initial_parameter st ∧
  fit.gf_calls st' = fit.gf_calls st ∧
  (slots ≠ [] → st' = constrained (fit._constraints st') st).
Proof.
  revert st. induction slots as [|s slots IH]; intros st; [done|].
  cbn [fold_left]. cbv zeta.
  destruct (IH (constrained (<[s := C s]> (fit._constraints st)) st))
    as (H1 & H2 & H3 & H4 & H5 & H6 & H7).
  repeat split; try (etrans; [eassumption|reflexivity]).
  intros _. destruct slots as [|s' slots]; [reflexivity|].
  rewrite H7 at 1 by done. reflexivity.
Qed.

(** The four entries of the registry. *)
Lemma registered_cases (st : fit.Fit) :
  registered st →
  models.getitem "GAUSS1D" = Ok (fit._model_dict st) ∨
  models.getitem "ESR14N" = Ok (fit._model_dict st) ∨
  models.getitem "ESR15N" = Ok (fit._model_dict st) ∨
  models.getitem "ESRSINGLE" = Ok (fit._model_dict st).
Proof.
  intros [k H]. cbv [models.lookup_in models.IMPLEMENTED] in H.
  repeat match type of H with
         | (if String.eqb ?a k then _ else _) = _ => destruct (String.eqb a k)
         end; try discriminate H.
  all: injection H as <-; auto.
Qed.

Ltac registered_cases H :=
  apply registered_cases in H;
  destruct H as [H|[H|[H|H]]]; injection H as H.

Lemma kind_ok_cases (s : string) :
  is_Ok (fit.dict_getitem fit.UNITS (kind_of s)) = true →
  kind_of s = "center" ∨ kind_of s = "width" ∨ kind_of s = "contrast" ∨ kind_of s = "offset".
Proof.
  unfold fit.dict_getitem, fit.UNITS.
  repeat match goal with
         | |- context [String.eqb ?a (kind_of s)] =>
             destruct (String.eqb_spec a (kind_of s)) as [<-|?]; auto
         end.
  discriminate.
Qed.

(** On an instance of a registered model, an accepted call writes its slots
    and resets the results. *)
Lemma set_constraints_ok (st : fit.Fit) (param : string) (vmin vmax : fit.bound)
    (ct : fit.ctype_arg) (stored : option string) :
  registered st →
  fit.checked_constraint_type ct = Ok stored →
  is_Ok (fit.dict_getitem fit.UNITS (kind_of param)) = true →
  written_slots st param ≠ [] ∧
  fit.set_constraints param vmin vmax ct st
  = (Ok tt,
     fold_left (fun st s =>
                  constrained (<[s := {| fit.c_min := vmin; fit.c_max := vmax;
                                         fit.c_type := stored; fit.c_unit := unit_of s |}]>
                                 (fit._constraints st)) st)
               (written_slots st param) st).
Proof.
  intros Hreg Hct Hkind.
  pose proof (checked_constraint_type_stored _ _ Hct) as Hct'.
  rewrite set_constraints_unfold, set_constraints_rec_S.
  unfold mbind at 1, fit.M_bind at 1, fit.lift at 1. rewrite Hct.
  unfold mbind at 1, fit.M_bind at 1, fit.get at 1.
  unfold written_slots.
  destruct (String.eqb_spec param "contrast") as [->|Hne]; cbn [andb].
  - registered_cases Hreg;
      unfold fit.fitting_parameter_unique, fit.fitting_parameter; rewrite <- Hreg;
      match goal with
      | |- context [bool_decide ?P] =>
          let b := eval vm_compute in (bool_decide P) in
          change (bool_decide P) with b
      end; cbn [negb];
      try match goal with
      | |- context [filter ?f ?l] =>
          let r := eval vm_compute in (filter f l) in
          change (filter f l) with r
      end.
    all: split; [discriminate|].
    2, 3: change 999%nat with (S 998);
          apply (forM_slots 998 vmin vmax stored (fit._model_dict st) _ st Hct');
          [|reflexivity]; rewrite <- Hreg; repeat constructor.
    all: unfold mbind, fit.M_bind, fit.lift, fit.modify; reflexivity.
  - split; [discriminate|].
    destruct (fit.dict_getitem fit.UNITS (kind_of param)) as [u|] eqn:Eu;
      [|discriminate Hkind].
    unfold mbind, fit.M_bind, fit.lift, fit.modify. unfold kind_of in Eu. rewrite Eu.
    cbn [fold_left]. unfold unit_of, kind_of. rewrite Eu. reflexivity.
Qed.

(** [set_constraints] on an instance of a registered model, for a slot or a
    family of a known kind and an accepted type: the call returns; every
    slot it is for ([param], or every contrast slot when [param] is
    "contrast" and the model has several) holds [(vmin, vmax, type)] with
    the unit of its kind; every other key of the dictionary is as before;
    the results are dropped, also when nothing changed; the data, the model
    and the cached initial guess stay. *)
Theorem set_constraints_writes (st : fit.Fit) (param : string) (vmin vmax : fit.bound)
    (ct : fit.ctype_arg) (stored : option string) :
  registered st →
  fit.checked_constraint_type ct = Ok stored →
  is_Ok (fit.dict_getitem fit.UNITS (kind_of param)) = true →
  ∃ st',
    fit.set_constraints param vmin vmax ct st = (Ok tt, st') ∧
    (param ≠ "contrast" → written_slots st param = [param]) ∧
    (∀ k, k ∈ written_slots st param →
       fit._constraints st' !! k =
         Some {| fit.c_min := vmin; fit.c_max := vmax;
                 fit.c_type := stored; fit.c_unit := unit_of k |}) ∧
    (∀ k, k ∉ written_slots st param →
       fit._constraints st' !! k = fit._constraints st !! k) ∧
    st' = constrained (fit._constraints st') st ∧
    fit._fitted st' = false ∧ fit._fit_results st' = None ∧
    fit._chi_squares st' = None ∧
    fit._initial_parameter st' = fit._initial_parameter st ∧
    fit._data st' = fit._data st ∧ fit._model_dict st' = fit._model_dict st.
Proof.
  intros Hreg Hct Hkind.
  destruct (set_constraints_ok st param vmin vmax ct stored Hreg Hct Hkind)
    as [Hne Hrun].
  set (C := fun s => {| fit.c_min := vmin; fit.c_max := vmax;
                        fit.c_type := stored; fit.c_unit := unit_of s |}) in *.
  destruct (fold_constrained_frame C (written_slots st param) st)
    as (H1 & H2 & H3 & H4 & H5 & H6 & H7).
  specialize (H7 Hne).
  pose proof (fold_constrained_constraints C (written_slots st param) st) as Hcs.
  set (st' := fold_left (fun st s => constrained (<[s := C s]> (fit._constraints st)) st)
                        (written_slots st param) st) in *.
  exists st'. split; [exact Hrun|].
  split.
  { intros Hp. unfold written_slots.
    destruct (String.eqb_spec param "contrast"); [done|reflexivity]. }
  split.
  { intros k Hk. rewrite Hcs, fold_insert_lookup.
    by rewrite bool_decide_eq_true_2. }
  split.
  { intros k Hk. rewrite Hcs, fold_insert_lookup.
    by rewrite bool_decide_eq_false_2. }
  split; [exact H7|].
  rewrite H7. repeat split; assumption.
Qed.

Lemma set_constraints_writes_witness :
  ∃ st',
    fit.set_constraints "contrast" (Some (1 # 100)) (Some (1 # 2)) (fit.CInt 1)
      example.gauss_instance = (Ok tt, st') ∧
    fit._constraints st' !! "contrast" =
      Some {| fit.c_min := Some (1 # 100); fit.c_max := Some (1 # 2);
              fit.c_type := Some "LOWER"; fit.c_unit := "a.u." |}.
Proof.
  destruct (set_constraints_writes example.gauss_instance "contrast"
              (Some (1 # 100)) (Some (1 # 2)) (fit.CInt 1) (Some "LOWER"))
    as (st' & Hrun & _ & Hnew & _).
  - exists "GAUSS1D". vm_compute. reflexivity.
  - reflexivity.
  - reflexivity.
  - exists st'. split; [exact Hrun|].
    rewrite (Hnew "contrast"); [reflexivity|].
    apply (bool_decide_unpack _). vm_compute. exact I.
Defined.

(** [set_constraints] is all or nothing on an instance of a registered
    model: when it raises, no attribute has changed, and the exception is
    the [ValueError] for a type name outside [CONSTRAINT_TYPES], the
    [IndexError] for a type index outside [-4 .. 3], or the [KeyError] for
    a name whose kind has no unit. *)
Theorem set_constraints_atomic (st st' : fit.Fit) (param : string)
    (vmin vmax : fit.bound) (ct : fit.ctype_arg) (e : exn) :
  registered st →
  fit.set_constraints param vmin vmax ct st = (Raise e, st') →
  st' = st ∧
  ((∃ s, ct = fit.CStr s ∧ pystr.mem s fit.CONSTRAINT_TYPES = false ∧
         e = ValueError ("Unknown constraint type: " ++ s ++
                         " choose from ['FREE', 'LOWER', 'UPPER', 'LOWER_UPPER']")) ∨
   (∃ i, ct = fit.CInt i ∧ ¬ (-4 ≤ i < 4)%Z ∧
         e = IndexError "list index out of range") ∨
   (e = KeyError (kind_of param) ∧
    fit.dict_getitem fit.UNITS (kind_of param) = Raise e)).
Proof.
  intros Hreg Hrun.
  destruct (fit.checked_constraint_type ct) as [stored|e0] eqn:Hct.
  - destruct (fit.dict_getitem fit.UNITS (kind_of param)) as [u|e1] eqn:Eu.
    + destruct (set_constraints_ok st param vmin vmax ct stored Hreg Hct) as [_ Hok].
      { by rewrite Eu. }
      rewrite Hok in Hrun. discriminate Hrun.
    + assert (Hne : String.eqb param "contrast" = false).
      { apply String.eqb_neq. intros ->. discriminate Eu. }
      rewrite set_constraints_unfold, set_constraints_rec_S in Hrun.
      unfold mbind, fit.M_bind, fit.lift, fit.get in Hrun.
      rewrite Hct, Hne in Hrun. cbn [andb] in Hrun.
      unfold kind_of in Eu. rewrite Eu in Hrun. injection Hrun as <- <-.
      split; [done|]. right. right. split; [|done].
      by apply dict_getitem_error in Eu.
  - rewrite set_constraints_unfold, set_constraints_rec_S in Hrun.
    unfold mbind, fit.M_bind, fit.lift in Hrun. rewrite Hct in Hrun.
    injection Hrun as <- <-. split; [done|].
    destruct (checked_constraint_type_error ct e0 Hct) as [H|H]; auto.
Qed.

Lemma set_constraints_atomic_witness :
  fit.set_constraints "resonance" None None (fit.CStr "FREE") example.fitted_instance
  = (Raise (KeyError "resonance"), example.fitted_instance).
Proof.
  destruct (fit.set_constraints "resonance" None None (fit.CStr "FREE")
              example.fitted_instance) as [[[]|e] st'] eqn:Hrun.
  - exfalso. revert Hrun. vm_compute. discriminate.
  - destruct (set_constraints_atomic example.fitted_instance st' "resonance"
                None None (fit.CStr "FREE") e) as [-> Hcases].
    + exists "ESR14N". vm_compute. reflexivity.
    + exact Hrun.
    + destruct Hcases as [(s & Hs & Hmem & _)|[(i & Hi & _)|[-> _]]].
      * injection Hs as <-. discriminate Hmem.
      * discriminate Hi.
      * reflexivity.
Defined.

(** An integer [constraint_type] is a position in [CONSTRAINT_TYPES], read
    the way Python indexes a list: [0 .. 3] from the front and [-4 .. -1]
    from the back.  The call is the call with the name at that position. *)
Theorem set_constraints_index_type (st : fit.Fit) (param : string)
    (vmin vmax : fit.bound) (i : Z) :
  (-4 ≤ i < 4)%Z →
  ∃ name,
    fit.CONSTRAINT_TYPES !! Z.to_nat (i mod 4) = Some name ∧
    fit.set_constraints param vmin vmax (fit.CInt i) st
    = fit.set_constraints param vmin vmax (fit.CStr name) st.
Proof.
  intros Hi.
  assert (∃ name, fit.CONSTRAINT_TYPES !! Z.to_nat (i mod 4) = Some name ∧
                  fit.checked_constraint_type (fit.CInt i) = Ok (Some name) ∧
                  fit.checked_constraint_type (fit.CStr name) = Ok (Some name))
    as (name & Hname & H1 & H2).
  { assert (i = -4 ∨ i = -3 ∨ i = -2 ∨ i = -1 ∨ i = 0 ∨ i = 1 ∨ i = 2 ∨ i = 3)%Z
      as [->|[->|[->|[->|[->|[->|[->| ->]]]]]]] by lia;
      eexists; (split; [reflexivity|split; reflexivity]). }
  exists name. split; [exact Hname|].
  rewrite (set_constraints_unfold _ _ _ (fit.CInt i)),
          (set_constraints_unfold _ _ _ (fit.CStr name)).
  rewrite (set_constraints_rec_S _ _ _ _ (fit.CInt i)),
          (set_constraints_rec_S _ _ _ _ (fit.CStr name)).
  unfold mbind, fit.M_bind, fit.lift. rewrite H1, H2. reflexivity.
Qed.

Lemma set_constraints_index_type_witness :
  fit.set_constraints "width" None (Some 1%Q) (fit.CInt (-2)) example.instance
  = fit.set_constraints "width" None (Some 1%Q) (fit.CStr "UPPER") example.instance.
Proof.
  destruct (set_constraints_index_type example.instance "width" None (Some 1%Q) (-2))
    as (name & Hname & Hrun); [lia|].
  injection Hname as <-. exact Hrun.
Defined.

(** ** Reading the constraints back *)

Lemma index_of_lookup (t : string) (xs : list string) (i : nat) :
  pystr.index_of t xs = Some i → xs !! i = Some t.
Proof.
  revert i. induction xs as [|y xs IH]; intros i; [done|]. simpl.
  destruct (String.eqb_spec y t) as [->|Hne].
  - by intros [= <-].
  - destruct (pystr.index_of t xs) as [j|]; [|done]. simpl.
    intros [= <-]. by apply IH.
Qed.

Lemma index_of_mem (t : string) (xs : list string) :
  pystr.mem t xs = true → is_Some (pystr.index_of t xs).
Proof.
  unfold pystr.mem. induction xs as [|y xs IH]; [done|]. simpl.
  rewrite (String.eqb_sym t y). destruct (String.eqb y t); [by eexists|].
  simpl. intros H. destruct (IH H) as [j ->]. by eexists.
Qed.

Lemma list_getitem_lookup {V} (xs : list V) (i : nat) (v : V) :
  xs !! i = Some v → fit.list_getitem xs (Z.of_nat i) = Ok v.
Proof.
  intros H. unfold fit.list_getitem.
  destruct (Z.of_nat i <? 0)%Z eqn:E; [apply Z.ltb_lt in E; lia|].
  rewrite E, Nat2Z.id, H. reflexivity.
Qed.

(** The code [get_constraint_types] gives a slot. *)
Lemma type_code_typed (st : fit.Fit) (k : string) :
  typed_slot st k →
  ∃ c t i, fit._constraints st !! k = Some c ∧ fit.c_type c = Some t ∧
           pystr.index_of t fit.CONSTRAINT_TYPES = Some i ∧
           (c ← fit.constraint_of st k;
            match fit.c_type c with
            | Some t =>
                match pystr.index_of t fit.CONSTRAINT_TYPES with
                | Some i => Ok (Z.of_nat i)
                | None => Raise (ValueError (t ++ " is not in list"))
                end
            | None => Raise (ValueError "None is not in list")
            end) = Ok (Z.of_nat i).
Proof.
  intros (c & t & Hc & Ht & Hmem). destruct (index_of_mem _ _ Hmem) as [i Hi].
  exists c, t, i. repeat split; try done.
  unfold fit.constraint_of. rewrite Hc. cbn [mbind result_bind]. by rewrite Ht, Hi.
Qed.

Lemma mapM_result_lookup {A B} (f : A → result B) (l : list A) (ys : list B) :
  mapM_result f l = Ok ys →
  length ys = length l ∧ ∀ i x, l !! i = Some x → ∃ y, ys !! i = Some y ∧ f x = Ok y.
Proof.
  revert ys. induction l as [|x l IH]; intros ys; simpl.
  - intros [= <-]. split; [done|]. intros i x Hx. done.
  - destruct (f x) as [y|] eqn:Ey; [|discriminate]. simpl.
    destruct (mapM_result f l) as [ys'|]; [|discriminate]. simpl.
    intros [= <-]. destruct (IH ys' eq_refl) as [Hlen Hall].
    split; [simpl; by rewrite Hlen|].
    intros [|i] x' Hx'; simpl in *.
    + injection Hx' as <-. by exists y.
    + by apply Hall.
Qed.

Lemma mapM_result_is_Ok {A B} (f : A → result B) (l : list A) :
  (∀ x, x ∈ l → is_Ok (f x) = true) → ∃ ys, mapM_result f l = Ok ys.
Proof.
  induction l as [|x l IH]; intros H; [by eexists|]. simpl.
  specialize (H x (list_elem_of_here _ _)) as Hx.
  destruct (f x) as [y|]; [|discriminate]. simpl.
  destruct IH as [ys ->]; [|by eexists].
  intros x' Hx'. apply H. by apply list_elem_of_further.
Qed.

(** The first element on which [f] raises decides the outcome. *)
Lemma mapM_result_first_error {A B} (f : A → result B) (l : list A) (i : nat)
    (x : A) (e : exn) :
  l !! i = Some x → f x = Raise e →
  (∀ j y, (j < i)%nat → l !! j = Some y → is_Ok (f y) = true) →
  mapM_result f l = Raise e.
Proof.
  revert i. induction l as [|x0 l IH]; intros i Hi He Hbefore; [done|].
  destruct i as [|i]; simpl in *.
  - injection Hi as ->. by rewrite He.
  - specialize (Hbefore 0%nat x0 ltac:(lia) eq_refl) as H0.
    destruct (f x0) as [y0|]; [|discriminate]. simpl.
    rewrite (IH i Hi He); [done|].
    intros j y Hj Hy. apply (Hbefore (S j)); [lia|done].
Qed.

Lemma foldM_first_error {A B} (f : A → B → result A) (l : list B) (i : nat)
    (x : B) (e : exn) :
  l !! i = Some x → (∀ acc, f acc x = Raise e) →
  (∀ j y acc, (j < i)%nat → l !! j = Some y → is_Ok (f acc y) = true) →
  ∀ acc, foldM f acc l = Raise e.
Proof.
  revert i. induction l as [|x0 l IH]; intros i Hi He Hbefore acc; [done|].
  destruct i as [|i]; simpl in *.
  - injection Hi as ->. by rewrite He.
  - specialize (Hbefore 0%nat x0 acc ltac:(lia) eq_refl) as H0.
    destruct (f acc x0) as [acc'|]; [|discriminate]. simpl.
    apply (IH i Hi He). intros j y acc0 Hj Hy. apply (Hbefore (S j)); [lia|done].
Qed.

Lemma get_constraint_types_ok (st : fit.Fit) :
  (∀ k, k ∈ fit.fitting_parameter_unique st → typed_slot st k) →
  ∃ ys,
    fit.get_constraint_types st = Ok (np.mk [length ys] ys) ∧
    length ys = length (fit.fitting_parameter_unique st) ∧
    ∀ i k, fit.fitting_parameter_unique st !! i = Some k →
      ∃ c t j, fit._constraints st !! k = Some c ∧ fit.c_type c = Some t ∧
               pystr.index_of t fit.CONSTRAINT_TYPES = Some j ∧
               ys !! i = Some (Z.of_nat j).
Proof.
  intros Hall. unfold fit.get_constraint_types.
  destruct (mapM_result_is_Ok
              (fun k => c ← fit.constraint_of st k;
                        match fit.c_type c with
                        | Some t =>
                            match pystr.index_of t fit.CONSTRAINT_TYPES with
                            | Some i => Ok (Z.of_nat i)
                            | None => Raise (ValueError (t ++ " is not in list"))
                            end
                        | None => Raise (ValueError "None is not in list")
                        end)
              (fit.fitting_parameter_unique st)) as [ys Hys].
  { intros k Hk. destruct (type_code_typed st k (Hall k Hk)) as (c & t & i & _ & _ & _ & ->).
    reflexivity. }
  rewrite Hys. cbn [mbind result_bind].
  destruct (mapM_result_lookup _ _ _ Hys) as [Hlen Hcodes].
  exists ys. split; [reflexivity|]. split; [exact Hlen|].
  intros i k Hi.
  destruct (Hcodes i k Hi) as (z & Hz & Hcode).
  destruct (type_code_typed st k) as (c & t & j & Hc & Ht & Hj & Hcode').
  { apply Hall. by eapply list_elem_of_lookup_2. }
  rewrite Hcode' in Hcode. injection Hcode as <-.
  by exists c, t, j.
Qed.

(** [get_constraint_types] when every slot holds a constraint with a type
    of [CONSTRAINT_TYPES]: one code per slot, in slot order, and the code
    of a slot is the position of its type in [CONSTRAINT_TYPES], so that
    [CONSTRAINT_TYPES[code]] is the type again. *)
Theorem get_constraint_types_decode (st : fit.Fit) :
  (∀ k, k ∈ fit.fitting_parameter_unique st → typed_slot st k) →
  ∃ a,
    fit.get_constraint_types st = Ok a ∧
    np.shape a = [length (fit.fitting_parameter_unique st)] ∧
    length (np.flat a) = length (fit.fitting_parameter_unique st) ∧
    ∀ i k c t,
      fit.fitting_parameter_unique st !! i = Some k →
      fit._constraints st !! k = Some c → fit.c_type c = Some t →
      ∃ z, np.flat a !! i = Some z ∧ (0 ≤ z < 4)%Z ∧
           fit.list_getitem fit.CONSTRAINT_TYPES z = Ok t.
Proof.
  intros Hall. destruct (get_constraint_types_ok st Hall) as (ys & Hrun & Hlen & Hcodes).
  eexists. split; [exact Hrun|]. cbn [np.shape np.flat].
  split; [by rewrite Hlen|]. split; [exact Hlen|].
  intros i k c t Hi Hc Ht.
  destruct (Hcodes i k Hi) as (c' & t' & j & Hc' & Ht' & Hj & Hz).
  rewrite Hc in Hc'. injection Hc' as <-. rewrite Ht in Ht'. injection Ht' as <-.
  exists (Z.of_nat j). split; [exact Hz|].
  apply index_of_lookup in Hj. pose proof (lookup_lt_Some _ _ _ Hj) as Hlt.
  simpl in Hlt. split; [lia|]. by apply list_getitem_lookup.
Qed.

Lemma example_instance_typed (k : string) :
  k ∈ fit.fitting_parameter_unique example.instance → typed_slot example.instance k.
Proof.
  assert (Hu : fit.fitting_parameter_unique example.instance =
               ["center"; "width"; "contrast_0"; "contrast_1"; "contrast_2"; "offset"])
    by (vm_compute; reflexivity).
  rewrite Hu. intros Hk.
  repeat (apply elem_of_cons in Hk as [->|Hk];
          [eexists _, _; split; [vm_compute; reflexivity|split; reflexivity]|]).
  exfalso. exact (proj1 (elem_of_nil k) Hk).
Qed.

Lemma get_constraint_types_decode_witness :
  ∃ a z, fit.get_constraint_types example.instance = Ok a ∧
         np.flat a !! 5%nat = Some z ∧
         fit.list_getitem fit.CONSTRAINT_TYPES z = Ok "FREE".
Proof.
  destruct (get_constraint_types_decode example.instance example_instance_typed)
    as (a & Ha & _ & _ & Hcode).
  destruct (Hcode 5%nat "offset"
              {| fit.c_min := None; fit.c_max := None;
                 fit.c_type := Some "FREE"; fit.c_unit := "a.u." |} "FREE")
    as (z & Hz & _ & Hback).
  - vm_compute. reflexivity.
  - vm_compute. reflexivity.
  - reflexivity.
  - exists a, z. split; [exact Ha|]. split; [exact Hz|exact Hback].
Defined.

(** The first slot of the model that holds no constraint, or a constraint
    without a type, stops both readers: [get_constraints_array] and
    [get_constraint_types] raise [KeyError] with the name of a missing
    slot, and [get_constraint_types] raises [ValueError] on a slot stored
    without a type. *)
Theorem constraints_incomplete (st : fit.Fit) (i : nat) (k : string) :
  fit.fitting_parameter_unique st !! i = Some k →
  (∀ j k', (j < i)%nat → fit.fitting_parameter_unique st !! j = Some k' →
           typed_slot st k') →
  (fit._constraints st !! k = None →
     (∀ n, fit.get_constraints_array st n = Raise (KeyError k)) ∧
     fit.get_constraint_types st = Raise (KeyError k)) ∧
  (∀ c, fit._constraints st !! k = Some c → fit.c_type c = None →
     fit.get_constraint_types st = Raise (ValueError "None is not in list")).
Proof.
  intros Hi Hbefore. split.
  - intros Hk. split.
    + intros n. unfold fit.get_constraints_array.
      rewrite (foldM_first_error _ _ i k (KeyError k) Hi); [done| |].
      * intros acc. unfold fit.constraint_of. by rewrite Hk.
      * intros j k' acc Hj Hk'.
        destruct (Hbefore j k' Hj Hk') as (c & t & Hc & _).
        unfold fit.constraint_of. by rewrite Hc.
    + unfold fit.get_constraint_types.
      rewrite (mapM_result_first_error _ _ i k (KeyError k) Hi); [done| |].
      * unfold fit.constraint_of. by rewrite Hk.
      * intros j k' Hj Hk'.
        destruct (type_code_typed st k' (Hbefore j k' Hj Hk'))
          as (c & t & z & _ & _ & _ & ->). reflexivity.
  - intros c Hc Ht. unfold fit.get_constraint_types.
    rewrite (mapM_result_first_error _ _ i k (ValueError "None is not in list") Hi);
      [done| |].
    + unfold fit.constraint_of. rewrite Hc. cbn [mbind result_bind]. by rewrite Ht.
    + intros j k' Hj Hk'.
      destruct (type_code_typed st k' (Hbefore j k' Hj Hk'))
        as (c' & t & z & _ & _ & _ & ->). reflexivity.
Qed.

(** An instance built for GAUSS1D and switched to ESR14N with the setter of
    [model] still holds the four constraints of GAUSS1D: its third slot,
    contrast_0, has none. *)
Lemma constraints_incomplete_witness :
  fit._model example.switched = "ESR14N" ∧
  fit.get_constraints_array example.switched 6 = Raise (KeyError "contrast_0") ∧
  fit.get_constraint_types example.switched = Raise (KeyError "contrast_0").
Proof.
  split; [vm_compute; reflexivity|].
  destruct (constraints_incomplete example.switched 2 "contrast_0") as [Hmissing _].
  - vm_compute. reflexivity.
  - intros j k' Hj Hk'.
    destruct j as [|[|j]]; [| |lia]; vm_compute in Hk'; injection Hk' as <-;
      (eexists _, _; split; [vm_compute; reflexivity|split; reflexivity]).
  - destruct Hmissing as [Harr Htypes]; [vm_compute; reflexivity|].
    split; [apply Harr|exact Htypes].
Defined.

(** ** The default constraints and the free constraints *)

Lemma written_slots_frame (st st' : fit.Fit) (param : string) :
  fit._model_dict st' = fit._model_dict st →
  written_slots st' param = written_slots st param.
Proof.
  intros H. unfold written_slots, fit.fitting_parameter_unique, fit.fitting_parameter.
  by rewrite H.
Qed.

Lemma registered_frame (st st' : fit.Fit) :
  fit._model_dict st' = fit._model_dict st → registered st → registered st'.
Proof. intros H [k Hk]. exists k. by rewrite H. Qed.

(** One accepted call, as a step on the dictionary. *)
Lemma set_constraints_step (st : fit.Fit) (param : string) (vmin vmax : fit.bound)
    (ct : fit.ctype_arg) (stored : option string) :
  registered st →
  fit.checked_constraint_type ct = Ok stored →
  is_Ok (fit.dict_getitem fit.UNITS (kind_of param)) = true →
  ∃ st',
    fit.set_constraints param vmin vmax ct st = (Ok tt, st') ∧
    st' = constrained (fit._constraints st') st ∧
    ∀ k, fit._constraints st' !! k =
           if bool_decide (k ∈ written_slots st param)
           then Some {| fit.c_min := vmin; fit.c_max := vmax;
                        fit.c_type := stored; fit.c_unit := unit_of k |}
           else fit._constraints st !! k.
Proof.
  intros Hreg Hct Hkind.
  destruct (set_constraints_ok st param vmin vmax ct stored Hreg Hct Hkind)
    as [Hne Hrun].
  set (C := fun s => {| fit.c_min := vmin; fit.c_max := vmax;
                        fit.c_type := stored; fit.c_unit := unit_of s |}) in *.
  destruct (fold_constrained_frame C (written_slots st param) st)
    as (_ & _ & _ & _ & _ & _ & H7).
  pose proof (fold_constrained_constraints C (written_slots st param) st) as Hcs.
  set (st' := fold_left (fun st s => constrained (<[s := C s]> (fit._constraints st)) st)
                        (written_slots st param) st) in *.
  exists st'. split; [exact Hrun|]. split; [by apply H7|].
  intros k. rewrite Hcs. apply (fold_insert_lookup C).
Qed.

Lemma stored_type_ok (ct : fit.ctype_arg) :
  is_Ok (fit.checked_constraint_type ct) = true →
  fit.checked_constraint_type ct = Ok (stored_type ct).
Proof.
  unfold stored_type. by destruct (fit.checked_constraint_type ct).
Qed.

(** The slots of the four registered models, and the slots the four
    default calls write. *)
Lemma written_slots_cases (st : fit.Fit) :
  registered st →
  written_slots st "center" = ["center"] ∧ written_slots st "width" = ["width"] ∧
  written_slots st "offset" = ["offset"] ∧
  ((fit.fitting_parameter_unique st = ["center"; "width"; "contrast"; "offset"] ∧
    written_slots st "contrast" = ["contrast"]) ∨
   (fit.fitting_parameter_unique st =
      ["center"; "width"; "contrast_0"; "contrast_1"; "contrast_2"; "offset"] ∧
    written_slots st "contrast" = ["contrast_0"; "contrast_1"; "contrast_2"]) ∨
   (fit.fitting_parameter_unique st =
      ["center"; "width"; "contrast_0"; "contrast_1"; "offset"] ∧
    written_slots st "contrast" = ["contrast_0"; "contrast_1"])).
Proof.
  intros Hreg. split; [reflexivity|]. split; [reflexivity|]. split; [reflexivity|].
  unfold written_slots, fit.fitting_parameter_unique, fit.fitting_parameter.
  registered_cases Hreg; rewrite <- Hreg.
  - left. split; vm_compute; reflexivity.
  - right. left. split; vm_compute; reflexivity.
  - right. right. split; vm_compute; reflexivity.
  - left. split; vm_compute; reflexivity.
Qed.

Ltac decide_members :=
  repeat match goal with
         | |- context [bool_decide (?a ∈ ?l)] =>
             let b := eval vm_compute in (bool_decide (a ∈ l)) in
             change (bool_decide (a ∈ l)) with b
         end;
  cbv beta iota.

(** [k] is in none of the lists the goal tests, each a part of the list
    [H] excludes it from. *)
Ltac outside H :=
  repeat match goal with
         | |- context [bool_decide (?k ∈ ?l)] =>
             match type of H with
             | k ∉ ?u =>
                 rewrite (bool_decide_eq_false_2 (k ∈ l))
                   by (let Hsub := fresh in
                       assert (Hsub : l ⊆ u)
                         by (apply (bool_decide_unpack _); vm_compute; exact I);
                       exact (fun Hin => H (Hsub k Hin)))
             end
         end.

(** [_set_initial_constraints] on an instance of a registered model, with
    accepted types in [SETTINGS]: the call returns; every slot of the
    model holds the bounds, the type and the unit [SETTINGS] and [UNITS]
    give its kind; every other key is as before.  Both readers then
    succeed on the instance when no default type is [None]. *)
Theorem set_initial_constraints_cover (SETTINGS : fit.settings) (st : fit.Fit) :
  registered st →
  is_Ok (fit.checked_constraint_type (fit.s_center_type SETTINGS)) = true →
  is_Ok (fit.checked_constraint_type (fit.s_width_type SETTINGS)) = true →
  is_Ok (fit.checked_constraint_type (fit.s_contrast_type SETTINGS)) = true →
  is_Ok (fit.checked_constraint_type (fit.s_offset_type SETTINGS)) = true →
  ∃ st',
    fit._set_initial_constraints SETTINGS st = (Ok tt, st') ∧
    (∀ slot, slot ∈ fit.fitting_parameter_unique st →
       fit._constraints st' !! slot = Some (default_constraint SETTINGS (kind_of slot))) ∧
    (∀ k, k ∉ fit.fitting_parameter_unique st →
       fit._constraints st' !! k = fit._constraints st !! k) ∧
    st' = constrained (fit._constraints st') st ∧
    (∀ n, is_Ok (fit.get_constraints_array st' n) = true) ∧
    (fit.s_center_type SETTINGS ≠ fit.CNone → fit.s_width_type SETTINGS ≠ fit.CNone →
     fit.s_contrast_type SETTINGS ≠ fit.CNone → fit.s_offset_type SETTINGS ≠ fit.CNone →
     is_Ok (fit.get_constraint_types st') = true).
Proof.
  intros Hreg Hc Hw Hk Ho.
  apply stored_type_ok in Hc, Hw, Hk, Ho.
  destruct (set_constraints_step st "center" (fit.s_center_min SETTINGS)
              (fit.s_center_max SETTINGS) _ _ Hreg Hc eq_refl) as (s1 & R1 & E1 & L1).
  assert (M1 : fit._model_dict s1 = fit._model_dict st) by (by rewrite E1).
  destruct (set_constraints_step s1 "width" (fit.s_width_min SETTINGS)
              (fit.s_width_max SETTINGS) _ _ (registered_frame _ _ M1 Hreg) Hw eq_refl)
    as (s2 & R2 & E2 & L2).
  assert (M2 : fit._model_dict s2 = fit._model_dict st) by (by rewrite E2).
  destruct (set_constraints_step s2 "contrast" (fit.s_contrast_min SETTINGS)
              (fit.s_contrast_max SETTINGS) _ _ (registered_frame _ _ M2 Hreg) Hk eq_refl)
    as (s3 & R3 & E3 & L3).
  assert (M3 : fit._model_dict s3 = fit._model_dict st) by (by rewrite E3).
  destruct (set_constraints_step s3 "offset" (fit.s_offset_min SETTINGS)
              (fit.s_offset_max SETTINGS) _ _ (registered_frame _ _ M3 Hreg) Ho eq_refl)
    as (s4 & R4 & E4 & L4).
  assert (M4 : fit._model_dict s4 = fit._model_dict st) by (by rewrite E4).
  rewrite (written_slots_frame _ _ _ M1) in L2.
  rewrite (written_slots_frame _ _ _ M2) in L3.
  rewrite (written_slots_frame _ _ _ M3) in L4.
  destruct (written_slots_cases st Hreg) as (W1 & W2 & W4 & Hcases).
  rewrite W1 in L1. rewrite W2 in L2. rewrite W4 in L4.
  assert (Hlook : ∀ k, fit._constraints s4 !! k =
            if bool_decide (k ∈ ["offset"])
            then Some {| fit.c_min := fit.s_offset_min SETTINGS;
                         fit.c_max := fit.s_offset_max SETTINGS;
                         fit.c_type := stored_type (fit.s_offset_type SETTINGS);
                         fit.c_unit := unit_of k |}
            else if bool_decide (k ∈ written_slots st "contrast")
            then Some {| fit.c_min := fit.s_contrast_min SETTINGS;
                         fit.c_max := fit.s_contrast_max SETTINGS;
                         fit.c_type := stored_type (fit.s_contrast_type SETTINGS);
                         fit.c_unit := unit_of k |}
            else if bool_decide (k ∈ ["width"])
            then Some {| fit.c_min := fit.s_width_min SETTINGS;
                         fit.c_max := fit.s_width_max SETTINGS;
                         fit.c_type := stored_type (fit.s_width_type SETTINGS);
                         fit.c_unit := unit_of k |}
            else if bool_decide (k ∈ ["center"])
            then Some {| fit.c_min := fit.s_center_min SETTINGS;
                         fit.c_max := fit.s_center_max SETTINGS;
                         fit.c_type := stored_type (fit.s_center_type SETTINGS);
                         fit.c_unit := unit_of k |}
            else fit._constraints st !! k).
  { intros k. by rewrite L4, L3, L2, L1. }
  exists s4.
  assert (Hslots : ∀ slot, slot ∈ fit.fitting_parameter_unique st →
            fit._constraints s4 !! slot = Some (default_constraint SETTINGS (kind_of slot))).
  { intros slot Hslot. rewrite Hlook.
    destruct Hcases as [[Hu Wc]|[[Hu Wc]|[Hu Wc]]]; rewrite Wc; rewrite Hu in Hslot;
      repeat (apply elem_of_cons in Hslot as [->|Hslot];
              [decide_members; reflexivity|]);
      exfalso; exact (proj1 (elem_of_nil _) Hslot). }
  assert (Hother : ∀ k, k ∉ fit.fitting_parameter_unique st →
            fit._constraints s4 !! k = fit._constraints st !! k).
  { intros k Hout. rewrite Hlook.
    destruct Hcases as [[Hu Wc]|[[Hu Wc]|[Hu Wc]]]; rewrite Wc; rewrite Hu in Hout;
      outside Hout; reflexivity. }
  assert (Hu : fit.fitting_parameter_unique s4 = fit.fitting_parameter_unique st).
  { unfold fit.fitting_parameter_unique, fit.fitting_parameter. by rewrite M4. }
  split.
  { unfold fit._set_initial_constraints, mbind, fit.M_bind.
    rewrite R1, R2, R3. exact R4. }
  split; [exact Hslots|]. split; [exact Hother|]. split.
  { etrans; [exact E4|]. rewrite E3, E2, E1. reflexivity. }
  split.
  - intros n. unfold fit.get_constraints_array.
    rewrite foldM_constraints; [reflexivity|].
    intros k Hk'. rewrite Hu in Hk'. rewrite (Hslots k Hk'). by eexists.
  - intros Nc Nw Nk No.
    destruct (get_constraint_types_ok s4) as (ys & -> & _); [|reflexivity].
    intros k Hk'. rewrite Hu in Hk'.
    assert (Htyped : ∀ ct, ct ≠ fit.CNone →
              fit.checked_constraint_type ct = Ok (stored_type ct) →
              ∃ t, stored_type ct = Some t ∧ pystr.mem t fit.CONSTRAINT_TYPES = true).
    { intros ct Hne Hct. unfold stored_type in *.
      destruct ct as [|s|i]; [done| |]; unfold fit.checked_constraint_type in *;
        cbn [mbind result_bind fmap result_fmap] in *.
      - destruct (pystr.mem s fit.CONSTRAINT_TYPES) eqn:E; [by exists s|discriminate].
      - destruct (fit.list_getitem fit.CONSTRAINT_TYPES i) as [s|] eqn:Ei;
          [|discriminate]. cbn [mbind result_bind fmap result_fmap] in *.
        rewrite (list_getitem_mem _ _ _ Ei). exists s.
        split; [done|by eapply list_getitem_mem]. }
    destruct (Htyped _ Nc Hc) as (tc & Etc & Mtc).
    destruct (Htyped _ Nw Hw) as (tw & Etw & Mtw).
    destruct (Htyped _ Nk Hk) as (tk & Etk & Mtk).
    destruct (Htyped _ No Ho) as (to & Eto & Mto).
    assert (Hdt : ∃ t, fit.c_type (default_constraint SETTINGS (kind_of k)) = Some t ∧
                       pystr.mem t fit.CONSTRAINT_TYPES = true).
    { unfold default_constraint.
      repeat match goal with |- context [String.eqb ?a ?b] => destruct (String.eqb a b) end;
        cbn [fit.c_type]; eauto. }
    destruct Hdt as (t & Ht & Hm).
    exists (default_constraint SETTINGS (kind_of k)), t.
    split; [exact (Hslots k Hk')|]. split; [exact Ht|exact Hm].
Qed.

Lemma set_initial_constraints_cover_witness :
  ∃ st',
    fit._set_initial_constraints example.SETTINGS example.gauss_instance = (Ok tt, st') ∧
    fit._constraints st' !! "contrast" =
      Some {| fit.c_min := Some 0%Q; fit.c_max := Some 1%Q;
              fit.c_type := Some "LOWER_UPPER"; fit.c_unit := "a.u." |} ∧
    is_Ok (fit.get_constraint_types st') = true.
Proof.
  destruct (set_initial_constraints_cover example.SETTINGS example.gauss_instance)
    as (st' & Hrun & Hs & _ & _ & _ & Ht); try reflexivity.
  - exists "GAUSS1D". vm_compute. reflexivity.
  - exists st'. split; [exact Hrun|]. split.
    + apply (Hs "contrast"). apply (bool_decide_unpack _). vm_compute. exact I.
    + apply Ht; discriminate.
Defined.

Lemma registered_slots (st : fit.Fit) :
  registered st →
  fit.fitting_parameter_unique st ≠ [] ∧
  NoDup (fit.fitting_parameter_unique st) ∧
  Forall (single_slot (fit._model_dict st)) (fit.fitting_parameter_unique st).
Proof.
  intros Hreg. unfold fit.fitting_parameter_unique, fit.fitting_parameter.
  registered_cases Hreg; rewrite <- Hreg;
    (split; [vm_compute; discriminate|]);
    (split; [apply (bool_decide_unpack _); vm_compute; exact I|]);
    vm_compute fitting_parameter_unique_of; repeat constructor.
Qed.

(** [set_free_constraints] on an instance of a registered model: in
    whatever order the set of slots is run through, the call returns and
    leaves the same instance: every slot of the model holds no bounds, the
    type FREE and the unit of its kind, every other key is as before, the
    results are dropped, and [get_constraint_types] answers 0 for every
    slot. *)
Theorem set_free_constraints_any_order (st : fit.Fit) (out : result unit * fit.Fit) :
  registered st →
  fit.set_free_constraints st out →
  ∃ st',
    out = (Ok tt, st') ∧
    st' = constrained
            (fold_left (fun m s => <[s := free_constraint s]> m)
                       (fit.fitting_parameter_unique st) (fit._constraints st)) st ∧
    (∀ k, k ∈ fit.fitting_parameter_unique st →
       fit._constraints st' !! k = Some (free_constraint k)) ∧
    (∀ k, k ∉ fit.fitting_parameter_unique st →
       fit._constraints st' !! k = fit._constraints st !! k) ∧
    fit.get_constraint_types st' =
      Ok (np.mk [length (fit.fitting_parameter_unique st)]
                (replicate (length (fit.fitting_parameter_unique st)) 0%Z)).
Proof.
  intros Hreg (order & Hperm & Hrun).
  destruct (registered_slots st Hreg) as (Hne & Hnd & Hall).
  assert (Hmem : ∀ k, k ∈ order ↔ k ∈ fit.fitting_parameter_unique st).
  { intros k. by rewrite Hperm, elem_of_remove_dups. }
  assert (Hallo : Forall (single_slot (fit._model_dict st)) order).
  { apply Forall_forall. rewrite Forall_forall in Hall.
    intros s Hs. by apply Hall, Hmem. }
  assert (Hneo : order ≠ []).
  { intros ->. destruct (fit.fitting_parameter_unique st) as [|k ks]; [done|].
    apply (proj1 (elem_of_nil k)), Hmem, list_elem_of_here. }
  unfold fit.set_free_constraints_in in Hrun.
  change (fit.forM_ order
            (fun s => fit.set_constraints_rec (S 999) s None None
                        (fit.ctype_of (Some "FREE"))) st = out) in Hrun.
  rewrite (forM_slots 999 None None (Some "FREE") (fit._model_dict st) order st
             eq_refl Hallo eq_refl) in Hrun.
  change (fun s => {| fit.c_min := None; fit.c_max := None;
                      fit.c_type := Some "FREE"; fit.c_unit := unit_of s |})
    with free_constraint in Hrun.
  destruct (fold_constrained_frame free_constraint order st)
    as (_ & _ & _ & M & _ & _ & H7).
  specialize (H7 Hneo).
  pose proof (fold_constrained_constraints free_constraint order st) as Hcs.
  set (st' := fold_left (fun st s => constrained (<[s := free_constraint s]>
                                                    (fit._constraints st)) st)
                        order st) in *.
  assert (Hlook : ∀ k, fit._constraints st' !! k =
            if bool_decide (k ∈ fit.fitting_parameter_unique st)
            then Some (free_constraint k) else fit._constraints st !! k).
  { intros k. rewrite Hcs, fold_insert_lookup.
    by rewrite (bool_decide_ext _ _ (Hmem k)). }
  exists st'. split; [done|]. split.
  { rewrite H7. f_equal. apply map_eq. intros k.
    by rewrite Hlook, fold_insert_lookup. }
  split; [intros k Hk; by rewrite Hlook, bool_decide_eq_true_2|].
  split; [intros k Hk; by rewrite Hlook, bool_decide_eq_false_2|].
  assert (Hu : fit.fitting_parameter_unique st' = fit.fitting_parameter_unique st).
  { unfold fit.fitting_parameter_unique, fit.fitting_parameter. by rewrite M. }
  destruct (get_constraint_types_ok st') as (ys & -> & Hlen & Hcodes).
  { intros k Hk. rewrite Hu in Hk. exists (free_constraint k), "FREE".
    split; [by rewrite Hlook, bool_decide_eq_true_2|done]. }
  rewrite Hu in Hlen, Hcodes. rewrite Hlen. do 2 f_equal.
  symmetry. apply replicate_as_Forall. split; [exact Hlen|].
  apply Forall_lookup. intros i y Hy.
  destruct (lookup_lt_is_Some_2 (fit.fitting_parameter_unique st) i) as [k Ei].
  { rewrite <- Hlen. by eapply lookup_lt_Some. }
  destruct (Hcodes i k Ei) as (c & t & j & Hc & Ht & Hj & Hz).
  rewrite Hlook, bool_decide_eq_true_2 in Hc by (by eapply list_elem_of_lookup_2).
  injection Hc as <-. injection Ht as <-. injection Hj as <-.
  rewrite Hy in Hz. by injection Hz as ->.
Qed.

Lemma set_free_constraints_any_order_witness :
  ∃ st',
    fit.set_free_constraints_in
      ["offset"; "contrast_2"; "center"; "contrast_0"; "width"; "contrast_1"]
      example.instance = (Ok tt, st') ∧
    fit._constraints st' !! "width" =
      Some {| fit.c_min := None; fit.c_max := None;
              fit.c_type := Some "FREE"; fit.c_unit := "GHz" |} ∧
    fit.get_constraint_types st' = Ok (np.mk [6%nat] (replicate 6 0%Z)).
Proof.
  destruct (set_free_constraints_any_order example.instance
              (fit.set_free_constraints_in
                 ["offset"; "contrast_2"; "center"; "contrast_0"; "width"; "contrast_1"]
                 example.instance))
    as (st' & Hrun & _ & Hslots & _ & Htypes).
  - exists "ESR14N". vm_compute. reflexivity.
  - eexists. split; [|reflexivity].
    assert (Hu : remove_dups (fit.fitting_parameter_unique example.instance) =
                 ["center"; "width"; "contrast_0"; "contrast_1"; "contrast_2"; "offset"])
      by (vm_compute; reflexivity).
    rewrite Hu. apply NoDup_Permutation.
    + apply (bool_decide_unpack _). vm_compute. exact I.
    + apply (bool_decide_unpack _). vm_compute. exact I.
    + intros x. split; intros Hx;
        repeat (apply elem_of_cons in Hx as [->|Hx];
                [apply (bool_decide_unpack _); vm_compute; exact I|]);
        exfalso; exact (proj1 (elem_of_nil x) Hx).
  - exists st'. split; [exact Hrun|]. split; [|exact Htypes].
    apply (Hslots "width"). apply (bool_decide_unpack _). vm_compute. exact I.
Defined.
